(** * Sales-traffic analytics: ingestion and statistical analysis

    A shallow embedding of [data_loader.py] (the function [load_sales_data])
    and of [analysis.py] (basic statistics, KPI metrics, growth rate, moving
    average, anomaly detection, correlation matrix), followed by the
    properties that the specification states about them.  The date filter,
    the date range and the format validator of [data_loader.py], the upload
    handler of [app.py] and the loader of [data_loader_refactored.py] are
    embedded as well, with further properties of the code.

    Modelling choices, all of them visible in the definitions below:

    - A pandas [DataFrame] is an index (timestamps, as integers) and an
      ordered list of named columns.  A numeric column holds cells that are
      either a finite value or missing ([NaN]); text and datetime columns
      are kept apart because [select_dtypes] tells them apart.
    - Finite floating-point values are exact rationals: rounding is not
      modelled.  A float has one representation per value, so every
      operation of the code and every pandas reduction gives its result in
      lowest terms ([Qred]).  The IEEE special values [NaN], [+inf] and
      [-inf] are modelled, since the behaviour of the code on missing data
      and on a division by zero depends on them.  Signed zeros are not
      modelled.
    - [numpy.sqrt], [str.lower], [pandas.to_datetime], the file readers and
      [os.path.exists] are parameters of the development.
    - A Python exception is a value of [exn]; a [try]/[except] block is a
      match on a [result]; [st.error] appends to a log of messages that is
      returned next to the value. *)

From Stdlib Require Import Ascii String QArith Qround Qabs Qminmax Lqa Sorted.
From stdpp Require Import gmap strings list pretty.

Local Open Scope Q_scope.
Local Open Scope string_scope.
Local Open Scope list_scope.

(** ** Exceptions and results *)

Inductive exn : Type :=
| ValueError (msg : string)
| FileNotFoundError (msg : string)
| TypeError (msg : string)
| DataError (msg : string)
| OverflowError (msg : string)
| OtherError (msg : string).

(** [str(e)] *)
Definition exn_str (e : exn) : string :=
  match e with
  | ValueError m | FileNotFoundError m | TypeError m
  | DataError m | OverflowError m | OtherError m => m
  end.

Inductive result (A : Type) : Type :=
| Ok (a : A)
| Raise (e : exn).
Arguments Ok {A} a.
Arguments Raise {A} e.

#[global] Instance result_ret : MRet result := fun _ a => Ok a.
#[global] Instance result_bind : MBind result := fun _ _ k r =>
  match r with
  | Ok a => k a
  | Raise e => Raise e
  end.

(** ** Floating-point numbers without rounding *)

Inductive num : Type :=
| Fin (q : Q)
| PInf
| NInf
| NaN.

Definition Qis0 (q : Q) : bool := Qeq_bool q 0.
Definition Qltb (a b : Q) : bool := negb (Qle_bool b a).

Definition num_add (a b : num) : num :=
  match a, b with
  | NaN, _ | _, NaN => NaN
  | Fin x, Fin y => Fin (Qred (x + y))
  | PInf, NInf | NInf, PInf => NaN
  | PInf, _ | _, PInf => PInf
  | NInf, _ | _, NInf => NInf
  end.

Definition num_sub (a b : num) : num :=
  match a, b with
  | NaN, _ | _, NaN => NaN
  | Fin x, Fin y => Fin (Qred (x - y))
  | PInf, PInf | NInf, NInf => NaN
  | PInf, _ | _, NInf => PInf
  | NInf, _ | _, PInf => NInf
  end.

(** The sign of an infinite product or quotient. *)
Definition signed_inf (positive : bool) : num :=
  if positive then PInf else NInf.

Definition num_mul (a b : num) : num :=
  match a, b with
  | NaN, _ | _, NaN => NaN
  | Fin x, Fin y => Fin (Qred (x * y))
  | Fin x, PInf | PInf, Fin x =>
      if Qis0 x then NaN else signed_inf (Qltb 0 x)
  | Fin x, NInf | NInf, Fin x =>
      if Qis0 x then NaN else signed_inf (Qltb x 0)
  | PInf, PInf | NInf, NInf => PInf
  | PInf, NInf | NInf, PInf => NaN
  end.

(** Division follows IEEE 754: [0/0] and [inf/inf] are [NaN], a nonzero
    value over zero is an infinity.  The zero divisor is taken as [+0]. *)
Definition num_div (a b : num) : num :=
  match a, b with
  | NaN, _ | _, NaN => NaN
  | Fin x, Fin y =>
      if Qis0 y then
        if Qis0 x then NaN else signed_inf (Qltb 0 x)
      else Fin (Qred (x / y))
  | Fin _, PInf | Fin _, NInf => Fin 0
  | PInf, Fin y => signed_inf (Qle_bool 0 y)
  | NInf, Fin y => signed_inf (Qltb y 0)
  | _, _ => NaN
  end.

Definition num_abs (a : num) : num :=
  match a with
  | Fin x => Fin (Qred (Qabs x))
  | PInf | NInf => PInf
  | NaN => NaN
  end.

(** Comparisons: every comparison with [NaN] is false. *)
Definition num_ltb (a b : num) : bool :=
  match a, b with
  | NaN, _ | _, NaN => false
  | Fin x, Fin y => Qltb x y
  | NInf, NInf | PInf, _ | _, NInf => false
  | NInf, _ | _, PInf => true
  end.

Definition num_gtb (a b : num) : bool := num_ltb b a.

Definition num_leb (a b : num) : bool :=
  match a, b with
  | NaN, _ | _, NaN => false
  | Fin x, Fin y => Qle_bool x y
  | NInf, _ | _, PInf => true
  | PInf, _ | _, NInf => false
  end.

Definition num_eqb (a b : num) : bool :=
  match a, b with
  | Fin x, Fin y => Qeq_bool x y
  | PInf, PInf | NInf, NInf => true
  | _, _ => false
  end.

(** [int(x)]: truncation towards zero; [NaN] and the infinities raise. *)
Definition Qtrunc (q : Q) : Z := Z.quot (Qnum q) (Z.pos (Qden q)).

Definition num_to_int (a : num) : result Z :=
  match a with
  | Fin x => Ok (Qtrunc x)
  | NaN => Raise (ValueError "cannot convert float NaN to integer")
  | PInf | NInf =>
      Raise (OverflowError "cannot convert float infinity to integer")
  end.

(** ** Tables *)

(** A cell of a numeric column: a finite value, or [None] for a missing
    value ([NaN]). *)
Definition cell : Type := option Q.

Definition cell_num (c : cell) : num :=
  match c with
  | Some q => Fin q
  | None => NaN
  end.

Inductive column : Type :=
| NumCol (vs : list cell)
| ObjCol (vs : list string)
| DateCol (vs : list Z).

Record DataFrame : Type := mkFrame {
  index : list Z;
  columns : list (string * column)
}.

(** [pd.DataFrame()] *)
Definition empty_frame : DataFrame := mkFrame [] [].

(** [len(df)] *)
Definition df_len (df : DataFrame) : nat := length (index df).

(** [df.empty]: one of the two axes has length zero. *)
Definition df_empty (df : DataFrame) : bool :=
  (df_len df =? 0)%nat || (length (columns df) =? 0)%nat.

(** [df.columns] *)
Definition column_names (df : DataFrame) : list string :=
  map fst (columns df).

Definition is_numeric (c : column) : bool :=
  match c with
  | NumCol _ => true
  | _ => false
  end.

(** [df.select_dtypes(include=[np.number]).columns] *)
Definition numeric_columns (df : DataFrame) : list string :=
  map fst (filter (fun p => is_numeric (snd p) = true) (columns df)).

(** [df[name]], for a frame whose labels are unique: the first column
    carrying the label. *)
Fixpoint lookup_column (cols : list (string * column)) (name : string)
  : option column :=
  match cols with
  | [] => None
  | (n, c) :: rest =>
      if String.eqb n name then Some c else lookup_column rest name
  end.

Definition getitem (df : DataFrame) (name : string) : option column :=
  lookup_column (columns df) name.

(** [result[name] = c]: overwrite the column carrying the label when there
    is one, append a new column otherwise. *)
Fixpoint set_column (cols : list (string * column)) (name : string)
  (c : column) : list (string * column) :=
  match cols with
  | [] => [(name, c)]
  | (n, c0) :: rest =>
      if String.eqb n name then (n, c) :: rest
      else (n, c0) :: set_column rest name c
  end.

Definition setitem (df : DataFrame) (name : string) (c : column)
  : DataFrame :=
  mkFrame (index df) (set_column (columns df) name c).

(** Labels are unique and every column is aligned to the index. *)
Definition col_length (c : column) : nat :=
  match c with
  | NumCol vs => length vs
  | ObjCol vs => length vs
  | DateCol vs => length vs
  end.

Definition well_formed (df : DataFrame) : Prop :=
  NoDup (column_names df) /\
  Forall (fun p => col_length (snd p) = df_len df) (columns df).

(** ** Reductions of a numeric series (pandas, [skipna=True]) *)

Definition dropna (vs : list cell) : list Q := omap id vs.

Definition Qsum (xs : list Q) : Q := fold_right Qplus 0 xs.

Definition Qlen (xs : list Q) : Q := inject_Z (Z.of_nat (length xs)).

Definition Qmean (xs : list Q) : Q := Qsum xs / Qlen xs.

(** [Series.count()] *)
Definition col_count (vs : list cell) : nat := length (dropna vs).

(** [Series.sum()]: the sum of no value is [0.0]. *)
Definition col_sum (vs : list cell) : num := Fin (Qred (Qsum (dropna vs))).

(** [Series.mean()]: [NaN] when no value is present. *)
Definition col_mean (vs : list cell) : num :=
  match dropna vs with
  | [] => NaN
  | xs => Fin (Qred (Qmean xs))
  end.

Definition col_min (vs : list cell) : num :=
  match dropna vs with
  | [] => NaN
  | x :: xs => Fin (Qred (fold_right Qmin x xs))
  end.

Definition col_max (vs : list cell) : num :=
  match dropna vs with
  | [] => NaN
  | x :: xs => Fin (Qred (fold_right Qmax x xs))
  end.

(** Sum of the squared deviations from the mean. *)
Definition Qssq (xs : list Q) : Q :=
  let m := Qmean xs in
  Qsum (map (fun x => (x - m) * (x - m)) xs).

(** Sample variance ([ddof=1]) of at least two values. *)
Definition Qvar (xs : list Q) : Q :=
  Qssq xs / inject_Z (Z.of_nat (length xs - 1)).

Fixpoint insert_sorted (x : Q) (l : list Q) : list Q :=
  match l with
  | [] => [x]
  | y :: l' =>
      if Qle_bool x y then x :: l else y :: insert_sorted x l'
  end.

Definition sort_values (xs : list Q) : list Q :=
  fold_right insert_sorted [] xs.

(** [Series.median()] *)
Definition col_median (vs : list cell) : num :=
  let s := sort_values (dropna vs) in
  let n := length s in
  if (n =? 0)%nat then NaN
  else if Nat.odd n then Fin (Qred (nth (n / 2) s 0))
  else Fin (Qred ((nth (n / 2 - 1) s 0 + nth (n / 2) s 0) / 2)).

(** [Series.quantile(p)] with linear interpolation between the two closest
    ranks. *)
Definition col_quantile (p : Q) (vs : list cell) : num :=
  let s := sort_values (dropna vs) in
  let n := length s in
  if (n =? 0)%nat then NaN
  else
    let pos := p * inject_Z (Z.of_nat (n - 1)) in
    let lo := Z.to_nat (Qfloor pos) in
    let frac := pos - inject_Z (Z.of_nat lo) in
    let a := nth lo s 0 in
    let b := nth (Nat.min (lo + 1) (n - 1)) s 0 in
    Fin (Qred (a + (b - a) * frac)).

(** The window of a rolling mean: missing when a value of the window is
    missing ([min_periods] is the window length) or the window is empty. *)
Definition window_mean (w : list cell) : cell :=
  match w with
  | [] => None
  | _ =>
      if forallb (fun c => match c with Some _ => true | None => false end) w
      then Some (Qred (Qmean (dropna w)))
      else None
  end.

(** One pass over the rows: [past] holds the rows already seen. *)
Fixpoint rolling_from (w : nat) (past rest : list cell) : list cell :=
  match rest with
  | [] => []
  | v :: rest' =>
      let seen := past ++ [v] in
      (if (length seen <? w)%nat then None
       else window_mean (drop (length seen - w) seen))
      :: rolling_from w seen rest'
  end.

(** [Series.rolling(window=window).mean()]; a text series cannot be
    aggregated and a negative window is refused. *)
Definition rolling_mean (window : Z) (c : column) : result (list cell) :=
  match c with
  | NumCol vs =>
      if (window <? 0)%Z
      then Raise (ValueError "window must be an integer 0 or greater")
      else Ok (rolling_from (Z.to_nat window) [] vs)
  | _ => Raise (DataError "No numeric types to aggregate")
  end.

(** Row-wise sum of the numeric cells, missing cells skipped. *)
Definition add_cells (acc : list Q) (vs : list cell) : list Q :=
  zip_with (fun a c => match c with Some q => a + q | None => a end) acc vs.

(** [df.sum(axis=1)]: a column that is not numeric cannot be added
    (pandas 2, where [numeric_only] is false by default). *)
Fixpoint sum_rows (acc : list Q) (cols : list (string * column))
  : result (list Q) :=
  match cols with
  | [] => Ok acc
  | (_, NumCol vs) :: rest => sum_rows (add_cells acc vs) rest
  | (_, _) :: _ =>
      Raise (TypeError "unsupported operand type(s) for +")
  end.

Definition sum_axis1 (df : DataFrame) : result (list cell) :=
  acc ← sum_rows (replicate (df_len df) 0) (columns df);
  Ok (map (fun q => Some (Qred q)) acc).

(** ** analysis.py *)

Inductive pyval : Type :=
| PyInt (z : Z)
| PyFloat (x : num).

(** The value of one entry of the statistics dictionary. *)
Record Stats : Type := mkStats {
  s_mean : num;
  s_median : num;
  s_std : num;
  s_min : num;
  s_max : num;
  s_sum : num;
  s_count : Z
}.

(** The frame returned by [DataFrame.corr()]: the same labels on both
    axes. *)
Record Matrix : Type := mkMatrix {
  labels : list string;
  entries : list (list num)
}.

(** [pd.DataFrame()] as a correlation matrix. *)
Definition empty_matrix : Matrix := mkMatrix [] [].

(** [_calculate_growth_rate] *)
Definition _calculate_growth_rate (series : list cell) : num :=
  if (length series <? 2)%nat then Fin 0
  else
    let first_value := cell_num (nth 0 series None) in
    let last_value := cell_num (List.last series None) in
    if num_eqb first_value (Fin 0) then Fin 0
    else
      num_mul (num_div (num_sub last_value first_value) first_value)
              (Fin 100).

Definition calculate_kpi_metrics_body (df : DataFrame)
  : result (gmap string pyval) :=
  if df_empty df then
    Ok (<["total_sessions" := PyInt 0]>
        (<["avg_daily_sessions" := PyFloat (Fin 0)]>
         (<["max_daily_sessions" := PyInt 0]> ∅)))
  else
    total_sales ← sum_axis1 df;
    total ← num_to_int (col_sum total_sales);
    highest ← num_to_int (col_max total_sales);
    lowest ← num_to_int (col_min total_sales);
    Ok (<["total_sessions" := PyInt total]>
        (<["avg_daily_sessions" := PyFloat (col_mean total_sales)]>
         (<["max_daily_sessions" := PyInt highest]>
          (<["min_daily_sessions" := PyInt lowest]>
           (<["days_count" := PyInt (Z.of_nat (df_len df))]>
            (<["growth_rate" :=
                 PyFloat (_calculate_growth_rate total_sales)]> ∅)))))).

(** [calculate_kpi_metrics]: the value and the messages given to
    [st.error]. *)
Definition calculate_kpi_metrics (df : DataFrame)
  : gmap string pyval * list string :=
  match calculate_kpi_metrics_body df with
  | Ok kpi_metrics => (kpi_metrics, [])
  | Raise e =>
      (∅, ["Ошибка при расчете KPI метрик: " +:+ exn_str e])
  end.

(** The numeric series [df[column]]. *)
Definition series (df : DataFrame) (name : string) : result (list cell) :=
  match getitem df name with
  | Some (NumCol vs) => Ok vs
  | Some _ => Raise (TypeError ("not a numeric series: " +:+ name))
  | None => Raise (OtherError ("KeyError: " +:+ name))
  end.

(** [f"{column}_MA{window}"] *)
Definition ma_name (column : string) (window : Z) : string :=
  column +:+ "_MA" +:+ pretty window.

(** One turn of the loop of [calculate_moving_average]: the series is
    read from [df], the new column is written to [result]. *)
Definition add_moving_average (df : DataFrame) (window : Z)
  (acc : result DataFrame) (col : string) : result DataFrame :=
  res ← acc;
  c ← match getitem df col with
      | Some c => Ok c
      | None => Raise (OtherError ("KeyError: " +:+ col))
      end;
  ma ← rolling_mean window c;
  Ok (setitem res (ma_name col window) (NumCol ma)).

(** Truth value of the argument [column]: [None] and the empty string are
    false. *)
Definition truthy (column : option string) : bool :=
  match column with
  | None => false
  | Some s => negb (String.eqb s "")
  end.

Definition calculate_moving_average_body (df : DataFrame) (window : Z)
  (column : option string) : result DataFrame :=
  if df_empty df then Ok empty_frame
  else
    match column with
    | Some col =>
        if truthy column && bool_decide (col ∈ column_names df)
        then add_moving_average df window (Ok df) col
        else foldl (add_moving_average df window) (Ok df)
                   (numeric_columns df)
    | None =>
        foldl (add_moving_average df window) (Ok df) (numeric_columns df)
    end.

Definition calculate_moving_average (df : DataFrame) (window : Z)
  (column : option string) : DataFrame * list string :=
  match calculate_moving_average_body df window column with
  | Ok res => (res, [])
  | Raise e =>
      (df, ["Ошибка при расчете скользящего среднего: " +:+ exn_str e])
  end.

(** Boolean-mask selection: [df[mask].index], [df.loc[mask, column]]. *)
Fixpoint select_mask {A : Type} (mask : list bool) (l : list A) : list A :=
  match mask, l with
  | b :: mask', x :: l' =>
      if b then x :: select_mask mask' l' else select_mask mask' l'
  | _, _ => []
  end.

Section Analysis.

(** [numpy.sqrt] on a finite value. *)
Variable sqrt : Q -> Q.

(** [Series.std()]: sample standard deviation, [NaN] with fewer than two
    values. *)
Definition col_std (vs : list cell) : num :=
  let xs := dropna vs in
  if (length xs <? 2)%nat then NaN
  else Fin (Qred (sqrt (Qred (Qvar xs)))).

Definition column_stats (vs : list cell) : Stats :=
  mkStats (col_mean vs) (col_median vs) (col_std vs)
          (col_min vs) (col_max vs) (col_sum vs)
          (Z.of_nat (col_count vs)).

Definition add_statistics (df : DataFrame)
  (acc : result (gmap string Stats)) (column : string)
  : result (gmap string Stats) :=
  statistics ← acc;
  vs ← series df column;
  Ok (<[column := column_stats vs]> statistics).

Definition calculate_basic_statistics_body (df : DataFrame)
  : result (gmap string Stats) :=
  if df_empty df then Ok ∅
  else foldl (add_statistics df) (Ok ∅) (numeric_columns df).

Definition calculate_basic_statistics (df : DataFrame)
  : gmap string Stats * list string :=
  match calculate_basic_statistics_body df with
  | Ok statistics => (statistics, [])
  | Raise e =>
      (∅, ["Ошибка при расчете базовой статистики: " +:+ exn_str e])
  end.

(** [np.abs((s - s.mean()) / s.std()) > threshold] *)
Definition zscore_mask (vs : list cell) (threshold : num) : list bool :=
  let mean := col_mean vs in
  let std := col_std vs in
  map (fun c =>
         num_gtb (num_abs (num_div (num_sub (cell_num c) mean) std))
                 threshold) vs.

(** [(s < lower_bound) | (s > upper_bound)] *)
Definition iqr_mask (vs : list cell) (threshold : num) : list bool :=
  let Q1 := col_quantile (1 # 4) vs in
  let Q3 := col_quantile (3 # 4) vs in
  let IQR := num_sub Q3 Q1 in
  let lower_bound := num_sub Q1 (num_mul threshold IQR) in
  let upper_bound := num_add Q3 (num_mul threshold IQR) in
  map (fun c =>
         num_ltb (cell_num c) lower_bound
         || num_gtb (cell_num c) upper_bound) vs.

(** The rows kept by a mask, as [(date, float(value))] pairs. *)
Definition masked_rows (df : DataFrame) (vs : list cell)
  (anomaly_mask : list bool) : list (Z * num) :=
  let anomaly_dates := select_mask anomaly_mask (index df) in
  let anomaly_values := select_mask anomaly_mask vs in
  zip_with (fun date value => (date, cell_num value))
           anomaly_dates anomaly_values.

(** One turn of the loop of [detect_anomalies]; any other method is the
    [continue] branch. *)
Definition add_anomalies (df : DataFrame) (threshold : num)
  (method : string) (acc : result (gmap string (list (Z * num))))
  (column : string) : result (gmap string (list (Z * num))) :=
  anomalies ← acc;
  if String.eqb method "zscore" then
    vs ← series df column;
    Ok (<[column := masked_rows df vs (zscore_mask vs threshold)]>
        anomalies)
  else if String.eqb method "iqr" then
    vs ← series df column;
    Ok (<[column := masked_rows df vs (iqr_mask vs threshold)]>
        anomalies)
  else Ok anomalies.

Definition detect_anomalies_body (df : DataFrame) (threshold : num)
  (method : string) : result (gmap string (list (Z * num))) :=
  if df_empty df then Ok ∅
  else foldl (add_anomalies df threshold method) (Ok ∅)
             (numeric_columns df).

Definition detect_anomalies (df : DataFrame) (threshold : num)
  (method : string) : gmap string (list (Z * num)) * list string :=
  match detect_anomalies_body df threshold method with
  | Ok anomalies => (anomalies, [])
  | Raise e =>
      (∅, ["Ошибка при обнаружении аномалий: " +:+ exn_str e])
  end.

(** The rows on which both series have a value. *)
Fixpoint complete_pairs (xs ys : list cell) : list (Q * Q) :=
  match xs, ys with
  | Some x :: xs', Some y :: ys' => (x, y) :: complete_pairs xs' ys'
  | _ :: xs', _ :: ys' => complete_pairs xs' ys'
  | _, _ => []
  end.

(** Pearson correlation over the pairwise complete rows; [NaN] when no
    row is complete or one of the series is constant. *)
Definition pearson (xs ys : list cell) : num :=
  let ps := complete_pairs xs ys in
  match ps with
  | [] => NaN
  | _ =>
      let mx := Qmean (map fst ps) in
      let my := Qmean (map snd ps) in
      let cov := Qsum (map (fun p => (fst p - mx) * (snd p - my)) ps) in
      let divisor := sqrt (Qred (Qssq (map fst ps) * Qssq (map snd ps))) in
      if Qis0 divisor then NaN else Fin (Qred (cov / divisor))
  end.

(** The numeric columns of the frame, in order: [df[numeric_columns]]. *)
Definition numeric_series (df : DataFrame) : list (string * list cell) :=
  omap (fun p => match snd p with
                 | NumCol vs => Some (fst p, vs)
                 | _ => None
                 end) (columns df).

(** [DataFrame.corr()] *)
Definition corr (cols : list (string * list cell)) : Matrix :=
  mkMatrix (map fst cols)
           (map (fun r => map (fun c => pearson (snd r) (snd c)) cols)
                cols).

Definition calculate_correlation_matrix_body (df : DataFrame)
  : result Matrix :=
  if df_empty df then Ok empty_matrix
  else Ok (corr (numeric_series df)).

Definition calculate_correlation_matrix (df : DataFrame)
  : Matrix * list string :=
  match calculate_correlation_matrix_body df with
  | Ok correlation_matrix => (correlation_matrix, [])
  | Raise e =>
      (empty_matrix,
       ["Ошибка при расчете корреляционной матрицы: " +:+ exn_str e])
  end.

End Analysis.

(** ** data_loader.py *)

(** A file uploaded through the page: [uploaded_file.name] and its
    content. *)
Record UploadedFile : Type := mkUpload {
  file_name : string;
  file_data : string
}.

(** [s.endswith(suffix)] *)
Definition ends_with (s suffix : string) : bool :=
  String.prefix (String.rev suffix) (String.rev s).

(** [sub in s] *)
Fixpoint contains (s sub : string) : bool :=
  String.prefix sub s
  || match s with
     | EmptyString => false
     | String _ s' => contains s' sub
     end.

(** The two conditions raised while the date column is looked for. *)
Definition first_column_not_dates : exn :=
  ValueError "Первый столбец не содержит распознаваемые даты".

Definition no_date_column : exn :=
  ValueError "Столбец с датами не найден".

Definition no_numeric_columns : exn :=
  ValueError "Не найдены числовые столбцы с данными".

Definition unsupported_format : exn :=
  ValueError "Поддерживаются только файлы .xlsx, .xls и .csv".

(** [Series.head()]: the first five rows. *)
Definition col_head (c : column) : column :=
  match c with
  | NumCol vs => NumCol (take 5 vs)
  | ObjCol vs => ObjCol (take 5 vs)
  | DateCol vs => DateCol (take 5 vs)
  end.

(** [df.rename(columns={old: new})] *)
Definition rename (df : DataFrame) (old new : string) : DataFrame :=
  mkFrame (index df)
          (map (fun p => if String.eqb (fst p) old then (new, snd p) else p)
               (columns df)).

Section Loader.

(** [str.lower] *)
Variable lower : string -> string.

(** [pd.to_datetime] on a series: the timestamps, or the exception. *)
Variable to_datetime : column -> result (list Z).

(** [os.path.exists], [pd.read_excel] and [pd.read_csv]. *)
Variable path_exists : string -> bool.
Variable read_excel_path : string -> result DataFrame.
Variable read_excel_upload : UploadedFile -> result DataFrame.
Variable read_csv_upload : UploadedFile -> result DataFrame.

(** Lines 33-52: the source of the data. *)
Definition read_source (file_path : option string)
  (uploaded_file : option UploadedFile) : result DataFrame :=
  match uploaded_file with
  | Some u =>
      if ends_with (file_name u) ".xlsx" || ends_with (file_name u) ".xls"
      then read_excel_upload u
      else if ends_with (file_name u) ".csv" then read_csv_upload u
      else Raise unsupported_format
  | None =>
      match file_path with
      | Some p =>
          if negb (path_exists p)
          then Raise (FileNotFoundError ("Файл " +:+ p +:+ " не найден"))
          else read_excel_path p
      | None =>
          let default_path := "docs/sample_sales_data.xlsx" in
          if path_exists default_path then read_excel_path default_path
          else Raise (FileNotFoundError
                 "Файл данных не найден. Пожалуйста, загрузите файл.")
      end
  end.

(** The test of the loop over the column names (lines 60-62). *)
Definition is_date_name (col : string) : bool :=
  let col_lower := lower col in
  contains col_lower "дата" || contains col_lower "date"
  || contains col_lower "время" || String.eqb col "Unnamed: 0".

(** Lines 54-76: the column that holds the dates. *)
Definition locate_date_column (df : DataFrame) : result string :=
  let first_col := head (column_names df) in
  let date_column := List.find is_date_name (column_names df) in
  date_column ←
    match date_column, first_col with
    | None, Some fc =>
        match c ← match getitem df fc with
                  | Some c => Ok c
                  | None => Raise (OtherError ("KeyError: " +:+ fc))
                  end;
              to_datetime (col_head c) with
        | Ok _ => Ok (Some fc)
        | Raise _ => Raise first_column_not_dates
        end
    | _, _ => Ok date_column
    end;
  match date_column with
  | None => Raise no_date_column
  | Some col => Ok col
  end.

(** Lines 78-93: rename, parse the dates, index by them, check that a
    numeric column is left. *)
Definition normalise (df : DataFrame) (date_column : string)
  : result DataFrame :=
  let df1 :=
    if String.eqb date_column "Дата" then df
    else rename df date_column "Дата" in
  dates ←
    match filter (fun p => fst p = "Дата") (columns df1) with
    | [(_, c)] => to_datetime c
    | _ => Raise (ValueError
             "to assemble mappings requires at least that [year, month, day] be specified")
    end;
  let df2 :=
    mkFrame dates (filter (fun p => fst p ≠ "Дата") (columns df1)) in
  if (length (numeric_columns df2) =? 0)%nat
  then Raise no_numeric_columns
  else Ok df2.

Definition load_sales_data_body (file_path : option string)
  (uploaded_file : option UploadedFile) : result DataFrame :=
  df ← read_source file_path uploaded_file;
  date_column ← locate_date_column df;
  normalise df date_column.

(** [load_sales_data]: the table and the messages given to [st.error]. *)
Definition load_sales_data (file_path : option string)
  (uploaded_file : option UploadedFile) : DataFrame * list string :=
  match load_sales_data_body file_path uploaded_file with
  | Ok df => (df, [])
  | Raise e => (empty_frame, ["Ошибка при загрузке данных: " +:+ exn_str e])
  end.

End Loader.

(** A lower-casing function for the examples: ASCII letters and the basic
    Cyrillic letters in UTF-8 (two bytes each). *)
Definition lower_ascii (c : ascii) : ascii :=
  let n := nat_of_ascii c in
  if ((65 <=? n) && (n <=? 90))%nat then ascii_of_nat (n + 32) else c.

Fixpoint lower_basic (s : string) : string :=
  match s with
  | EmptyString => EmptyString
  | String a EmptyString => String (lower_ascii a) EmptyString
  | String a (String b rest as tl) =>
      let x := nat_of_ascii a in
      let y := nat_of_ascii b in
      if ((x =? 208) && (144 <=? y) && (y <=? 159))%nat
      then String a (String (ascii_of_nat (y + 32)) (lower_basic rest))
      else if ((x =? 208) && (160 <=? y) && (y <=? 175))%nat
      then String (ascii_of_nat 209)
                  (String (ascii_of_nat (y - 32)) (lower_basic rest))
      else String (lower_ascii a) (lower_basic tl)
  end.

(** ** The rules of the specification, in its own words

    These definitions follow the text of the specification, not the code;
    the properties below compare them with the code. *)

(** z-score rule: [|value - mean| / std > threshold]. *)
Definition zscore_rule (mean std threshold : num) (c : cell) : bool :=
  num_gtb (num_div (num_abs (num_sub (cell_num c) mean)) std) threshold.

(** IQR rule: the value lies outside
    [[Q1 - threshold * IQR, Q3 + threshold * IQR]] with [IQR = Q3 - Q1]. *)
Definition iqr_rule (Q1 Q3 threshold : num) (c : cell) : bool :=
  let IQR := num_sub Q3 Q1 in
  num_ltb (cell_num c) (num_sub Q1 (num_mul threshold IQR))
  || num_gtb (cell_num c) (num_add Q3 (num_mul threshold IQR)).

(** Every value present in the series is equal to [q]. *)
Definition constant_series (q : Q) (vs : list cell) : Prop :=
  Forall (fun c : cell => match c with
                          | Some x => x == q
                          | None => True
                          end) vs.

(** The entry of a matrix at row [i] and column [j]. *)
Definition entry (m : Matrix) (i j : nat) : option num :=
  match entries m !! i with
  | Some row => row !! j
  | None => None
  end.

(** The series has at least two values and their sample variance is not
    zero. *)
Definition nonzero_variance (vs : list cell) : Prop :=
  (2 <= length (dropna vs))%nat /\ ~ Qvar (dropna vs) == 0.

(** The rows that satisfy a rule, in the order of the table, each as a
    (timestamp, value) pair. *)
Definition flagged_rows (rule : cell -> bool) (dates : list Z)
  (vs : list cell) : list (Z * num) :=
  map (fun r => (fst r, cell_num (snd r)))
      (List.filter (fun r => rule (snd r)) (combine dates vs)).

(** The anomalies listed for a column: none when the column has no
    entry. *)
Definition anomalies_of (anomalies : gmap string (list (Z * num)))
  (name : string) : list (Z * num) :=
  default [] (anomalies !! name).

(** Five days of sales: a series with a missing value, a text column and a
    complete series. *)
Definition sample_frame : DataFrame :=
  mkFrame [1; 2; 3; 4; 5]%Z
    [("A", NumCol [Some 100; None; Some 110; Some 130; Some 140]);
     ("T", ObjCol ["a"; "b"; "c"; "d"; "e"]);
     ("B", NumCol [Some 80; Some 90; Some 85; Some 95; Some 100])].

(** Four days, one of them far from the others. *)
Definition spike_frame : DataFrame :=
  mkFrame [1; 2; 3; 4]%Z
    [("A", NumCol [Some 2; Some 2; Some 2; Some 10])].

(** A constant series. *)
Definition flat_frame : DataFrame :=
  mkFrame [1; 2; 3]%Z [("A", NumCol [Some 7; Some 7; Some 7])].

(** A table with a column and no row, as a date filter can leave it. *)
Definition no_rows_frame : DataFrame := mkFrame [] [("A", NumCol [])].

(** The fixtures of [test_analysis.py]. *)
Definition present (zs : list Z) : list cell :=
  map (fun z => Some (inject_Z z)) zs.

Definition test_sample_data : DataFrame :=
  mkFrame [1; 2; 3; 4; 5; 6; 7; 8; 9; 10]%Z
    [("Продукт_1",
      NumCol (present [100; 120; 110; 130; 140; 135; 150; 160; 155; 170]%Z));
     ("Продукт_2",
      NumCol (present [80; 90; 85; 95; 100; 105; 110; 115; 120; 125]%Z));
     ("Продукт_3",
      NumCol (present [60; 65; 70; 75; 80; 85; 90; 95; 100; 105]%Z))].

Definition test_data_with_missing : DataFrame :=
  mkFrame [1; 2; 3; 4; 5]%Z
    [("Продукт_1", NumCol [Some 100; None; Some 110; Some 130; Some 140]);
     ("Продукт_2", NumCol [Some 80; Some 90; None; Some 95; Some 100]);
     ("Продукт_3", NumCol [Some 60; Some 65; Some 70; None; Some 80])].

Definition test_single_column_data : DataFrame :=
  mkFrame [1; 2; 3; 4; 5]%Z
    [("Продукт_1", NumCol (present [100; 120; 110; 130; 140]%Z))].

(** Sample parameters for the examples: a parser that accepts datetime
    and numeric series and refuses text, a reader that returns a given
    table, a square root that is exact on the squares of rationals. *)
Definition to_datetime_sample (c : column) : result (list Z) :=
  match c with
  | DateCol ds => Ok ds
  | NumCol vs =>
      Ok (map (fun v => match v with
                        | Some q => Qfloor q
                        | None => 0%Z
                        end) vs)
  | ObjCol _ => Raise (ValueError "Unknown datetime string format")
  end.

Definition reader_sample (df : DataFrame) (u : UploadedFile)
  : result DataFrame := Ok df.

Definition no_file (p : string) : bool := false.

Definition no_reader (p : string) : result DataFrame :=
  Raise (OtherError "cannot read").

Definition sqrt_sample (q : Q) : Q :=
  inject_Z (Z.sqrt (Qnum q)) / inject_Z (Z.sqrt (Z.pos (Qden q))).

Definition csv_upload : UploadedFile := mkUpload "sales.csv" "".

(** A raw table whose first column is text and has no date-like name. *)
Definition raw_text_first : DataFrame :=
  mkFrame [0; 1]%Z
          [("x", ObjCol ["a"; "b"]); ("P", NumCol [Some 1; Some 2])].

(** A raw table with a date-like name in second position. *)
Definition raw_named_date : DataFrame :=
  mkFrame [0; 1]%Z
          [("P", NumCol [Some 1; Some 2]); ("My Date", DateCol [10; 11]%Z)].

(** A raw table whose first column holds dates under an unrelated name. *)
Definition raw_first_dates : DataFrame :=
  mkFrame [0; 1]%Z
          [("Day", DateCol [10; 11]%Z); ("P", NumCol [Some 1; Some 2])].

(** ** data_loader.py: date filter, date range, format validator *)

(** A timestamp of the index is a number of nanoseconds since the epoch,
    as pandas stores it; a calendar date is a number of days. *)
Definition day_ns : Z := 86400000000000.

(** [Timestamp.date()] *)
Definition date_of (ts : Z) : Z := (ts / day_ns)%Z.

(** A value of type [Union[date, datetime]]. *)
Inductive pydate : Type :=
| Date (day : Z)
| Datetime (ts : Z).

(** [pd.Timestamp(d)]: a date is taken at midnight. *)
Definition to_timestamp (d : pydate) : Z :=
  match d with
  | Date day => (day * day_ns)%Z
  | Datetime ts => ts
  end.

Definition select_column (mask : list bool) (c : column) : column :=
  match c with
  | NumCol vs => NumCol (select_mask mask vs)
  | ObjCol vs => ObjCol (select_mask mask vs)
  | DateCol vs => DateCol (select_mask mask vs)
  end.

(** [df[mask]]: the rows kept by a boolean mask, in every column. *)
Definition select_rows (mask : list bool) (df : DataFrame) : DataFrame :=
  mkFrame (select_mask mask (index df))
          (map (fun p => (fst p, select_column mask (snd p))) (columns df)).

(** [(df.index >= start_date) & (df.index <= end_date)] *)
Definition in_range (start_date end_date d : Z) : bool :=
  (start_date <=? d)%Z && (d <=? end_date)%Z.

Definition date_mask (start_date end_date : Z) (dates : list Z) : list bool :=
  map (in_range start_date end_date) dates.

Definition filter_data_by_date_body (df : DataFrame)
  (start_date end_date : pydate) : result DataFrame :=
  let start_date := to_timestamp start_date in
  let end_date := to_timestamp end_date in
  let filtered_df := select_rows (date_mask start_date end_date (index df)) df in
  Ok filtered_df.

Definition filter_data_by_date (df : DataFrame) (start_date end_date : pydate)
  : DataFrame * list string :=
  match filter_data_by_date_body df start_date end_date with
  | Ok filtered_df => (filtered_df, [])
  | Raise e => (empty_frame, ["Ошибка при фильтрации данных: " +:+ exn_str e])
  end.

(** [df.index.min()] and [df.index.max()]; an index without rows has
    neither. *)
Definition index_min (dates : list Z) : result Z :=
  match dates with
  | [] => Raise (ValueError "NaTType does not support date")
  | d :: rest => Ok (fold_right Z.min d rest)
  end.

Definition index_max (dates : list Z) : result Z :=
  match dates with
  | [] => Raise (ValueError "NaTType does not support date")
  | d :: rest => Ok (fold_right Z.max d rest)
  end.

Section Clock.

(** [date.today()] *)
Variable today : Z.

Definition get_date_range_body (df : DataFrame) : result (Z * Z) :=
  if df_empty df then Ok (today, today)
  else
    lo ← index_min (index df);
    hi ← index_max (index df);
    Ok (date_of lo, date_of hi).

Definition get_date_range (df : DataFrame) : (Z * Z) * list string :=
  match get_date_range_body df with
  | Ok range => (range, [])
  | Raise e =>
      ((today, today),
       ["Ошибка при получении диапазона дат: " +:+ exn_str e])
  end.

End Clock.

(** The dictionary returned by [validate_file_format]. *)
Record Validation : Type := mkValidation {
  is_valid : bool;
  errors : list string;
  warnings : list string;
  suggestions : list string
}.

Definition add_error (msg : string) (v : Validation) : Validation :=
  mkValidation false (errors v ++ [msg]) (warnings v) (suggestions v).

Definition add_warning (msg : string) (v : Validation) : Validation :=
  mkValidation (is_valid v) (errors v) (warnings v ++ [msg]) (suggestions v).

(** [(df[col] < 0).any()] *)
Definition has_negative (c : column) : bool :=
  match c with
  | NumCol vs =>
      existsb (fun v => match v with
                        | Some q => Qltb q 0
                        | None => false
                        end) vs
  | _ => false
  end.

(** The entry of [df.isnull().sum()] for a column is positive.  In this
    model only a numeric cell can be missing. *)
Definition has_missing (c : column) : bool :=
  match c with
  | NumCol vs =>
      existsb (fun v => match v with
                        | Some _ => false
                        | None => true
                        end) vs
  | _ => false
  end.

Definition empty_file_error : string :=
  "Файл пустой или не содержит данных".

Definition no_date_error : string :=
  "Не найден столбец с датами. Ожидается столбец 'Дата', 'Date' или первый столбец с датами".

Definition no_numeric_error : string :=
  "Не найдены столбцы с числовыми данными о продажах".

Definition single_numeric_warning : string :=
  "Найден только один столбец с числовыми данными. Рекомендуется иметь несколько продуктов для сравнения".

Definition bad_dates_warning (first_col : string) : string :=
  "Первый столбец '" +:+ first_col +:+ "' может содержать некорректные даты".

Definition not_a_date_warning (first_col : string) : string :=
  "Первый столбец '" +:+ first_col +:+ "' не распознан как дата".

Definition negative_warning (col : string) : string :=
  "Столбец '" +:+ col +:+ "' содержит отрицательные значения".

Definition missing_warning (missing_cols : list string) : string :=
  "Пропущенные значения в столбцах: " +:+ String.concat ", " missing_cols.

Definition static_suggestions : list string :=
  ["Убедитесь, что первый столбец содержит даты в формате YYYY-MM-DD";
   "Числовые столбцы должны содержать данные о продажах или количестве сессий";
   "Рекомендуется использовать понятные названия столбцов (например: 'Продукт_1', 'Продукт_2')"].

(** [df[col]] for a label of the frame. *)
Definition column_of (df : DataFrame) (col : string) : result column :=
  match getitem df col with
  | Some c => Ok c
  | None => Raise (OtherError ("KeyError: " +:+ col))
  end.

(** The loop over the numeric columns that warns about negative values. *)
Definition warn_negative (df : DataFrame) (acc : result Validation)
  (col : string) : result Validation :=
  v ← acc;
  c ← column_of df col;
  Ok (if has_negative c then add_warning (negative_warning col) v else v).

Section Validator.

Variable lower : string -> string.
Variable to_datetime : column -> result (list Z).

(** The test of the loop of the validator (lines 247-248). *)
Definition is_date_like (first_col : option string) (col : string) : bool :=
  let col_lower := lower col in
  contains col_lower "дата" || contains col_lower "date"
  || contains col_lower "время" || String.eqb col "Unnamed: 0"
  || match first_col with
     | Some fc => String.eqb col fc
     | None => false
     end.

(** [pd.to_datetime] inside a [try] with a bare [except]. *)
Definition parses (r : result column) : bool :=
  match c ← r; to_datetime c with
  | Ok _ => true
  | Raise _ => false
  end.

(** Lines 242-258: the columns taken for date columns.  The first column
    passes the test of the loop by [col == first_col]. *)
Definition date_columns_of (df : DataFrame) : list string :=
  let first_col := head (column_names df) in
  let date_columns :=
    List.filter (is_date_like first_col) (column_names df) in
  match first_col with
  | Some fc =>
      if negb (String.eqb fc "") && negb (bool_decide (fc ∈ date_columns))
      then
        if parses (c ← column_of df fc; Ok (col_head c))
        then date_columns ++ [fc] else date_columns
      else date_columns
  | None => date_columns
  end.

(** Lines 260-268. *)
Definition check_dates (df : DataFrame) (date_columns : list string)
  (v : Validation) : Validation :=
  match date_columns with
  | [] => add_error no_date_error v
  | _ =>
      match head (column_names df) with
      | Some fc =>
          if parses (column_of df fc) then v
          else add_warning (bad_dates_warning fc) v
      | None => add_warning (bad_dates_warning "None") v
      end
  end.

(** Lines 271-276. *)
Definition check_numeric (df : DataFrame) (v : Validation) : Validation :=
  let numeric_columns := numeric_columns df in
  if (length numeric_columns =? 0)%nat
  then add_error no_numeric_error v
  else if (length numeric_columns <? 2)%nat
  then add_warning single_numeric_warning v
  else v.

(** Lines 279-286. *)
Definition check_first_column (df : DataFrame) (date_columns : list string)
  (v : Validation) : Validation :=
  match head (column_names df) with
  | Some fc =>
      if parses (c ← column_of df fc; Ok (col_head c)) then v
      else if negb (bool_decide (fc ∈ date_columns))
      then add_warning (not_a_date_warning fc) v
      else v
  | None => v
  end.

(** Lines 289-291. *)
Definition check_negative (df : DataFrame) (v : Validation)
  : result Validation :=
  foldl (warn_negative df) (Ok v) (numeric_columns df).

(** Lines 294-297. *)
Definition check_missing (df : DataFrame) (v : Validation) : Validation :=
  let missing_cols :=
    map fst (List.filter (fun p => has_missing (snd p)) (columns df)) in
  match missing_cols with
  | [] => v
  | _ => add_warning (missing_warning missing_cols) v
  end.

(** Lines 300-304. *)
Definition add_suggestions (v : Validation) : Validation :=
  mkValidation (is_valid v) (errors v) (warnings v)
               (suggestions v ++ static_suggestions).

(** The body of the [try]: the dictionary as it stands, and how the body
    ended. *)
Definition validate_file_format_body (df : DataFrame)
  (uploaded_filename : option string) (v0 : Validation)
  : Validation * result Validation :=
  if df_empty df then
    let v := add_error empty_file_error v0 in (v, Ok v)
  else
    let date_columns := date_columns_of df in
    let v1 := check_dates df date_columns v0 in
    let v2 := check_numeric df v1 in
    let v3 := check_first_column df date_columns v2 in
    match check_negative df v3 with
    | Raise e => (v3, Raise e)
    | Ok v4 =>
        let v5 := add_suggestions (check_missing df v4) in (v5, Ok v5)
    end.

(** [validate_file_format]: the dictionary is built in place, so the
    [except] branch keeps what was written before the exception. *)
Definition validate_file_format (df : DataFrame)
  (uploaded_filename : option string) : Validation :=
  match validate_file_format_body df uploaded_filename
          (mkValidation true [] [] []) with
  | (_, Ok v) => v
  | (v, Raise e) =>
      add_error ("Ошибка при валидации файла: " +:+ exn_str e) v
  end.

End Validator.

(** What decides whether a file is accepted: the verdict, the errors and
    the suggestions. *)
Definition verdict (v : Validation) : bool * list string * list string :=
  (is_valid v, errors v, suggestions v).

(** ** app.py: [handle_file_upload] *)

(** What the page shows: [st.error] on the page, and the four kinds of
    message of the sidebar. *)
Inductive notice : Type :=
| PageError (msg : string)
| SidebarError (msg : string)
| SidebarWarning (msg : string)
| SidebarSuccess (msg : string)
| SidebarInfo (msg : string).

(** Lines 117-125: the errors and the warnings of the validator. *)
Definition show_validation (v : Validation) : list notice :=
  (match errors v with
   | [] => []
   | es => SidebarError "❌ Ошибки в файле:"
           :: map (fun e => SidebarError ("• " +:+ e)) es
   end)
  ++
  (match warnings v with
   | [] => []
   | ws => SidebarWarning "⚠️ Предупреждения:"
           :: map (fun w => SidebarWarning ("• " +:+ w)) ws
   end).

Definition validation_failed : notice :=
  SidebarError "❌ Файл не прошел валидацию".

Section Page.

Variable lower : string -> string.
Variable to_datetime : column -> result (list Z).
Variable path_exists : string -> bool.
Variable read_excel_path : string -> result DataFrame.
Variable read_excel_upload : UploadedFile -> result DataFrame.
Variable read_csv_upload : UploadedFile -> result DataFrame.

(** [handle_file_upload]: [upload_chosen] is the choice of the radio
    button, [uploaded_file] what the file uploader holds.  Nothing in the
    two [try] blocks can raise: [load_sales_data] and
    [validate_file_format] catch their own exceptions. *)
Definition handle_file_upload (upload_chosen : bool)
  (uploaded_file : option UploadedFile) : option DataFrame * list notice :=
  let load := load_sales_data lower to_datetime path_exists read_excel_path
                read_excel_upload read_csv_upload in
  if upload_chosen then
    match uploaded_file with
    | Some u =>
        let (df, reported) := load None (Some u) in
        let shown := map PageError reported in
        if negb (df_empty df) then
          let validation_result :=
            validate_file_format lower to_datetime df (Some (file_name u)) in
          let shown := shown ++ show_validation validation_result in
          if is_valid validation_result
          then (Some df,
                shown ++ [SidebarSuccess "✅ Файл успешно загружен!"])
          else (None, shown ++ [validation_failed])
        else (None, shown)
    | None => (None, [SidebarInfo "Загрузите файл для анализа"])
    end
  else
    let (df, reported) := load None None in
    let shown := map PageError reported in
    if negb (df_empty df)
    then (Some df, shown ++ [SidebarSuccess "✅ Демо данные загружены"])
    else (None, shown ++ [SidebarWarning "⚠️ Демо данные недоступны"]).

End Page.

(** Three timestamps: midnight of day 0, midnight of day 1, noon of day 1. *)
Definition noon_frame : DataFrame :=
  mkFrame [0; 86400000000000; 129600000000000]%Z
          [("A", NumCol [Some 1; Some 2; Some 3])].

(** The same table at day granularity. *)
Definition daily_frame : DataFrame :=
  mkFrame [0; 86400000000000; 172800000000000]%Z
          [("A", NumCol [Some 1; Some 2; Some 3])].

(** The sum of every value present in the numeric columns of a table. *)
Definition table_total (df : DataFrame) : Q :=
  Qsum (map (fun p => Qsum (dropna (snd p))) (numeric_series df)).

(** ** Invariants stated about the code *)

(** What every turn of the loop keeps: the index, the labels of the input
    as the first labels of the result, the input columns whose label is
    not the label of a moving average, unique labels and aligned columns. *)
Definition keeps_table (df : DataFrame) (window : Z) (res : DataFrame)
  : Prop :=
  index res = index df /\
  column_names df `prefix_of` column_names res /\
  (forall i name c,
      columns df !! i = Some (name, c) ->
      (forall col, col ∈ column_names df -> name <> ma_name col window) ->
      columns res !! i = Some (name, c)) /\
  well_formed res.

(** ** data_loader_refactored.py *)

Module Refactored.

Definition DATE_COLUMN_INDICATORS : list string :=
  ["дата"; "date"; "время"; "unnamed: 0"].

Definition DEFAULT_DATE_COLUMN_NAME : string := "Дата".

Definition DEFAULT_DATA_PATH : string := "docs/sample_sales_data.xlsx".

(** The two values returned by [_determine_file_type]. *)
Inductive file_type : Type :=
| excel
| csv.

(** [except (ValueError, TypeError)] *)
Definition value_or_type_error (e : exn) : bool :=
  match e with
  | ValueError _ | TypeError _ => true
  | _ => false
  end.

Definition reversed_range : exn :=
  ValueError "Начальная дата не может быть позже конечной".

Section Loader.

Variable lower : string -> string.

(** [Path(filename).suffix] *)
Variable suffix : string -> string.

(** [', '.join(SUPPORTED_FILE_EXTENSIONS)]: the order in which a set of
    strings is listed is not fixed by the code. *)
Variable supported_extensions : string.

Variable to_datetime : column -> result (list Z).
Variable path_exists : string -> bool.
Variable read_excel_path : string -> result DataFrame.
Variable read_excel_upload : UploadedFile -> result DataFrame.
Variable read_csv_upload : UploadedFile -> result DataFrame.

(** The argument is an uploaded file, which has a [name]. *)
Definition _determine_file_type (file_source : UploadedFile)
  : result file_type :=
  let filename := file_name file_source in
  let file_extension := lower (suffix filename) in
  if String.eqb file_extension ".xlsx" || String.eqb file_extension ".xls"
  then Ok excel
  else if String.eqb file_extension ".csv" then Ok csv
  else Raise (ValueError
         ("Неподдерживаемый формат файла: " +:+ file_extension +:+ ". "
          +:+ "Поддерживаются: " +:+ supported_extensions)).

Definition _read_uploaded_file (uploaded_file : UploadedFile)
  : result DataFrame :=
  file_type ← _determine_file_type uploaded_file;
  match file_type with
  | excel => read_excel_upload uploaded_file
  | csv => read_csv_upload uploaded_file
  end.

Definition _read_local_file (file_path : string) : result DataFrame :=
  if negb (path_exists file_path)
  then Raise (FileNotFoundError ("Файл " +:+ file_path +:+ " не найден"))
  else read_excel_path file_path.

Definition _read_default_file : result DataFrame :=
  if path_exists DEFAULT_DATA_PATH then read_excel_path DEFAULT_DATA_PATH
  else Raise (FileNotFoundError
         "Файл данных не найден. Пожалуйста, загрузите файл.").

Definition _load_dataframe_from_source (file_path : option string)
  (uploaded_file : option UploadedFile) : result DataFrame :=
  match uploaded_file with
  | Some u => _read_uploaded_file u
  | None =>
      match file_path with
      | Some p => _read_local_file p
      | None => _read_default_file
      end
  end.

(** [any(indicator in normalized_name
         for indicator in DATE_COLUMN_INDICATORS)] *)
Definition has_date_indicator (column_name : string) : bool :=
  let normalized_name := lower column_name in
  existsb (fun indicator => contains normalized_name indicator)
          DATE_COLUMN_INDICATORS.

(** Only [ValueError] and [TypeError] are caught. *)
Definition _is_valid_date_column (dataframe : DataFrame)
  (column_name : string) : result bool :=
  match c ← match getitem dataframe column_name with
            | Some c => Ok c
            | None => Raise (OtherError ("KeyError: " +:+ column_name))
            end;
        to_datetime (col_head c) with
  | Ok _ => Ok true
  | Raise e => if value_or_type_error e then Ok false else Raise e
  end.

Definition _find_date_column (dataframe : DataFrame)
  : result (option string) :=
  match List.find has_date_indicator (column_names dataframe) with
  | Some column_name => Ok (Some column_name)
  | None =>
      let first_column := head (column_names dataframe) in
      match first_column with
      | Some fc =>
          valid ← _is_valid_date_column dataframe fc;
          Ok (if valid : bool then Some fc else None)
      | None => Ok None
      end
  end.

Definition _normalize_date_column (dataframe : DataFrame)
  (date_column_name : string) : result DataFrame :=
  let processed_df :=
    if negb (String.eqb date_column_name DEFAULT_DATE_COLUMN_NAME)
    then rename dataframe date_column_name DEFAULT_DATE_COLUMN_NAME
    else dataframe in
  dates ←
    match
      match filter (fun p => fst p = DEFAULT_DATE_COLUMN_NAME)
                   (columns processed_df) with
      | [(_, c)] => to_datetime c
      | _ => Raise (ValueError
               "to assemble mappings requires at least that [year, month, day] be specified")
      end
    with
    | Ok dates => Ok dates
    | Raise e =>
        if value_or_type_error e
        then Raise (ValueError
               ("Не удается преобразовать столбец в даты: " +:+ exn_str e))
        else Raise e
    end;
  Ok (mkFrame dates
        (filter (fun p => fst p ≠ DEFAULT_DATE_COLUMN_NAME)
                (columns processed_df))).

Definition _validate_numeric_columns (dataframe : DataFrame) : result unit :=
  if (length (numeric_columns dataframe) =? 0)%nat
  then Raise no_numeric_columns
  else Ok tt.

Definition _process_sales_dataframe (raw_dataframe : DataFrame)
  : result DataFrame :=
  date_column ← _find_date_column raw_dataframe;
  match date_column with
  | None => Raise no_date_column
  | Some date_column =>
      processed_df ← _normalize_date_column raw_dataframe date_column;
      _ ← _validate_numeric_columns processed_df;
      Ok processed_df
  end.

Definition load_sales_data_body (file_path : option string)
  (uploaded_file : option UploadedFile) : result DataFrame :=
  raw_dataframe ← _load_dataframe_from_source file_path uploaded_file;
  _process_sales_dataframe raw_dataframe.

Definition load_sales_data (file_path : option string)
  (uploaded_file : option UploadedFile) : DataFrame * list string :=
  match load_sales_data_body file_path uploaded_file with
  | Ok processed_dataframe => (processed_dataframe, [])
  | Raise e => (empty_frame, ["Ошибка при загрузке данных: " +:+ exn_str e])
  end.

End Loader.

Definition filter_data_by_date_range_body (dataframe : DataFrame)
  (start_date end_date : pydate) : result DataFrame :=
  if df_empty dataframe then Ok dataframe
  else
    let normalized_start := to_timestamp start_date in
    let normalized_end := to_timestamp end_date in
    if (normalized_end <? normalized_start)%Z then Raise reversed_range
    else
      let date_mask :=
        date_mask normalized_start normalized_end (index dataframe) in
      let filtered_dataframe := select_rows date_mask dataframe in
      Ok filtered_dataframe.

Definition filter_data_by_date_range (dataframe : DataFrame)
  (start_date end_date : pydate) : DataFrame * list string :=
  match filter_data_by_date_range_body dataframe start_date end_date with
  | Ok filtered_dataframe => (filtered_dataframe, [])
  | Raise e => (empty_frame, ["Ошибка при фильтрации данных: " +:+ exn_str e])
  end.

End Refactored.

(** Two computations end alike: both return the same value, or both
    raise. *)
Definition same_outcome {A : Type} (r1 r2 : result A) : Prop :=
  match r1, r2 with
  | Ok a, Ok b => a = b
  | Raise _, Raise _ => True
  | _, _ => False
  end.

(** * Properties *)

(** A closed decidable goal, settled by evaluation. *)
Ltac by_evaluation :=
  match goal with
  | |- ?P => apply (bool_decide_unpack P); vm_compute; exact I
  end.

(** ** Rationals in lowest terms *)

Lemma Qis0_true (q : Q) : Qis0 q = true <-> q == 0.
Proof. unfold Qis0. apply Qeq_bool_iff. Qed.

Lemma Qis0_false (q : Q) : Qis0 q = false <-> ~ q == 0.
Proof.
  rewrite <- Qis0_true. destruct (Qis0 q); split; intros; congruence.
Qed.

Lemma Qltb_true (a b : Q) : Qltb a b = true <-> a < b.
Proof.
  unfold Qltb. rewrite negb_true_iff.
  split; intros H.
  - apply Qnot_le_lt. intros Hle. apply Qle_bool_iff in Hle. congruence.
  - destruct (Qle_bool b a) eqn:E; [|reflexivity].
    apply Qle_bool_iff in E. exfalso. apply (Qlt_not_le _ _ H E).
Qed.

Lemma Qred_eq (a b : Q) : a == b -> Qred a = Qred b.
Proof. apply Qred_complete. Qed.

(** ** Sorting the values of a series *)

Lemma insert_sorted_perm (x : Q) (l : list Q) :
  Permutation (x :: l) (insert_sorted x l).
Proof.
  induction l as [|y l IH]; cbn; [reflexivity|].
  destruct (Qle_bool x y); [reflexivity|].
  rewrite perm_swap. apply perm_skip. exact IH.
Qed.

Lemma sort_values_perm (xs : list Q) : Permutation xs (sort_values xs).
Proof.
  induction xs as [|x xs IH]; cbn; [reflexivity|].
  rewrite <- insert_sorted_perm. apply perm_skip. exact IH.
Qed.

Lemma insert_sorted_sorted (x : Q) (l : list Q) :
  Sorted Qle l -> Sorted Qle (insert_sorted x l).
Proof.
  induction 1 as [|y l Hs IH Hhd]; cbn.
  - repeat constructor.
  - destruct (Qle_bool x y) eqn:E.
    + apply Qle_bool_iff in E. repeat constructor; assumption.
    + assert (Hyx : y <= x).
      { apply Qlt_le_weak, Qnot_le_lt. intros H.
        apply Qle_bool_iff in H. congruence. }
      constructor; [exact IH|].
      destruct Hhd as [|z l' Hyz]; cbn.
      * constructor. exact Hyx.
      * destruct (Qle_bool x z); constructor; assumption.
Qed.

Lemma sort_values_sorted (xs : list Q) : Sorted Qle (sort_values xs).
Proof.
  induction xs as [|x xs IH]; cbn; [constructor|].
  apply insert_sorted_sorted. exact IH.
Qed.

(** The quartiles of 1, 2, 3, 4, as numpy interpolates them. *)
Example quantile_interpolates :
  col_quantile (1 # 4) (present [4; 1; 3; 2]%Z) = Fin (7 # 4) /\
  col_quantile (3 # 4) (present [4; 1; 3; 2]%Z) = Fin (13 # 4) /\
  col_median (present [4; 1; 3; 2]%Z) = Fin (5 # 2).
Proof. repeat split; vm_compute; reflexivity. Qed.

(** ** Growth rate *)

Lemma last_cons_app {A : Type} (x : A) (mid : list A) (y d : A) :
  List.last (x :: mid ++ [y]) d = y.
Proof.
  change (x :: mid ++ [y]) with ((x :: mid) ++ [y]).
  apply last_last.
Qed.

Lemma growth_rate_long (first : cell) (mid : list cell) (final : cell) :
  _calculate_growth_rate (first :: mid ++ [final]) =
  if num_eqb (cell_num first) (Fin 0) then Fin 0
  else num_mul (num_div (num_sub (cell_num final) (cell_num first))
                        (cell_num first)) (Fin 100).
Proof.
  unfold _calculate_growth_rate.
  rewrite last_cons_app.
  replace (length (first :: mid ++ [final]) <? 2)%nat with false.
  - reflexivity.
  - symmetry. apply Nat.ltb_ge. cbn. rewrite length_app. cbn. lia.
Qed.



(** ** KPI metrics *)

(** C3. On an empty table the KPI metrics are exactly the three entries
    total = 0, average = 0.0 and max = 0, no error is reported, and the
    entries for the minimum, the day count and the growth rate are
    absent. *)
Theorem kpi_metrics_empty (df : DataFrame) :
  df_empty df = true ->
  let kpi := fst (calculate_kpi_metrics df) in
  calculate_kpi_metrics df =
    (<["total_sessions" := PyInt 0]>
       (<["avg_daily_sessions" := PyFloat (Fin 0)]>
          (<["max_daily_sessions" := PyInt 0]> ∅)), []) /\
  dom kpi = {["total_sessions"; "avg_daily_sessions"; "max_daily_sessions"]}
  /\ kpi !! "min_daily_sessions" = None
  /\ kpi !! "days_count" = None
  /\ kpi !! "growth_rate" = None.
Proof.
  intros Hempty kpi. subst kpi.
  unfold calculate_kpi_metrics, calculate_kpi_metrics_body.
  rewrite Hempty. cbn [fst].
  split; [reflexivity|].
  split; [|split; [|split]].
  - rewrite !dom_insert_L, dom_empty_L. set_solver.
  - vm_compute. reflexivity.
  - vm_compute. reflexivity.
  - vm_compute. reflexivity.
Qed.

(** Use of C3 on the table with a column and no row. *)
Lemma kpi_metrics_empty_witness :
  fst (calculate_kpi_metrics (mkFrame [] [("A", NumCol [])]))
    !! "total_sessions" = Some (PyInt 0) /\
  fst (calculate_kpi_metrics (mkFrame [] [("A", NumCol [])]))
    !! "growth_rate" = None.
Proof.
  destruct (kpi_metrics_empty (mkFrame [] [("A", NumCol [])]) eq_refl)
    as (Heq & _ & _ & _ & Hg).
  split.
  - rewrite Heq. reflexivity.
  - exact Hg.
Defined.

(** ** Anomaly detection: unknown method *)

Lemma foldl_add_anomalies_other (sqrt : Q -> Q) (df : DataFrame)
  (threshold : num) (method : string) (cols : list string)
  (acc : gmap string (list (Z * num))) :
  String.eqb method "zscore" = false ->
  String.eqb method "iqr" = false ->
  foldl (add_anomalies sqrt df threshold method) (Ok acc) cols = Ok acc.
Proof.
  intros Hz Hi. induction cols as [|c cols IH]; [reflexivity|].
  cbn [foldl]. unfold add_anomalies at 2. cbn. rewrite Hz, Hi. exact IH.
Qed.

(** C6. With a method other than 'zscore' and 'iqr', [detect_anomalies]
    reports no error and returns the empty mapping: every column is
    skipped. *)
Theorem detect_anomalies_unknown_method (sqrt : Q -> Q) (df : DataFrame)
  (threshold : num) (method : string) :
  method <> "zscore" -> method <> "iqr" ->
  detect_anomalies sqrt df threshold method = (∅, []) /\
  forall column : string,
    fst (detect_anomalies sqrt df threshold method) !! column = None.
Proof.
  intros Hz Hi.
  assert (E : detect_anomalies sqrt df threshold method = (∅, [])).
  { unfold detect_anomalies, detect_anomalies_body.
    destruct (df_empty df); [reflexivity|].
    rewrite foldl_add_anomalies_other; [reflexivity| |];
      apply String.eqb_neq; assumption. }
  split; [exact E|].
  intros column. rewrite E. apply lookup_empty.
Qed.


(** ** Ingestion *)

Lemma find_first_match {A : Type} (f : A -> bool) (pre : list A) (x : A)
  (post : list A) :
  Forall (fun a => f a = false) pre -> f x = true ->
  List.find f (pre ++ x :: post) = Some x.
Proof.
  intros Hpre Hx. induction Hpre as [|a pre Ha _ IH]; cbn.
  - rewrite Hx. reflexivity.
  - rewrite Ha. exact IH.
Qed.

Lemma find_no_match {A : Type} (f : A -> bool) (l : list A) :
  Forall (fun a => f a = false) l -> List.find f l = None.
Proof.
  intros H. induction H as [|a l Ha _ IH]; cbn; [reflexivity|].
  rewrite Ha. exact IH.
Qed.

Section LoaderProperties.

Variable lower : string -> string.
Variable to_datetime : column -> result (list Z).
Variable path_exists : string -> bool.
Variable read_excel_path : string -> result DataFrame.
Variable read_excel_upload : UploadedFile -> result DataFrame.
Variable read_csv_upload : UploadedFile -> result DataFrame.

Local Abbreviation locate := (locate_date_column lower to_datetime).
Local Abbreviation load :=
  (load_sales_data lower to_datetime path_exists read_excel_path
     read_excel_upload read_csv_upload).
Local Abbreviation load_body :=
  (load_sales_data_body lower to_datetime path_exists read_excel_path
     read_excel_upload read_csv_upload).
Local Abbreviation source :=
  (read_source path_exists read_excel_path read_excel_upload
     read_csv_upload).
Local Abbreviation report e := ["Ошибка при загрузке данных: " +:+ exn_str e].

Lemma load_of_body (file_path : option string)
  (uploaded_file : option UploadedFile) :
  load file_path uploaded_file =
  match load_body file_path uploaded_file with
  | Ok df => (df, [])
  | Raise e => (empty_frame, ["Ошибка при загрузке данных: " +:+ exn_str e])
  end.
Proof. reflexivity. Qed.

Lemma load_source_failure (file_path : option string)
  (uploaded_file : option UploadedFile) (e : exn) :
  source file_path uploaded_file = Raise e ->
  load file_path uploaded_file =
  (empty_frame, ["Ошибка при загрузке данных: " +:+ exn_str e]).
Proof.
  intros H. rewrite load_of_body. unfold load_sales_data_body.
  rewrite H. reflexivity.
Qed.

Lemma load_locate_failure (file_path : option string)
  (uploaded_file : option UploadedFile) (df : DataFrame) (e : exn) :
  source file_path uploaded_file = Ok df ->
  locate df = Raise e ->
  load file_path uploaded_file =
  (empty_frame, ["Ошибка при загрузке данных: " +:+ exn_str e]).
Proof.
  intros Hs Hl. rewrite load_of_body. unfold load_sales_data_body.
  rewrite Hs. cbn. rewrite Hl. reflexivity.
Qed.

Lemma locate_by_name (df : DataFrame) (pre : list string) (col : string)
  (post : list string) :
  column_names df = pre ++ col :: post ->
  Forall (fun c => is_date_name lower c = false) pre ->
  is_date_name lower col = true ->
  locate df = Ok col.
Proof.
  intros Hnames Hpre Hcol. unfold locate_date_column.
  rewrite Hnames, (find_first_match _ pre col post Hpre Hcol).
  destruct (head (pre ++ col :: post)); reflexivity.
Qed.

Lemma locate_by_first_column (df : DataFrame) (fc : string) (c : column)
  (rest : list (string * column)) :
  columns df = (fc, c) :: rest ->
  Forall (fun n => is_date_name lower n = false) (column_names df) ->
  locate df =
  match to_datetime (col_head c) with
  | Ok _ => Ok fc
  | Raise _ => Raise first_column_not_dates
  end.
Proof.
  intros Hcols Hnone. unfold locate_date_column.
  rewrite (find_no_match _ _ Hnone).
  unfold column_names, getitem. rewrite Hcols. cbn.
  rewrite String.eqb_refl. cbn.
  destruct (to_datetime (col_head c)); reflexivity.
Qed.

Lemma locate_no_column (df : DataFrame) :
  columns df = [] -> locate df = Raise no_date_column.
Proof.
  intros Hcols. unfold locate_date_column, column_names.
  rewrite Hcols. reflexivity.
Qed.


(** C4. [load_sales_data] returns on every input.  When its body succeeds
    the table is returned and nothing is reported; every failure of the
    body, whatever the exception, gives the empty table and one message that
    carries the text of the exception.  This covers the reader that
    raises, the unsupported extension, the missing path and the missing
    default file. *)
Theorem load_sales_data_catches_all (file_path : option string)
  (uploaded_file : option UploadedFile) :
  ((exists df, load_body file_path uploaded_file = Ok df /\
               load file_path uploaded_file = (df, [])) \/
   (exists e, load_body file_path uploaded_file = Raise e /\
              load file_path uploaded_file = (empty_frame, report e) /\
              df_empty (fst (load file_path uploaded_file)) = true)) /\
  (forall e, source file_path uploaded_file = Raise e ->
             load file_path uploaded_file = (empty_frame, report e)) /\
  (forall u, uploaded_file = Some u ->
             ends_with (file_name u) ".xlsx" = false ->
             ends_with (file_name u) ".xls" = false ->
             ends_with (file_name u) ".csv" = false ->
             load file_path uploaded_file =
             (empty_frame, report unsupported_format)) /\
  (forall p, uploaded_file = None -> file_path = Some p ->
             path_exists p = false ->
             load file_path uploaded_file =
             (empty_frame,
              report (FileNotFoundError ("Файл " +:+ p +:+ " не найден")))) /\
  (uploaded_file = None -> file_path = None ->
   path_exists "docs/sample_sales_data.xlsx" = false ->
   load file_path uploaded_file =
   (empty_frame,
    report (FileNotFoundError
              "Файл данных не найден. Пожалуйста, загрузите файл."))).
Proof.
  split; [|split; [|split; [|split]]].
  - rewrite load_of_body.
    destruct (load_sales_data_body _ _ _ _ _ _ file_path uploaded_file)
      as [df|e].
    + left. exists df. split; reflexivity.
    + right. exists e. repeat split; reflexivity.
  - intros e. apply load_source_failure.
  - intros u -> Hx Hl Hc. apply load_source_failure.
    cbn. rewrite Hx, Hl, Hc. reflexivity.
  - intros p -> -> Hp. apply load_source_failure.
    cbn. rewrite Hp. reflexivity.
  - intros -> -> Hp. apply load_source_failure.
    cbn. rewrite Hp. reflexivity.
Qed.

End LoaderProperties.



(** Use of C4: an upload with an unsupported extension, a path that does
    not exist, no source and no default file, a reader that raises. *)
Lemma load_sales_data_catches_all_witness :
  load_sales_data lower_basic to_datetime_sample no_file no_reader
    (reader_sample raw_text_first) (reader_sample raw_text_first)
    None (Some (mkUpload "notes.txt" ""))
  = (empty_frame,
     ["Ошибка при загрузке данных: " +:+ exn_str unsupported_format]) /\
  load_sales_data lower_basic to_datetime_sample no_file no_reader
    (reader_sample raw_text_first) (reader_sample raw_text_first)
    (Some "data.xlsx") None
  = (empty_frame,
     ["Ошибка при загрузке данных: Файл data.xlsx не найден"]) /\
  load_sales_data lower_basic to_datetime_sample no_file no_reader
    (reader_sample raw_text_first) (reader_sample raw_text_first)
    None None
  = (empty_frame,
     ["Ошибка при загрузке данных: Файл данных не найден. Пожалуйста, загрузите файл."])
  /\
  load_sales_data lower_basic to_datetime_sample (fun _ => true) no_reader
    (reader_sample raw_text_first) (reader_sample raw_text_first)
    (Some "data.xlsx") None
  = (empty_frame, ["Ошибка при загрузке данных: cannot read"]).
Proof.
  split; [|split; [|split]].
  - destruct (load_sales_data_catches_all lower_basic to_datetime_sample
                no_file no_reader (reader_sample raw_text_first)
                (reader_sample raw_text_first)
                None (Some (mkUpload "notes.txt" "")))
      as (_ & _ & Hext & _).
    apply (Hext (mkUpload "notes.txt" "")); reflexivity.
  - destruct (load_sales_data_catches_all lower_basic to_datetime_sample
                no_file no_reader (reader_sample raw_text_first)
                (reader_sample raw_text_first) (Some "data.xlsx") None)
      as (_ & _ & _ & Hpath & _).
    apply (Hpath "data.xlsx"); reflexivity.
  - destruct (load_sales_data_catches_all lower_basic to_datetime_sample
                no_file no_reader (reader_sample raw_text_first)
                (reader_sample raw_text_first) None None)
      as (_ & _ & _ & _ & Hdefault).
    apply Hdefault; reflexivity.
  - destruct (load_sales_data_catches_all lower_basic to_datetime_sample
                (fun _ => true) no_reader (reader_sample raw_text_first)
                (reader_sample raw_text_first) (Some "data.xlsx") None)
      as (_ & Hreader & _).
    apply (Hreader (OtherError "cannot read")). reflexivity.
Defined.

(** ** Frames with unique labels *)

Lemma map_fmap {A B : Type} (f : A -> B) (l : list A) : map f l = f <$> l.
Proof. induction l as [|a l IH]; cbn; [reflexivity|]. rewrite IH. reflexivity. Qed.

Lemma lookup_column_in (cols : list (string * column)) (name : string)
  (c : column) :
  NoDup (map fst cols) -> (name, c) ∈ cols ->
  lookup_column cols name = Some c.
Proof.
  induction cols as [|[n c0] cols IH]; intros Hnd Hin.
  - inversion Hin.
  - cbn in Hnd. apply NoDup_cons in Hnd as [Hn Hnd].
    apply elem_of_cons in Hin as [Heq|Hin]; cbn.
    + inversion Heq; subst. rewrite String.eqb_refl. reflexivity.
    + destruct (String.eqb n name) eqn:E.
      * apply String.eqb_eq in E. subst n. exfalso. apply Hn.
        rewrite map_fmap. apply list_elem_of_fmap.
        exists (name, c). split; [reflexivity|exact Hin].
      * apply IH; assumption.
Qed.

Lemma series_numeric (df : DataFrame) (name : string) (vs : list cell) :
  well_formed df -> (name, NumCol vs) ∈ columns df ->
  series df name = Ok vs.
Proof.
  intros [Hnd _] Hin. unfold series, getitem.
  rewrite (lookup_column_in _ _ _ Hnd Hin). reflexivity.
Qed.

Lemma elem_of_numeric_columns (df : DataFrame) (name : string) :
  name ∈ numeric_columns df <->
  exists vs, (name, NumCol vs) ∈ columns df.
Proof.
  unfold numeric_columns. rewrite map_fmap, list_elem_of_fmap. split.
  - intros ([n c] & -> & Hin). apply list_elem_of_filter in Hin as [Hnum Hin].
    destruct c; cbn in Hnum; try discriminate. exists vs. exact Hin.
  - intros (vs & Hin). exists (name, NumCol vs). split; [reflexivity|].
    apply list_elem_of_filter. split; [reflexivity|exact Hin].
Qed.

(** A loop that stores one value per numeric column: [step] reads the
    series of the column and inserts [f] of it under the name of the
    column. *)
Lemma foldl_insert_series {V : Type} (df : DataFrame) (f : list cell -> V)
  (step : result (gmap string V) -> string -> result (gmap string V)) :
  (forall acc col,
      step acc col =
      (m ← acc; vs ← series df col; Ok (<[col := f vs]> m))) ->
  well_formed df ->
  forall (names : list string) (m0 : gmap string V),
    (forall n, n ∈ names -> n ∈ numeric_columns df) ->
    exists m,
      foldl step (Ok m0) names = Ok m /\
      (forall name vs, name ∈ names -> (name, NumCol vs) ∈ columns df ->
                       m !! name = Some (f vs)) /\
      (forall name, name ∉ names -> m !! name = m0 !! name).
Proof.
  intros Hstep Hwf names.
  induction names as [|n names IH]; intros m0 Hnum.
  - exists m0. split; [reflexivity|]. split.
    + intros name vs Hin. inversion Hin.
    + reflexivity.
  - assert (Hn : n ∈ numeric_columns df) by (apply Hnum; left).
    apply elem_of_numeric_columns in Hn as (vs0 & Hin0).
    cbn [foldl]. rewrite Hstep. cbn.
    rewrite (series_numeric df n vs0 Hwf Hin0). cbn.
    destruct (IH (<[n := f vs0]> m0)) as (m & Hfold & Hin & Hout).
    { intros k Hk. apply Hnum. right. exact Hk. }
    exists m. split; [exact Hfold|]. split.
    + intros name vs Hname Hcol.
      destruct (decide (name ∈ names)) as [Hk|Hk].
      * apply Hin; assumption.
      * rewrite (Hout name Hk).
        apply elem_of_cons in Hname as [->|Hname]; [|contradiction].
        rewrite lookup_insert_eq. f_equal. f_equal.
        destruct Hwf as [Hnd _].
        pose proof (lookup_column_in _ _ _ Hnd Hin0) as E1.
        pose proof (lookup_column_in _ _ _ Hnd Hcol) as E2.
        congruence.
    + intros name Hname. apply not_elem_of_cons in Hname as [Hne Hname].
      rewrite (Hout name Hname). apply lookup_insert_ne. congruence.
Qed.

(** ** Mean, minimum and maximum of a list of values *)

Lemma Qlen_cons (x : Q) (xs : list Q) : Qlen (x :: xs) == 1 + Qlen xs.
Proof.
  unfold Qlen. cbn [length]. rewrite Nat2Z.inj_succ, <- Z.add_1_l.
  rewrite inject_Z_plus. reflexivity.
Qed.

Lemma Qlen_nonneg (xs : list Q) : 0 <= Qlen xs.
Proof.
  unfold Qlen. change 0 with (inject_Z 0). rewrite <- Zle_Qle. lia.
Qed.

Lemma Qlen_pos (x : Q) (xs : list Q) : 0 < Qlen (x :: xs).
Proof. rewrite Qlen_cons. pose proof (Qlen_nonneg xs). lra. Qed.

Lemma Qsum_bounds (lo hi : Q) (xs : list Q) :
  (forall y, y ∈ xs -> lo <= y /\ y <= hi) ->
  Qlen xs * lo <= Qsum xs /\ Qsum xs <= Qlen xs * hi.
Proof.
  induction xs as [|x xs IH]; intros Hb.
  - change (Qlen []) with 0. change (Qsum []) with 0. lra.
  - destruct IH as [IHlo IHhi].
    { intros y Hy. apply Hb. right. exact Hy. }
    destruct (Hb x) as [Hlo Hhi]; [left|].
    rewrite Qlen_cons. cbn [Qsum fold_right]. fold (Qsum xs).
    split; nra.
Qed.

Lemma Qmean_bounds (lo hi x : Q) (xs : list Q) :
  (forall y, y ∈ x :: xs -> lo <= y /\ y <= hi) ->
  lo <= Qmean (x :: xs) /\ Qmean (x :: xs) <= hi.
Proof.
  intros Hb. destruct (Qsum_bounds lo hi (x :: xs) Hb) as [Hlo Hhi].
  pose proof (Qlen_pos x xs) as Hpos. unfold Qmean. split.
  - apply Qle_shift_div_l; [exact Hpos|]. lra.
  - apply Qle_shift_div_r; [exact Hpos|]. lra.
Qed.

Lemma fold_min_lower (x : Q) (rest : list Q) (y : Q) :
  y ∈ x :: rest -> fold_right Qmin x rest <= y.
Proof.
  induction rest as [|z rest IH]; intros Hy; cbn [fold_right].
  - apply list_elem_of_singleton in Hy. subst. lra.
  - apply elem_of_cons in Hy as [->|Hy].
    + eapply Qle_trans; [apply Q.le_min_r|]. apply IH. left.
    + apply elem_of_cons in Hy as [->|Hy].
      * apply Q.le_min_l.
      * eapply Qle_trans; [apply Q.le_min_r|]. apply IH. right. exact Hy.
Qed.

Lemma fold_max_upper (x : Q) (rest : list Q) (y : Q) :
  y ∈ x :: rest -> y <= fold_right Qmax x rest.
Proof.
  induction rest as [|z rest IH]; intros Hy; cbn [fold_right].
  - apply list_elem_of_singleton in Hy. subst. lra.
  - apply elem_of_cons in Hy as [->|Hy].
    + eapply Qle_trans; [|apply Q.le_max_r]. apply IH. left.
    + apply elem_of_cons in Hy as [->|Hy].
      * apply Q.le_max_l.
      * eapply Qle_trans; [|apply Q.le_max_r]. apply IH. right. exact Hy.
Qed.

(** The non-missing values of a series. *)

Lemma elem_of_dropna (vs : list cell) (q : Q) : q ∈ dropna vs <-> Some q ∈ vs.
Proof.
  unfold dropna. rewrite list_elem_of_omap. split.
  - intros (c & Hc & E). cbn in E. subst c. exact Hc.
  - intros H. exists (Some q). split; [exact H|reflexivity].
Qed.

Lemma dropna_present (xs : list Q) : dropna (map Some xs) = xs.
Proof.
  induction xs as [|x xs IH]; [reflexivity|].
  cbn. unfold dropna in IH. rewrite IH. reflexivity.
Qed.

Lemma dropna_length (vs : list cell) :
  length (dropna vs) = length (filter (fun c : cell => c <> None) vs).
Proof.
  unfold dropna.
  induction vs as [|[q|] vs IH]; [reflexivity| |].
  - rewrite filter_cons_True by congruence. cbn. rewrite IH. reflexivity.
  - rewrite filter_cons_False by (intros H; apply H; reflexivity).
    cbn. exact IH.
Qed.

Lemma col_min_le_mean (vs : list cell) :
  dropna vs <> [] -> num_leb (col_min vs) (col_mean vs) = true.
Proof.
  unfold col_min, col_mean. destruct (dropna vs) as [|x xs]; [congruence|].
  intros _. cbn [num_leb]. apply Qle_bool_iff. rewrite !Qred_correct.
  apply (Qmean_bounds (fold_right Qmin x xs) (fold_right Qmax x xs)).
  intros y Hy. split; [apply fold_min_lower|apply fold_max_upper]; exact Hy.
Qed.

Lemma col_mean_le_max (vs : list cell) :
  dropna vs <> [] -> num_leb (col_mean vs) (col_max vs) = true.
Proof.
  unfold col_max, col_mean. destruct (dropna vs) as [|x xs]; [congruence|].
  intros _. cbn [num_leb]. apply Qle_bool_iff. rewrite !Qred_correct.
  apply (Qmean_bounds (fold_right Qmin x xs) (fold_right Qmax x xs)).
  intros y Hy. split; [apply fold_min_lower|apply fold_max_upper]; exact Hy.
Qed.

Lemma col_min_lower (vs : list cell) (q : Q) :
  Some q ∈ vs -> num_leb (col_min vs) (Fin q) = true.
Proof.
  intros H. apply elem_of_dropna in H. unfold col_min.
  destruct (dropna vs) as [|x xs]; [inversion H|].
  cbn [num_leb]. apply Qle_bool_iff. rewrite Qred_correct.
  apply fold_min_lower. exact H.
Qed.

Lemma col_max_upper (vs : list cell) (q : Q) :
  Some q ∈ vs -> num_leb (Fin q) (col_max vs) = true.
Proof.
  intros H. apply elem_of_dropna in H. unfold col_max.
  destruct (dropna vs) as [|x xs]; [inversion H|].
  cbn [num_leb]. apply Qle_bool_iff. rewrite Qred_correct.
  apply fold_max_upper. exact H.
Qed.

(** ** Basic statistics *)

Section AnalysisProperties.

Variable sqrt : Q -> Q.

Lemma column_stats_skips_missing (vs : list cell) :
  column_stats sqrt vs = column_stats sqrt (map Some (dropna vs)).
Proof.
  unfold column_stats, col_mean, col_median, col_std, col_min, col_max,
    col_sum, col_count.
  rewrite dropna_present. reflexivity.
Qed.

Lemma basic_statistics_nonempty (df : DataFrame) :
  df_empty df = false -> well_formed df ->
  exists statistics,
    calculate_basic_statistics sqrt df = (statistics, []) /\
    (forall name vs, (name, NumCol vs) ∈ columns df ->
                     statistics !! name = Some (column_stats sqrt vs)) /\
    (forall name, name ∉ numeric_columns df -> statistics !! name = None).
Proof.
  intros Hne Hwf.
  destruct (foldl_insert_series df (column_stats sqrt)
              (add_statistics sqrt df) (fun _ _ => eq_refl) Hwf
              (numeric_columns df) ∅ (fun _ H => H))
    as (m & Hfold & Hin & Hout).
  exists m. unfold calculate_basic_statistics, calculate_basic_statistics_body.
  rewrite Hne, Hfold. split; [reflexivity|]. split.
  - intros name vs Hcol. apply Hin; [|exact Hcol].
    apply elem_of_numeric_columns. exists vs. exact Hcol.
  - intros name Hname. rewrite (Hout name Hname). apply lookup_empty.
Qed.


End AnalysisProperties.

(** ** Anomaly detection *)

Lemma Qabs_is0 (a : Q) : Qis0 (Qred (Qabs a)) = Qis0 a.
Proof.
  destruct (Qis0 a) eqn:E.
  - apply Qis0_true. apply Qis0_true in E.
    rewrite Qred_correct, E. reflexivity.
  - apply Qis0_false. apply Qis0_false in E. rewrite Qred_correct.
    intros H. apply E. revert H. apply Qabs_case; intros; lra.
Qed.

Lemma Qabs_positive (a : Q) : ~ a == 0 -> Qltb 0 (Qred (Qabs a)) = true.
Proof.
  intros H. apply Qltb_true. rewrite Qred_correct.
  apply Qabs_case; intros; lra.
Qed.

(** With a divisor that is not negative, the absolute value of a quotient
    is the quotient of the absolute value. *)
Lemma num_abs_div (x s : num) :
  (forall b, s = Fin b -> 0 <= b) ->
  num_abs (num_div x s) = num_div (num_abs x) s.
Proof.
  intros Hs. destruct s as [b| | |].
  - specialize (Hs b eq_refl). destruct x as [a| | |]; cbn.
    + rewrite Qabs_is0. destruct (Qis0 b) eqn:Eb.
      * destruct (Qis0 a) eqn:Ea; [reflexivity|].
        apply Qis0_false in Ea. rewrite (Qabs_positive a Ea).
        destruct (Qltb 0 a); reflexivity.
      * cbn. f_equal. apply Qred_eq. rewrite !Qred_correct.
        unfold Qdiv. rewrite Qabs_Qmult, Qabs_Qinv, (Qabs_pos b Hs).
        reflexivity.
    + apply Qle_bool_iff in Hs. rewrite Hs. reflexivity.
    + replace (Qltb b 0) with false.
      * apply Qle_bool_iff in Hs. rewrite Hs. reflexivity.
      * symmetry. unfold Qltb. apply negb_false_iff.
        apply Qle_bool_iff. exact Hs.
    + reflexivity.
  - destruct x; reflexivity.
  - destruct x; reflexivity.
  - destruct x; reflexivity.
Qed.

Lemma masked_rows_flagged (df : DataFrame) (rule : cell -> bool)
  (vs : list cell) :
  masked_rows df vs (map rule vs) = flagged_rows rule (index df) vs.
Proof.
  unfold masked_rows, flagged_rows.
  generalize (index df) as dates.
  induction vs as [|v vs IH]; intros dates.
  - destruct dates; reflexivity.
  - destruct dates as [|d dates]; [reflexivity|].
    cbn [map select_mask combine List.filter snd].
    destruct (rule v); cbn; rewrite IH; reflexivity.
Qed.

Section AnomalyProperties.

Variable sqrt : Q -> Q.
Hypothesis sqrt_nonneg : forall q, 0 <= sqrt q.

Lemma col_std_nonneg (vs : list cell) (b : Q) :
  col_std sqrt vs = Fin b -> 0 <= b.
Proof.
  unfold col_std. destruct (_ <? _)%nat; [discriminate|].
  intros H. inversion H. rewrite Qred_correct. apply sqrt_nonneg.
Qed.

Lemma zscore_mask_rule (vs : list cell) (threshold : num) :
  zscore_mask sqrt vs threshold =
  map (zscore_rule (col_mean vs) (col_std sqrt vs) threshold) vs.
Proof.
  unfold zscore_mask, zscore_rule. apply map_ext. intros c.
  rewrite num_abs_div; [reflexivity|]. apply col_std_nonneg.
Qed.

Lemma iqr_mask_rule (vs : list cell) (threshold : num) :
  iqr_mask vs threshold =
  map (iqr_rule (col_quantile (1 # 4) vs) (col_quantile (3 # 4) vs)
         threshold) vs.
Proof. reflexivity. Qed.

Lemma detect_anomalies_by_rule (df : DataFrame) (threshold : num)
  (method : string) (mask : list cell -> list bool)
  (rule : list cell -> cell -> bool) :
  (forall acc col,
      add_anomalies sqrt df threshold method acc col =
      (m ← acc; vs ← series df col;
       Ok (<[col := masked_rows df vs (mask vs)]> m))) ->
  (forall vs, mask vs = map (rule vs) vs) ->
  well_formed df ->
  exists anomalies,
    detect_anomalies sqrt df threshold method = (anomalies, []) /\
    (forall name vs,
        (name, NumCol vs) ∈ columns df ->
        anomalies_of anomalies name = flagged_rows (rule vs) (index df) vs /\
        (df_empty df = false ->
         anomalies !! name = Some (flagged_rows (rule vs) (index df) vs))).
Proof.
  intros Hstep Hmask Hwf.
  unfold detect_anomalies, detect_anomalies_body.
  destruct (df_empty df) eqn:Hempty.
  - exists ∅. split; [reflexivity|].
    intros name vs Hcol. split; [|discriminate].
    unfold anomalies_of. rewrite lookup_empty. cbn.
    unfold df_empty in Hempty. apply orb_true_iff in Hempty as [H|H].
    + apply Nat.eqb_eq in H. unfold df_len in H.
      destruct (index df); [|discriminate]. reflexivity.
    + apply Nat.eqb_eq in H. destruct (columns df); [|discriminate].
      inversion Hcol.
  - destruct (foldl_insert_series df
                (fun vs => masked_rows df vs (mask vs))
                (add_anomalies sqrt df threshold method) Hstep Hwf
                (numeric_columns df) ∅ (fun _ H => H))
      as (m & Hfold & Hin & _).
    exists m. rewrite Hfold. split; [reflexivity|].
    intros name vs Hcol.
    assert (E : m !! name = Some (flagged_rows (rule vs) (index df) vs)).
    { rewrite (Hin name vs); [|apply elem_of_numeric_columns; eauto|exact Hcol].
      rewrite Hmask, masked_rows_flagged. reflexivity. }
    split; [|intros _; exact E].
    unfold anomalies_of. rewrite E. reflexivity.
Qed.

(** C5. For every table with unique labels and aligned columns, and every
    numeric column of it, the anomalies that [detect_anomalies] lists for
    the column are, with method 'zscore', the rows where
    [|value - column_mean| / column_std > threshold] and, with method
    'iqr', the rows outside [[Q1 - threshold * IQR, Q3 + threshold * IQR]]
    where [IQR = Q3 - Q1] and Q1, Q3 are the quantiles 0.25 and 0.75 of the
    column; each such row gives its (timestamp, value) pair, in the order
    of the rows of the table.  No error is reported; on a non-empty table
    the column has an entry in the result. *)
Theorem detect_anomalies_spec (df : DataFrame) (threshold : num) :
  well_formed df ->
  (exists anomalies,
      detect_anomalies sqrt df threshold "zscore" = (anomalies, []) /\
      forall name vs,
        (name, NumCol vs) ∈ columns df ->
        let rule := zscore_rule (col_mean vs) (col_std sqrt vs) threshold in
        anomalies_of anomalies name = flagged_rows rule (index df) vs /\
        (df_empty df = false ->
         anomalies !! name = Some (flagged_rows rule (index df) vs))) /\
  (exists anomalies,
      detect_anomalies sqrt df threshold "iqr" = (anomalies, []) /\
      forall name vs,
        (name, NumCol vs) ∈ columns df ->
        let rule := iqr_rule (col_quantile (1 # 4) vs)
                             (col_quantile (3 # 4) vs) threshold in
        anomalies_of anomalies name = flagged_rows rule (index df) vs /\
        (df_empty df = false ->
         anomalies !! name = Some (flagged_rows rule (index df) vs))).
Proof.
  intros Hwf. split.
  - apply (detect_anomalies_by_rule df threshold "zscore"
             (fun vs => zscore_mask sqrt vs threshold)
             (fun vs => zscore_rule (col_mean vs) (col_std sqrt vs)
                          threshold)).
    + intros [m|e] col; reflexivity.
    + intros vs. apply zscore_mask_rule.
    + exact Hwf.
  - apply (detect_anomalies_by_rule df threshold "iqr"
             (fun vs => iqr_mask vs threshold)
             (fun vs => iqr_rule (col_quantile (1 # 4) vs)
                          (col_quantile (3 # 4) vs) threshold)).
    + intros [m|e] col; reflexivity.
    + intros vs. apply iqr_mask_rule.
    + exact Hwf.
Qed.

End AnomalyProperties.


(** ** Anomaly detection on a constant series *)

Lemma Qsum_const (q : Q) (xs : list Q) :
  Forall (fun x => x == q) xs -> Qsum xs == Qlen xs * q.
Proof.
  induction 1 as [|x xs Hx _ IH].
  - change (Qlen []) with 0. change (Qsum []) with 0. lra.
  - rewrite Qlen_cons. cbn [Qsum fold_right]. fold (Qsum xs).
    rewrite IH, Hx. lra.
Qed.

Lemma Qmean_const (q x : Q) (xs : list Q) :
  Forall (fun y => y == q) (x :: xs) -> Qmean (x :: xs) == q.
Proof.
  intros H. unfold Qmean. rewrite (Qsum_const q _ H).
  pose proof (Qlen_pos x xs) as Hpos.
  field. lra.
Qed.

Lemma Qsum_zero (xs : list Q) : Forall (fun x => x == 0) xs -> Qsum xs == 0.
Proof.
  intros H. rewrite (Qsum_const 0 xs H). lra.
Qed.

Lemma Qssq_const (q : Q) (xs : list Q) :
  Forall (fun y => y == q) xs -> Qssq xs == 0.
Proof.
  intros H. unfold Qssq. apply Qsum_zero.
  destruct xs as [|x xs]; [constructor|].
  pose proof (Qmean_const q x xs H) as Hm.
  rewrite map_fmap. apply Forall_fmap. 
  eapply Forall_impl; [exact H|]. intros y Hy. cbn.
  rewrite Hm, Hy. lra.
Qed.

Lemma dropna_constant (q : Q) (vs : list cell) :
  constant_series q vs -> Forall (fun x => x == q) (dropna vs).
Proof.
  unfold constant_series, dropna.
  induction 1 as [|[x|] vs Hc _ IH]; cbn; [constructor| |exact IH].
  constructor; assumption.
Qed.

Lemma flagged_rows_none (rule : cell -> bool) (dates : list Z)
  (vs : list cell) :
  (forall c, c ∈ vs -> rule c = false) -> flagged_rows rule dates vs = [].
Proof.
  unfold flagged_rows. revert dates.
  induction vs as [|v vs IH]; intros dates Hr.
  - destruct dates; reflexivity.
  - destruct dates as [|d dates]; [reflexivity|].
    cbn [combine List.filter snd]. rewrite (Hr v) by left.
    apply IH. intros c Hc. apply Hr. right. exact Hc.
Qed.

Section ConstantSeries.

Variable sqrt : Q -> Q.
Hypothesis sqrt_zero : sqrt 0 == 0.

(** The standard deviation of a constant series is zero, or undefined
    when fewer than two values are present. *)
Lemma col_std_constant (q : Q) (vs : list cell) :
  constant_series q vs ->
  col_std sqrt vs = NaN \/ col_std sqrt vs = Fin 0.
Proof.
  intros Hc. unfold col_std. destruct (_ <? _)%nat; [left; reflexivity|].
  right. f_equal.
  assert (E : Qred (Qvar (dropna vs)) = 0).
  { transitivity (Qred 0); [|reflexivity]. apply Qred_eq. unfold Qvar.
    rewrite (Qssq_const q _ (dropna_constant q vs Hc)).
    unfold Qdiv. lra. }
  rewrite E. transitivity (Qred 0); [|reflexivity].
  apply Qred_eq. exact sqrt_zero.
Qed.

Lemma zscore_constant (q : Q) (vs : list cell) (threshold : num) (c : cell) :
  constant_series q vs -> c ∈ vs ->
  num_gtb (num_abs (num_div (num_sub (cell_num c) (col_mean vs))
                            (col_std sqrt vs))) threshold = false.
Proof.
  intros Hc Hin.
  assert (Hnan : num_abs (num_div (num_sub (cell_num c) (col_mean vs))
                                  (col_std sqrt vs)) = NaN).
  { destruct (col_std_constant q vs Hc) as [-> | ->].
    - destruct (num_sub _ _); reflexivity.
    - destruct c as [x|]; [|destruct (col_mean vs); reflexivity].
      assert (Hx : x == q).
      { unfold constant_series in Hc. rewrite Forall_forall in Hc.
        apply (Hc (Some x) Hin). }
      apply elem_of_dropna in Hin. unfold col_mean.
      pose proof (dropna_constant q vs Hc) as Hall.
      destruct (dropna vs) as [|y ys]; [inversion Hin|].
      cbn [cell_num num_sub num_div].
      change (Qis0 0) with true. cbn match.
      replace (Qis0 (Qred (x - Qred (Qmean (y :: ys))))) with true;
        [reflexivity|].
      symmetry. apply Qis0_true. rewrite !Qred_correct.
      rewrite (Qmean_const q y ys Hall), Hx. lra. }
  rewrite Hnan. destruct threshold; reflexivity.
Qed.


End ConstantSeries.

(** ** Moving average *)

Lemma string_length_app (a b : string) :
  String.length (a +:+ b) = (String.length a + String.length b)%nat.
Proof.
  induction a as [|c a IH]; [reflexivity|].
  change (String c a +:+ b) with (String c (a +:+ b)).
  cbn [String.length]. rewrite IH. reflexivity.
Qed.

Lemma string_app_inv_tail (a b s : string) : a +:+ s = b +:+ s -> a = b.
Proof.
  revert b. induction a as [|c a IH]; intros [|d b] H.
  - reflexivity.
  - apply (f_equal String.length) in H.
    rewrite !string_length_app in H. cbn in H. lia.
  - apply (f_equal String.length) in H.
    rewrite !string_length_app in H. cbn in H. lia.
  - change (String c (a +:+ s) = String d (b +:+ s)) in H.
    inversion H; subst. f_equal. apply IH. assumption.
Qed.

Lemma ma_name_inj (a b : string) (window : Z) :
  ma_name a window = ma_name b window -> a = b.
Proof. unfold ma_name. apply string_app_inv_tail. Qed.

Lemma set_column_fresh (cols : list (string * column)) (name : string)
  (c : column) :
  name ∉ map fst cols -> set_column cols name c = cols ++ [(name, c)].
Proof.
  induction cols as [|[n c0] cols IH]; intros Hn; cbn; [reflexivity|].
  cbn in Hn. apply not_elem_of_cons in Hn as [Hne Hn].
  destruct (String.eqb n name) eqn:E.
  - apply String.eqb_eq in E. congruence.
  - rewrite IH by exact Hn. reflexivity.
Qed.

Lemma numeric_columns_series (df : DataFrame) :
  numeric_columns df = map fst (numeric_series df).
Proof.
  unfold numeric_columns, numeric_series.
  induction (columns df) as [|[n c] cols IH]; [reflexivity|].
  destruct c.
  - rewrite filter_cons_True by reflexivity. cbn. f_equal. exact IH.
  - rewrite filter_cons_False by (cbn; congruence). cbn. exact IH.
  - rewrite filter_cons_False by (cbn; congruence). cbn. exact IH.
Qed.

Lemma elem_of_numeric_series (df : DataFrame) (p : string * list cell) :
  p ∈ numeric_series df <-> (fst p, NumCol (snd p)) ∈ columns df.
Proof.
  unfold numeric_series. rewrite list_elem_of_omap. split.
  - intros ([n c] & Hin & E). destruct c; cbn in E; try discriminate.
    inversion E; subst. exact Hin.
  - intros Hin. exists (fst p, NumCol (snd p)). split; [exact Hin|].
    destruct p; reflexivity.
Qed.

Lemma numeric_series_NoDup (df : DataFrame) :
  NoDup (column_names df) -> NoDup (map fst (numeric_series df)).
Proof.
  unfold column_names, numeric_series.
  induction (columns df) as [|[n c] cols IH]; intros Hnd; [constructor|].
  cbn in Hnd. apply NoDup_cons in Hnd as [Hn Hnd].
  destruct c; cbn; [|apply IH; exact Hnd|apply IH; exact Hnd].
  apply NoDup_cons. split; [|apply IH; exact Hnd].
  intros Hin. apply Hn. rewrite map_fmap in *.
  apply list_elem_of_fmap in Hin as ([n' vs'] & E & Hin). cbn in E. subst n'.
  apply list_elem_of_omap in Hin as ([n2 c2] & Hin2 & E2).
  destruct c2; cbn in E2; try discriminate. inversion E2; subst.
  apply list_elem_of_fmap. exists (n, NumCol vs'). split; [reflexivity|].
  exact Hin2.
Qed.

(** The column that the loop appends for a numeric series. *)
Lemma add_moving_average_fresh (df : DataFrame) (window : Z)
  (acc : list (string * column)) (col : string) (vs : list cell) :
  NoDup (column_names df) -> (0 <= window)%Z ->
  (col, NumCol vs) ∈ columns df ->
  ma_name col window ∉ map fst acc ->
  add_moving_average df window (Ok (mkFrame (index df) acc)) col =
  Ok (mkFrame (index df)
        (acc ++ [(ma_name col window,
                  NumCol (rolling_from (Z.to_nat window) [] vs))])).
Proof.
  intros Hnd Hw Hcol Hfresh. unfold add_moving_average, getitem. cbn.
  rewrite (lookup_column_in _ _ _ Hnd Hcol). cbn.
  replace (window <? 0)%Z with false by (symmetry; apply Z.ltb_ge; exact Hw).
  cbn. unfold setitem. cbn. rewrite set_column_fresh by exact Hfresh.
  reflexivity.
Qed.

Lemma foldl_add_moving_average (df : DataFrame) (window : Z)
  (cols : list (string * list cell)) :
  NoDup (column_names df) -> (0 <= window)%Z ->
  NoDup (map fst cols) ->
  (forall p, p ∈ cols -> (fst p, NumCol (snd p)) ∈ columns df) ->
  forall acc : list (string * column),
    (forall p, p ∈ cols -> ma_name (fst p) window ∉ map fst acc) ->
    foldl (add_moving_average df window) (Ok (mkFrame (index df) acc))
          (map fst cols) =
    Ok (mkFrame (index df)
          (acc ++ map (fun p => (ma_name (fst p) window,
                                 NumCol (rolling_from (Z.to_nat window) []
                                           (snd p)))) cols)).
Proof.
  intros Hnd Hw Hnames Hcols.
  induction cols as [|[n vs] cols IH]; intros acc Hfresh.
  - cbn. rewrite app_nil_r. reflexivity.
  - cbn [map foldl fst snd].
    rewrite (add_moving_average_fresh df window acc n vs Hnd Hw).
    + cbn in Hnames. apply NoDup_cons in Hnames as [Hn Hnames].
      rewrite IH.
      * rewrite <- app_assoc. reflexivity.
      * exact Hnames.
      * intros p Hp. apply Hcols. right. exact Hp.
      * intros p Hp. rewrite map_app. cbn.
        intros Hin. apply elem_of_app in Hin as [Hin|Hin].
        -- apply (Hfresh p); [right; exact Hp|exact Hin].
        -- apply list_elem_of_singleton in Hin. apply ma_name_inj in Hin.
           apply Hn. rewrite map_fmap. apply list_elem_of_fmap.
           exists p. split; [symmetry; exact Hin|exact Hp].
    + apply (Hcols (n, vs)). left.
    + apply (Hfresh (n, vs)). left.
Qed.

(** The rolling mean, row by row. *)
Lemma rolling_from_length (w : nat) (past rest : list cell) :
  length (rolling_from w past rest) = length rest.
Proof.
  revert past. induction rest as [|v rest IH]; intros past; cbn;
    [reflexivity|]. rewrite IH. reflexivity.
Qed.

Lemma rolling_from_lookup (w : nat) (past rest : list cell) (i : nat) :
  (i < length rest)%nat ->
  rolling_from w past rest !! i =
  Some (if (length past + i + 1 <? w)%nat then None
        else window_mean (drop (length past + i + 1 - w)
                               (take (length past + i + 1) (past ++ rest)))).
Proof.
  revert past i. induction rest as [|v rest IH]; intros past i Hi.
  - cbn in Hi. lia.
  - destruct i as [|i]; cbn [rolling_from].
    + cbn [lookup list_lookup]. f_equal.
      rewrite Nat.add_0_r, length_app. cbn [length].
      replace (take (length past + 1) (past ++ v :: rest))
        with (past ++ [v]); [reflexivity|].
      change (v :: rest) with ([v] ++ rest). rewrite app_assoc.
      replace (length past + 1)%nat with (length (past ++ [v]))
        by (rewrite length_app; reflexivity).
      rewrite take_app_length. reflexivity.
    + cbn [lookup list_lookup]. cbn in Hi.
      change ((rolling_from w (past ++ [v]) rest) !! i =
              Some (if (length past + S i + 1 <? w)%nat then None
                    else window_mean
                           (drop (length past + S i + 1 - w)
                              (take (length past + S i + 1)
                                 (past ++ v :: rest))))).
      rewrite IH by lia. rewrite length_app. cbn [length].
      replace (length past + 1 + i + 1)%nat
        with (length past + S i + 1)%nat by lia.
      replace ((past ++ [v]) ++ rest) with (past ++ v :: rest)
        by (rewrite <- app_assoc; reflexivity).
      reflexivity.
Qed.

Lemma rolling_window (w : nat) (vs : list cell) (i : nat) :
  (i < length vs)%nat ->
  rolling_from w [] vs !! i =
  Some (if (i + 1 <? w)%nat then None
        else window_mean (take w (drop (i + 1 - w) vs))).
Proof.
  intros Hi. rewrite rolling_from_lookup by exact Hi. cbn [length app].
  rewrite Nat.add_0_l. f_equal.
  destruct (i + 1 <? w)%nat eqn:E; [reflexivity|].
  apply Nat.ltb_ge in E. f_equal.
  rewrite take_drop_commute. f_equal. f_equal. lia.
Qed.

Lemma window_mean_present (x : Q) (xs : list Q) :
  window_mean (map Some (x :: xs)) = Some (Qred (Qmean (x :: xs))).
Proof.
  unfold window_mean. cbn [map].
  replace (forallb _ (Some x :: map Some xs)) with true.
  - change (Some x :: map Some xs) with (map Some (x :: xs)).
    rewrite dropna_present. reflexivity.
  - symmetry. cbn. induction xs as [|y ys IH]; [reflexivity|exact IH].
Qed.



(** A negative window is refused by [rolling]: the table comes back as it
    was, with a message. *)
Example moving_average_negative_window :
  calculate_moving_average flat_frame (-1) None =
  (flat_frame,
   ["Ошибка при расчете скользящего среднего: window must be an integer 0 or greater"]).
Proof. reflexivity. Qed.

(** A named text column cannot be averaged: the table comes back as it
    was, with a message. *)
Example moving_average_text_column :
  calculate_moving_average sample_frame 2 (Some "T") =
  (sample_frame,
   ["Ошибка при расчете скользящего среднего: No numeric types to aggregate"]).
Proof. reflexivity. Qed.

(** A column that already carries the name of the new column is
    overwritten. *)
Example moving_average_label_collision :
  calculate_moving_average
    (mkFrame [1; 2]%Z [("A_MA1", NumCol [Some 5; Some 6]);
                       ("A", NumCol [Some 1; Some 2])]) 1 (Some "A")
  = (mkFrame [1; 2]%Z [("A_MA1", NumCol [Some 1; Some 2]);
                       ("A", NumCol [Some 1; Some 2])], []).
Proof. reflexivity. Qed.


(** ** Correlation matrix *)

Lemma Qmult_comm_eq (x y : Q) : x * y = y * x.
Proof.
  unfold Qmult. f_equal; [apply Z.mul_comm|apply Pos.mul_comm].
Qed.

Lemma complete_pairs_swap (xs ys : list cell) :
  complete_pairs ys xs = map (fun p => (snd p, fst p)) (complete_pairs xs ys).
Proof.
  revert ys. induction xs as [|[x|] xs IH]; intros [|[y|] ys]; cbn;
    try reflexivity; try apply IH.
  rewrite IH. reflexivity.
Qed.

Lemma complete_pairs_diag (vs : list cell) :
  complete_pairs vs vs = map (fun x => (x, x)) (dropna vs).
Proof.
  induction vs as [|[x|] vs IH]; cbn; [reflexivity| |exact IH].
  rewrite IH. reflexivity.
Qed.

Lemma Qsum_squares_nonneg (m : Q) (xs : list Q) :
  0 <= Qsum (map (fun x => (x - m) * (x - m)) xs).
Proof.
  induction xs as [|x xs IH].
  - change (Qsum (map (fun x => (x - m) * (x - m)) [])) with 0. lra.
  - change (0 <= (x - m) * (x - m)
                 + Qsum (map (fun x => (x - m) * (x - m)) xs)).
    set (d := x - m). assert (0 <= d * d) by nra. lra.
Qed.

Lemma Qssq_nonneg (xs : list Q) : 0 <= Qssq xs.
Proof. apply Qsum_squares_nonneg. Qed.

Lemma corr_entry (sqrt : Q -> Q) (cols : list (string * list cell))
  (i j : nat) :
  entry (corr sqrt cols) i j =
  match cols !! i, cols !! j with
  | Some r, Some c => Some (pearson sqrt (snd r) (snd c))
  | _, _ => None
  end.
Proof.
  unfold entry, corr. cbn [entries]. rewrite !map_fmap.
  rewrite list_lookup_fmap. destruct (cols !! i) as [r|]; cbn; [|reflexivity].
  rewrite map_fmap, list_lookup_fmap. destruct (cols !! j); reflexivity.
Qed.

Section CorrelationProperties.

Variable sqrt : Q -> Q.

Lemma pearson_sym (xs ys : list cell) :
  pearson sqrt xs ys = pearson sqrt ys xs.
Proof.
  unfold pearson. rewrite (complete_pairs_swap xs ys).
  destruct (complete_pairs xs ys) as [|p ps]; [reflexivity|].
  set (l := p :: ps).
  change (map (fun q : Q * Q => (snd q, fst q)) l)
    with ((snd p, fst p) :: map (fun q : Q * Q => (snd q, fst q)) ps).
  cbv iota.
  change ((snd p, fst p) :: map (fun q : Q * Q => (snd q, fst q)) ps)
    with (map (fun q : Q * Q => (snd q, fst q)) l).
  rewrite !map_map. cbn [fst snd].
  change (fun x : Q * Q => snd x) with (@snd Q Q).
  change (fun x : Q * Q => fst x) with (@fst Q Q).
  rewrite (Qmult_comm_eq (Qssq (map snd l)) (Qssq (map fst l))).
  replace (map (fun x : Q * Q =>
                  (snd x - Qmean (map snd l)) * (fst x - Qmean (map fst l)))
               l)
    with (map (fun q : Q * Q =>
                 (fst q - Qmean (map fst l)) * (snd q - Qmean (map snd l))) l).
  - reflexivity.
  - apply map_ext. intros q. apply Qmult_comm_eq.
Qed.

Lemma corr_symmetric (cols : list (string * list cell)) (i j : nat) :
  entry (corr sqrt cols) i j = entry (corr sqrt cols) j i.
Proof.
  rewrite !corr_entry.
  destruct (cols !! i) as [r|], (cols !! j) as [c|]; try reflexivity.
  rewrite pearson_sym. reflexivity.
Qed.

Lemma corr_square (cols : list (string * list cell)) :
  length (entries (corr sqrt cols)) = length (labels (corr sqrt cols)) /\
  Forall (fun row => length row = length (labels (corr sqrt cols)))
         (entries (corr sqrt cols)).
Proof.
  unfold corr. cbn [entries labels]. rewrite !length_map. split;
    [reflexivity|].
  apply Forall_forall. intros row Hrow. rewrite map_fmap in Hrow.
  apply list_elem_of_fmap in Hrow as (r & -> & _).
  rewrite length_map. reflexivity.
Qed.

Hypothesis sqrt_square : forall a, 0 <= a -> sqrt (Qred (a * a)) == a.

Lemma pearson_diag (vs : list cell) :
  nonzero_variance vs -> pearson sqrt vs vs = Fin 1.
Proof.
  intros [Hlen Hvar]. unfold pearson. rewrite complete_pairs_diag.
  assert (Hss : ~ Qssq (dropna vs) == 0).
  { intros H. apply Hvar. unfold Qvar. rewrite H. unfold Qdiv. lra. }
  destruct (dropna vs) as [|x xs] eqn:E; [cbn in Hlen; lia|].
  set (l := x :: xs) in *.
  change (map (fun y : Q => (y, y)) (x :: xs))
    with ((x, x) :: map (fun y : Q => (y, y)) xs).
  cbv iota.
  change ((x, x) :: map (fun y : Q => (y, y)) xs)
    with (map (fun y : Q => (y, y)) l).
  rewrite !map_map. cbn [fst snd]. rewrite !map_id.
  pose proof (sqrt_square (Qssq l) (Qssq_nonneg l)) as Hsq.
  replace (Qis0 (sqrt (Qred (Qssq l * Qssq l)))) with false.
  - f_equal. transitivity (Qred 1); [|reflexivity]. apply Qred_eq.
    rewrite Hsq. fold (Qssq l). field. exact Hss.
  - symmetry. apply Qis0_false. rewrite Hsq. exact Hss.
Qed.

(** C9. The matrix returned by [calculate_correlation_matrix] is labelled
    by the numeric columns of the table, is square and is symmetric; the
    diagonal entry of a numeric column with nonzero variance is 1.0; an
    empty table gives the empty matrix.  No error is reported. *)
Theorem correlation_matrix_spec (df : DataFrame) :
  (df_empty df = true ->
   calculate_correlation_matrix sqrt df = (empty_matrix, [])) /\
  exists m,
    calculate_correlation_matrix sqrt df = (m, []) /\
    (df_empty df = false -> labels m = numeric_columns df) /\
    length (entries m) = length (labels m) /\
    Forall (fun row => length row = length (labels m)) (entries m) /\
    (forall i j, entry m i j = entry m j i) /\
    (df_empty df = false ->
     forall i name vs,
       numeric_series df !! i = Some (name, vs) ->
       labels m !! i = Some name /\
       (nonzero_variance vs -> entry m i i = Some (Fin 1))).
Proof.
  unfold calculate_correlation_matrix, calculate_correlation_matrix_body.
  destruct (df_empty df) eqn:Hempty.
  - split; [reflexivity|]. exists empty_matrix.
    split; [reflexivity|]. split; [discriminate|].
    split; [reflexivity|]. split; [constructor|].
    split; [|discriminate].
    intros i j. unfold entry. cbn. rewrite !lookup_nil. reflexivity.
  - split; [discriminate|]. exists (corr sqrt (numeric_series df)).
    split; [reflexivity|].
    split; [intros _; cbn; symmetry; apply numeric_columns_series|].
    destruct (corr_square (numeric_series df)) as [Hrows Hcols].
    split; [exact Hrows|]. split; [exact Hcols|].
    split; [apply corr_symmetric|].
    intros _ i name vs Hi. split.
    + cbn [labels corr]. rewrite map_fmap, list_lookup_fmap, Hi. reflexivity.
    + intros Hvar. rewrite corr_entry, Hi. cbn [snd].
      rewrite (pearson_diag vs Hvar). reflexivity.
Qed.

End CorrelationProperties.

(** ** The sample square root *)

Lemma sqrt_sample_nonneg (q : Q) : 0 <= sqrt_sample q.
Proof.
  unfold sqrt_sample.
  apply Qle_shift_div_l.
  - change 0 with (inject_Z 0). rewrite <- Zlt_Qlt.
    apply Z.sqrt_pos. reflexivity.
  - rewrite Qmult_0_l. change 0 with (inject_Z 0). rewrite <- Zle_Qle.
    apply Z.sqrt_nonneg.
Qed.

Lemma sqrt_sample_zero : sqrt_sample 0 == 0.
Proof. reflexivity. Qed.

Lemma sqrt_sample_of_square (n : Z) (d : positive) :
  (0 <= n)%Z -> sqrt_sample ((n * n) # (d * d)) == n # d.
Proof.
  intros Hn. unfold sqrt_sample. cbn [Qnum Qden].
  rewrite Pos2Z.inj_mul, !Z.sqrt_square by lia.
  symmetry. apply Qmake_Qdiv.
Qed.

Lemma Qred_square (n : Z) (d : positive) :
  Z.gcd n (Z.pos d) = 1%Z -> Qred ((n * n) # (d * d)) = (n * n) # (d * d).
Proof.
  intros Hg.
  assert (Hsq : Z.gcd (n * n) (Z.pos (d * d)) = 1%Z).
  { rewrite Pos2Z.inj_mul.
    apply Z.coprime_mul_l; apply Z.coprime_mul_r; exact Hg. }
  pose proof (gcd_Qred ((n * n) # (d * d))) as Hr.
  pose proof (Qred_correct ((n * n) # (d * d))) as He.
  destruct (Qred ((n * n) # (d * d))) as [N D].
  cbn [Qnum Qden] in Hr. unfold Qeq in He. cbn [Qnum Qden] in He.
  assert (HD : (Z.pos D | Z.pos (d * d))%Z).
  { apply (Z.gauss _ N); [|rewrite Z.gcd_comm; exact Hr].
    exists (n * n)%Z. lia. }
  assert (HE : (Z.pos (d * d) | Z.pos D)%Z).
  { apply (Z.gauss _ (n * n)%Z); [|rewrite Z.gcd_comm; exact Hsq].
    exists N. lia. }
  assert (E : Z.pos D = Z.pos (d * d))
    by (apply Z.divide_antisym_nonneg; [lia|lia|exact HD|exact HE]).
  inversion E as [E']. rewrite E' in He. f_equal. nia.
Qed.

Lemma sqrt_sample_square (a : Q) :
  0 <= a -> sqrt_sample (Qred (a * a)) == a.
Proof.
  intros Ha.
  pose proof (gcd_Qred a) as Hg. pose proof (Qred_correct a) as Hc.
  destruct (Qred a) as [n d] eqn:E. cbn [Qnum Qden] in Hg.
  assert (Hn : (0 <= n)%Z).
  { rewrite <- Hc in Ha. unfold Qle in Ha. cbn in Ha. lia. }
  assert (Hsq : Qred (a * a) = (n * n) # (d * d)).
  { rewrite <- (Qred_square n d Hg). apply Qred_eq.
    rewrite <- Hc. reflexivity. }
  rewrite Hsq, (sqrt_sample_of_square n d Hn). exact Hc.
Qed.

(** ** The sample tables *)

Lemma sample_frame_well_formed : well_formed sample_frame.
Proof.
  split.
  - by_evaluation.
  - repeat constructor.
Qed.

Lemma spike_frame_well_formed : well_formed spike_frame.
Proof.
  split.
  - by_evaluation.
  - repeat constructor.
Qed.

Lemma flat_frame_well_formed : well_formed flat_frame.
Proof.
  split.
  - by_evaluation.
  - repeat constructor.
Qed.

(** Use of C5: the spike of the sample table is the only row flagged, by
    both methods. *)
Lemma detect_anomalies_spec_witness :
  anomalies_of (fst (detect_anomalies sqrt_sample spike_frame (Fin 1)
                       "zscore")) "A" = [(4%Z, Fin 10)] /\
  anomalies_of (fst (detect_anomalies sqrt_sample spike_frame (Fin (3 # 2))
                       "iqr")) "A" = [(4%Z, Fin 10)].
Proof.
  split.
  - destruct (detect_anomalies_spec sqrt_sample sqrt_sample_nonneg
                spike_frame (Fin 1) spike_frame_well_formed)
      as [(anomalies & Hres & Hrows) _].
    rewrite Hres. cbn [fst].
    destruct (Hrows "A" [Some 2; Some 2; Some 2; Some 10]) as [H _].
    + left.
    + rewrite H. vm_compute. reflexivity.
  - destruct (detect_anomalies_spec sqrt_sample sqrt_sample_nonneg
                spike_frame (Fin (3 # 2)) spike_frame_well_formed)
      as [_ (anomalies & Hres & Hrows)].
    rewrite Hres. cbn [fst].
    destruct (Hrows "A" [Some 2; Some 2; Some 2; Some 10]) as [H _].
    + left.
    + rewrite H. vm_compute. reflexivity.
Defined.

(** Use of C6 on the sample table with a method that does not exist. *)
Lemma detect_anomalies_unknown_method_witness :
  detect_anomalies sqrt_sample sample_frame (Fin 2) "invalid_method"
  = (∅, []).
Proof.
  apply (detect_anomalies_unknown_method sqrt_sample sample_frame (Fin 2)
           "invalid_method"); discriminate.
Defined.



(** Use of C9 on the sample table with a spike: one label, one entry,
    equal to 1.0. *)
Lemma correlation_matrix_spec_witness :
  exists m,
    calculate_correlation_matrix sqrt_sample spike_frame = (m, []) /\
    labels m = ["A"] /\
    entry m 0 0 = Some (Fin 1).
Proof.
  destruct (correlation_matrix_spec sqrt_sample sqrt_sample_square
              spike_frame)
    as (_ & m & Hres & Hlabels & _ & _ & _ & Hdiag).
  exists m. split; [exact Hres|]. split; [apply Hlabels; reflexivity|].
  destruct (Hdiag eq_refl 0%nat "A" [Some 2; Some 2; Some 2; Some 10])
    as [_ Hone].
  - reflexivity.
  - apply Hone. split; [cbn; lia|]. vm_compute. discriminate.
Defined.



(** ** The tests of the repository, replayed on the embedding *)

Example test_calculate_basic_statistics_normal_data :
  exists st,
    fst (calculate_basic_statistics sqrt_sample test_sample_data)
      !! "Продукт_1" = Some st /\
    s_mean st = Fin 137 /\ s_min st = Fin 100 /\ s_max st = Fin 170 /\
    s_sum st = Fin 1370 /\ s_count st = 10%Z.
Proof. eexists. split; [vm_compute; reflexivity|]. repeat split. Qed.

Example test_calculate_basic_statistics_with_missing_data :
  s_count <$> (fst (calculate_basic_statistics sqrt_sample
                      test_data_with_missing) !! "Продукт_1")
  = Some 4%Z.
Proof. vm_compute. reflexivity. Qed.

Example test_calculate_kpi_metrics_normal_data :
  let kpi := fst (calculate_kpi_metrics test_sample_data) in
  kpi !! "total_sessions" = Some (PyInt 3220) /\
  kpi !! "days_count" = Some (PyInt 10) /\
  kpi !! "avg_daily_sessions" = Some (PyFloat (Fin 322)).
Proof. repeat split; vm_compute; reflexivity. Qed.

Example test_calculate_kpi_metrics_single_column :
  let kpi := fst (calculate_kpi_metrics test_single_column_data) in
  kpi !! "total_sessions" = Some (PyInt 600) /\
  kpi !! "days_count" = Some (PyInt 5).
Proof. repeat split; vm_compute; reflexivity. Qed.

Example test_calculate_moving_average_specific_column :
  match getitem (fst (calculate_moving_average test_sample_data 3
                        (Some "Продукт_1"))) "Продукт_1_MA3" with
  | Some (NumCol ma) => take 3 ma = [None; None; Some 110]
  | _ => False
  end.
Proof. vm_compute. reflexivity. Qed.

Example test_detect_anomalies_invalid_method :
  detect_anomalies sqrt_sample test_sample_data (Fin 2) "invalid_method"
  = (∅, []).
Proof. reflexivity. Qed.

Example test_calculate_correlation_matrix_normal_data :
  let m := fst (calculate_correlation_matrix sqrt_sample test_sample_data) in
  length (entries m) = 3%nat /\
  entry m 0 0 = Some (Fin 1) /\ entry m 1 1 = Some (Fin 1) /\
  entry m 2 2 = Some (Fin 1).
Proof. repeat split; vm_compute; reflexivity. Qed.

Example test_calculate_growth_rate_zero_first_value :
  _calculate_growth_rate (present [0; 100; 150]%Z) = Fin 0.
Proof. reflexivity. Qed.

Example test_calculate_growth_rate_empty_series :
  _calculate_growth_rate [] = Fin 0.
Proof. reflexivity. Qed.

(** * Further properties of the code *)

(** ** Boolean masks *)

Lemma select_mask_nil {A : Type} (mask : list bool) :
  select_mask mask ([] : list A) = [].
Proof. destruct mask as [|[|] mask]; reflexivity. Qed.

Lemma select_mask_filter {A : Type} (f : A -> bool) (l : list A) :
  select_mask (map f l) l = List.filter f l.
Proof.
  induction l as [|x l IH]; [reflexivity|].
  cbn. destruct (f x); rewrite IH; reflexivity.
Qed.

(** The rows of an aligned series that a mask computed from the dates
    keeps. *)
Lemma select_mask_aligned {A : Type} (f : Z -> bool) (dates : list Z)
  (l : list A) :
  select_mask (map f dates) l =
  map snd (List.filter (fun r => f (fst r)) (combine dates l)).
Proof.
  revert l. induction dates as [|d dates IH]; intros [|x l]; try reflexivity.
  cbn. destruct (f d); cbn; rewrite IH; reflexivity.
Qed.

Lemma select_mask_length {A B : Type} (mask : list bool) (l1 : list A)
  (l2 : list B) :
  length l1 = length l2 ->
  length (select_mask mask l1) = length (select_mask mask l2).
Proof.
  revert l1 l2. induction mask as [|b mask IH]; intros [|x l1] [|y l2] H;
    try reflexivity; try discriminate.
  cbn in H. cbn. destruct b; cbn; rewrite (IH l1 l2) by lia; reflexivity.
Qed.

Lemma select_mask_all {A : Type} (f : Z -> bool) (dates : list Z)
  (l : list A) :
  length l = length dates -> Forall (fun d => f d = true) dates ->
  select_mask (map f dates) l = l.
Proof.
  revert l. induction dates as [|d dates IH]; intros [|x l] Hlen Hall;
    try reflexivity; try discriminate.
  apply Forall_cons in Hall as [Hd Hall]. cbn. rewrite Hd.
  rewrite IH; [reflexivity|cbn in Hlen; lia|exact Hall].
Qed.

Lemma select_mask_none {A : Type} (f : Z -> bool) (dates : list Z)
  (l : list A) :
  Forall (fun d => f d = false) dates -> select_mask (map f dates) l = [].
Proof.
  revert l. induction dates as [|d dates IH]; intros [|x l] Hall;
    try reflexivity.
  apply Forall_cons in Hall as [Hd Hall]. cbn. rewrite Hd. apply IH, Hall.
Qed.

(** Two masks in a row are the conjunction of the masks. *)
Lemma select_mask_twice {A : Type} (f g : Z -> bool) (dates : list Z)
  (l : list A) :
  select_mask (map g (select_mask (map f dates) dates))
              (select_mask (map f dates) l)
  = select_mask (map (fun d => f d && g d) dates) l.
Proof.
  revert l. induction dates as [|d dates IH]; intros l.
  - destruct l; reflexivity.
  - destruct l as [|x l].
    + cbn. rewrite !select_mask_nil. destruct (f d); reflexivity.
    + cbn. destruct (f d); cbn; [destruct (g d)|]; rewrite IH; reflexivity.
Qed.

Lemma select_column_twice (f g : Z -> bool) (dates : list Z) (c : column) :
  select_column (map g (select_mask (map f dates) dates))
                (select_column (map f dates) c)
  = select_column (map (fun d => f d && g d) dates) c.
Proof. destruct c; cbn; rewrite select_mask_twice; reflexivity. Qed.

Lemma in_range_both (a b c d x : Z) :
  in_range a b x && in_range c d x = in_range (Z.max a c) (Z.min b d) x.
Proof.
  unfold in_range.
  destruct (a <=? x)%Z eqn:E1, (x <=? b)%Z eqn:E2, (c <=? x)%Z eqn:E3,
    (x <=? d)%Z eqn:E4, (Z.max a c <=? x)%Z eqn:E5,
    (x <=? Z.min b d)%Z eqn:E6; try reflexivity; exfalso;
    rewrite ?Z.leb_le, ?Z.leb_gt in *; lia.
Qed.

Lemma select_rows_names (mask : list bool) (df : DataFrame) :
  column_names (select_rows mask df) = column_names df.
Proof.
  unfold column_names, select_rows. cbn [columns].
  rewrite map_map. reflexivity.
Qed.

Lemma select_rows_well_formed (mask : list bool) (df : DataFrame) :
  well_formed df -> well_formed (select_rows mask df).
Proof.
  intros [Hnd Hlen]. split.
  - rewrite select_rows_names. exact Hnd.
  - unfold select_rows, df_len. cbn [columns index].
    rewrite map_fmap. apply Forall_fmap.
    eapply Forall_impl; [exact Hlen|]. intros [n c] Hc. cbn in *.
    unfold df_len in Hc.
    destruct c; cbn in *; apply select_mask_length; exact Hc.
Qed.

(** ** [filter_data_by_date] *)

Lemma filter_index (df : DataFrame) (start_date end_date : pydate) :
  index (fst (filter_data_by_date df start_date end_date)) =
  List.filter (in_range (to_timestamp start_date) (to_timestamp end_date))
              (index df).
Proof.
  unfold filter_data_by_date, filter_data_by_date_body, select_rows,
    date_mask.
  cbn [fst index]. apply select_mask_filter.
Qed.

Lemma filter_covering (df : DataFrame) (start_date end_date : pydate) :
  well_formed df ->
  Forall (fun d => (to_timestamp start_date <= d <= to_timestamp end_date)%Z)
         (index df) ->
  filter_data_by_date df start_date end_date = (df, []).
Proof.
  unfold filter_data_by_date, filter_data_by_date_body.
  intros [_ Hlen] Hall. f_equal.
  assert (Hkeep : Forall (fun d => in_range (to_timestamp start_date)
                                     (to_timestamp end_date) d = true)
                         (index df)).
  { eapply Forall_impl; [exact Hall|]. intros d [H1 H2]. unfold in_range.
    apply andb_true_iff. split; apply Z.leb_le; assumption. }
  destruct df as [idx cols]. unfold select_rows, date_mask.
  cbn [index columns] in *. f_equal.
  + apply select_mask_all; [reflexivity|exact Hkeep].
  + unfold df_len in Hlen. cbn [index] in Hlen.
    induction cols as [|[n c] cols IH]; [reflexivity|].
    apply Forall_cons in Hlen as [Hc Hlen]. cbn [map fst snd].
    rewrite IH by exact Hlen. f_equal. f_equal.
    destruct c; cbn in *; rewrite select_mask_all; auto.
Qed.


(** X2. Filtering twice is filtering once by the intersection of the two
    ranges; in particular the filter is idempotent. *)
Theorem filter_data_by_date_twice (df : DataFrame) (a b c d : pydate) :
  fst (filter_data_by_date (fst (filter_data_by_date df a b)) c d) =
  fst (filter_data_by_date df
         (Datetime (Z.max (to_timestamp a) (to_timestamp c)))
         (Datetime (Z.min (to_timestamp b) (to_timestamp d)))) /\
  fst (filter_data_by_date (fst (filter_data_by_date df a b)) a b) =
  fst (filter_data_by_date df a b).
Proof.
  assert (H : forall a b c d : Z,
             select_rows (date_mask c d (index (select_rows (date_mask a b (index df)) df)))
                         (select_rows (date_mask a b (index df)) df)
             = select_rows (date_mask (Z.max a c) (Z.min b d) (index df)) df).
  { intros ta tb tc td. unfold select_rows, date_mask. cbn [index columns].
    f_equal.
    - rewrite select_mask_twice. f_equal. apply map_ext. intros x.
      apply in_range_both.
    - rewrite map_map. apply map_ext. intros [n col]. cbn [fst snd]. f_equal.
      rewrite select_column_twice. f_equal. apply map_ext. intros x.
      apply in_range_both. }
  unfold filter_data_by_date, filter_data_by_date_body. cbn [fst to_timestamp].
  split; [apply H|].
  rewrite H, Z.max_id, Z.min_id. reflexivity.
Qed.




(** ** [get_date_range] *)

Lemma fold_min_le_all (d : Z) (rest : list Z) (x : Z) :
  x ∈ d :: rest -> (fold_right Z.min d rest <= x)%Z.
Proof.
  induction rest as [|y rest IH]; intros Hx; cbn [fold_right].
  - apply list_elem_of_singleton in Hx. lia.
  - apply elem_of_cons in Hx as [->|Hx].
    + specialize (IH (list_elem_of_here _ _)). lia.
    + apply elem_of_cons in Hx as [->|Hx]; [lia|].
      specialize (IH (list_elem_of_further _ _ _ Hx)). lia.
Qed.

Lemma fold_max_ge_all (d : Z) (rest : list Z) (x : Z) :
  x ∈ d :: rest -> (x <= fold_right Z.max d rest)%Z.
Proof.
  induction rest as [|y rest IH]; intros Hx; cbn [fold_right].
  - apply list_elem_of_singleton in Hx. lia.
  - apply elem_of_cons in Hx as [->|Hx].
    + specialize (IH (list_elem_of_here _ _)). lia.
    + apply elem_of_cons in Hx as [->|Hx]; [lia|].
      specialize (IH (list_elem_of_further _ _ _ Hx)). lia.
Qed.

Lemma fold_min_attained (d : Z) (rest : list Z) :
  fold_right Z.min d rest ∈ d :: rest.
Proof.
  induction rest as [|y rest IH]; cbn [fold_right]; [left|].
  destruct (Z.min_spec y (fold_right Z.min d rest)) as [[_ ->]|[_ ->]].
  - right. left.
  - apply elem_of_cons in IH as [->|IH]; [left|right; right; exact IH].
Qed.

Lemma fold_max_attained (d : Z) (rest : list Z) :
  fold_right Z.max d rest ∈ d :: rest.
Proof.
  induction rest as [|y rest IH]; cbn [fold_right]; [left|].
  destruct (Z.max_spec y (fold_right Z.max d rest)) as [[_ ->]|[_ ->]].
  - apply elem_of_cons in IH as [->|IH]; [left|right; right; exact IH].
  - right. left.
Qed.

Lemma day_ns_pos : (0 < day_ns)%Z.
Proof. reflexivity. Qed.

Lemma date_of_mono (a b : Z) : (a <= b)%Z -> (date_of a <= date_of b)%Z.
Proof. apply Z.div_le_mono, day_ns_pos. Qed.

(** Midnight of the day of a timestamp is not after the timestamp. *)
Lemma midnight_le (ts : Z) : (date_of ts * day_ns <= ts)%Z.
Proof.
  unfold date_of. rewrite Z.mul_comm. apply Z.mul_div_le, day_ns_pos.
Qed.

Section DateRange.

Variable today : Z.

Lemma get_date_range_nonempty (df : DataFrame) :
  df_empty df = false ->
  exists d rest,
    index df = d :: rest /\
    get_date_range today df =
    ((date_of (fold_right Z.min d rest), date_of (fold_right Z.max d rest)),
     []).
Proof.
  intros Hne. unfold get_date_range, get_date_range_body. rewrite Hne.
  unfold df_empty, df_len in Hne. apply orb_false_iff in Hne as [Hrows _].
  destruct (index df) as [|d rest]; [discriminate|].
  exists d, rest. split; reflexivity.
Qed.

(** X4. On an empty table the date range is today twice.  On any other
    table it is the calendar dates of the earliest and of the latest
    timestamp of the index: the first is not after the second, the date of
    every row lies between them, and both are the date of a row.  Nothing
    is reported. *)
Theorem get_date_range_bounds (df : DataFrame) :
  (df_empty df = true -> get_date_range today df = ((today, today), [])) /\
  (df_empty df = false ->
   exists min_date max_date,
     get_date_range today df = ((min_date, max_date), []) /\
     (min_date <= max_date)%Z /\
     (forall d, d ∈ index df ->
                (min_date <= date_of d <= max_date)%Z) /\
     (exists d, d ∈ index df /\ date_of d = min_date) /\
     (exists d, d ∈ index df /\ date_of d = max_date)).
Proof.
  split.
  - intros He. unfold get_date_range, get_date_range_body. rewrite He.
    reflexivity.
  - intros Hne.
    destruct (get_date_range_nonempty df Hne) as (d & rest & Hidx & Hres).
    exists (date_of (fold_right Z.min d rest)),
           (date_of (fold_right Z.max d rest)).
    split; [exact Hres|]. rewrite Hidx.
    assert (Hall : forall x, x ∈ d :: rest ->
              (date_of (fold_right Z.min d rest) <= date_of x
               <= date_of (fold_right Z.max d rest))%Z).
    { intros x Hx. split; apply date_of_mono;
        [apply fold_min_le_all|apply fold_max_ge_all]; exact Hx. }
    split; [|split; [exact Hall|split]].
    + destruct (Hall d) as [H1 H2]; [left|]. lia.
    + exists (fold_right Z.min d rest). split;
        [apply fold_min_attained|reflexivity].
    + exists (fold_right Z.max d rest). split;
        [apply fold_max_attained|reflexivity].
Qed.

(** X5. The page offers the date range of the table as the default bounds
    of the date filter.  With these bounds the filter keeps the rows whose
    timestamp is not after midnight of the last day: a row of the last day
    with a time of day is dropped, and an aligned table whose timestamps
    are all at midnight comes back as it is. *)
Theorem filter_by_date_range (df : DataFrame) (min_date max_date : Z) :
  df_empty df = false ->
  fst (get_date_range today df) = (min_date, max_date) ->
  let filtered_df :=
    fst (filter_data_by_date df (Date min_date) (Date max_date)) in
  index filtered_df =
    List.filter (fun d => (d <=? max_date * day_ns)%Z) (index df) /\
  (forall d, d ∈ index df -> date_of d = max_date ->
             (d mod day_ns)%Z <> 0%Z -> d ∉ index filtered_df) /\
  (well_formed df ->
   Forall (fun d => (d mod day_ns)%Z = 0%Z) (index df) ->
   filtered_df = df).
Proof.
  intros Hne Hrange filtered_df.
  destruct (get_date_range_nonempty df Hne) as (d0 & rest & Hidx & Hres).
  rewrite Hres in Hrange. cbn [fst] in Hrange. injection Hrange as Hlo Hhi.
  assert (Hlow : forall x, x ∈ index df -> (min_date * day_ns <= x)%Z).
  { intros x Hx. rewrite Hidx in Hx. rewrite <- Hlo.
    pose proof (midnight_le (fold_right Z.min d0 rest)).
    pose proof (fold_min_le_all d0 rest x Hx). lia. }
  assert (Hindex : index filtered_df =
            List.filter (fun d => (d <=? max_date * day_ns)%Z) (index df)).
  { subst filtered_df. rewrite filter_index. cbn [to_timestamp].
    apply List.filter_ext_in. intros x Hx. unfold in_range.
    apply list_elem_of_In in Hx.
    replace (min_date * day_ns <=? x)%Z with true; [reflexivity|].
    symmetry. apply Z.leb_le, Hlow, Hx. }
  split; [exact Hindex|]. split.
  - intros d Hd Hdate Hmod Hin. rewrite Hindex in Hin.
    apply list_elem_of_In, List.filter_In in Hin as [_ Hle].
    apply Z.leb_le in Hle.
    pose proof (Z.div_mod d day_ns ltac:(discriminate)) as Hdm.
    pose proof (Z.mod_pos_bound d day_ns day_ns_pos) as Hb.
    unfold date_of in Hdate. rewrite Hdate in Hdm. lia.
  - intros Hwf Hmid. subst filtered_df.
    rewrite filter_covering; [reflexivity|exact Hwf|].
    apply Forall_forall. intros d Hd. cbn [to_timestamp]. split.
    + apply Hlow, Hd.
    + rewrite Forall_forall in Hmid. specialize (Hmid d Hd).
      apply Z.div_exact in Hmid; [|discriminate].
      assert (Hdate : (date_of d <= max_date)%Z).
      { rewrite <- Hhi. apply date_of_mono. rewrite Hidx in Hd.
        apply fold_max_ge_all, Hd. }
      unfold date_of in Hdate. pose proof day_ns_pos. nia.
Qed.

End DateRange.

(** Use of X4 on a table of three timestamps over two days. *)
Lemma get_date_range_bounds_witness :
  get_date_range 100 no_rows_frame = ((100, 100)%Z, []) /\
  exists min_date max_date,
    get_date_range 100 noon_frame = ((min_date, max_date), []) /\
    (min_date <= max_date)%Z /\
    (min_date <= date_of 129600000000000 <= max_date)%Z.
Proof.
  destruct (get_date_range_bounds 100 no_rows_frame) as [Hempty _].
  destruct (get_date_range_bounds 100 noon_frame) as [_ Hrange].
  split; [apply Hempty; reflexivity|].
  destruct (Hrange eq_refl) as (lo & hi & Hres & Hle & Hall & _).
  exists lo, hi. split; [exact Hres|]. split; [exact Hle|].
  apply Hall. right. right. left.
Defined.

(** Use of X5: the row at noon of the last day is dropped by the default
    bounds; the table at day granularity is kept whole. *)
Lemma filter_by_date_range_witness :
  index (fst (filter_data_by_date noon_frame (Date 0) (Date 1)))
    = [0; 86400000000000]%Z /\
  fst (filter_data_by_date daily_frame (Date 0) (Date 2)) = daily_frame.
Proof.
  destruct (filter_by_date_range 100 noon_frame 0 1 eq_refl eq_refl)
    as (Hidx & _ & _).
  destruct (filter_by_date_range 100 daily_frame 0 2 eq_refl eq_refl)
    as (_ & _ & Hwhole).
  split; [rewrite Hidx; reflexivity|].
  apply Hwhole.
  - split; [by_evaluation|repeat constructor].
  - repeat constructor.
Defined.

(** ** [load_sales_data]: what a successful ingestion returns *)

Lemma filter_label_names (cols : list (string * column)) (label : string) :
  label ∉ map fst (filter (fun p : string * column => fst p ≠ label) cols).
Proof.
  rewrite map_fmap. intros Hin.
  apply list_elem_of_fmap in Hin as ([n c] & E & Hin). cbn in E. subst n.
  apply list_elem_of_filter in Hin as [Hne _]. apply Hne. reflexivity.
Qed.

(** Renaming leaves alone the columns that carry neither label. *)
Lemma rename_other_columns (cols : list (string * column)) (dc : string) :
  dc ∉ map fst cols -> "Дата" ∉ map fst cols ->
  let renamed :=
    map (fun p : string * column =>
           if String.eqb (fst p) dc then ("Дата", snd p) else p) cols in
  filter (fun p : string * column => fst p = "Дата") renamed = [] /\
  filter (fun p : string * column => fst p ≠ "Дата") renamed
    = filter (fun p : string * column => fst p ≠ dc) cols.
Proof.
  cbn zeta. induction cols as [|[m c1] cols IH]; intros Hn Hother;
    [split; reflexivity|].
  cbn in Hn, Hother.
  apply not_elem_of_cons in Hn as [Hne Hn].
  apply not_elem_of_cons in Hother as [Hne2 Hother].
  destruct (IH Hn Hother) as [IH1 IH2].
  cbn [map fst snd].
  replace (String.eqb m dc) with false
    by (symmetry; apply String.eqb_neq; congruence).
  rewrite filter_cons_False by (cbn; congruence).
  rewrite filter_cons_True by (cbn; congruence).
  rewrite (filter_cons_True (fun p : string * column => fst p ≠ dc))
    by (cbn; congruence).
  split; [exact IH1|]. rewrite IH2. reflexivity.
Qed.

(** The columns of a table with unique labels after the date column has
    been renamed: one column carries the canonical label. *)
Lemma rename_date_column (cols : list (string * column)) (dc : string)
  (c : column) :
  NoDup (map fst cols) -> (dc, c) ∈ cols ->
  (dc = "Дата" \/ "Дата" ∉ map fst cols) ->
  let renamed :=
    map (fun p : string * column =>
           if String.eqb (fst p) dc then ("Дата", snd p) else p) cols in
  filter (fun p : string * column => fst p = "Дата") renamed
    = [("Дата", c)] /\
  filter (fun p : string * column => fst p ≠ "Дата") renamed
    = filter (fun p : string * column => fst p ≠ dc) cols.
Proof.
  intros Hnd Hin Hlabel. cbn zeta.
  induction cols as [|[n c0] cols IH]; [inversion Hin|].
  cbn in Hnd. apply NoDup_cons in Hnd as [Hn Hnd].
  apply elem_of_cons in Hin as [E|Hin].
  - inversion E; subst.
    assert (Hother : "Дата" ∉ map fst cols).
    { destruct Hlabel as [E'|H]; [rewrite <- E'; exact Hn|].
      cbn in H. apply not_elem_of_cons in H as [_ H]. exact H. }
    destruct (rename_other_columns cols n Hn Hother) as [H1 H2].
    cbn [map fst snd]. rewrite String.eqb_refl.
    rewrite filter_cons_True by reflexivity.
    rewrite filter_cons_False by (cbn; intros H; apply H; reflexivity).
    rewrite (filter_cons_False (fun p : string * column => fst p ≠ n))
      by (cbn; intros H; apply H; reflexivity).
    rewrite H1, H2. split; reflexivity.
  - assert (Hne : n ≠ dc).
    { intros ->. apply Hn. rewrite map_fmap. apply list_elem_of_fmap.
      exists (dc, c). split; [reflexivity|exact Hin]. }
    assert (Hlabel' : dc = "Дата" \/ "Дата" ∉ map fst cols).
    { destruct Hlabel as [E|H]; [left; exact E|right].
      cbn in H. apply not_elem_of_cons in H as [_ H]. exact H. }
    assert (Hn2 : n ≠ "Дата").
    { destruct Hlabel as [E|H]; [congruence|].
      cbn in H. apply not_elem_of_cons in H as [H _]. congruence. }
    destruct (IH Hnd Hin Hlabel') as [IH1 IH2].
    cbn [map fst snd].
    replace (String.eqb n dc) with false
      by (symmetry; apply String.eqb_neq; exact Hne).
    rewrite filter_cons_False by (cbn; congruence).
    rewrite filter_cons_True by (cbn; congruence).
    rewrite (filter_cons_True (fun p : string * column => fst p ≠ dc))
      by (cbn; congruence).
    rewrite IH1, IH2. split; reflexivity.
Qed.

Section IngestionProperties.

Variable lower : string -> string.
Variable to_datetime : column -> result (list Z).
Variable path_exists : string -> bool.
Variable read_excel_path : string -> result DataFrame.
Variable read_excel_upload : UploadedFile -> result DataFrame.
Variable read_csv_upload : UploadedFile -> result DataFrame.

Local Abbreviation load :=
  (load_sales_data lower to_datetime path_exists read_excel_path
     read_excel_upload read_csv_upload).
Local Abbreviation source :=
  (read_source path_exists read_excel_path read_excel_upload
     read_csv_upload).
Local Abbreviation report e := ["Ошибка при загрузке данных: " +:+ exn_str e].

Lemma normalise_ok (df res : DataFrame) (dc : string) :
  normalise to_datetime df dc = Ok res ->
  numeric_columns res <> [] /\ "Дата" ∉ column_names res.
Proof.
  unfold normalise.
  set (df1 := if String.eqb dc "Дата" then df else rename df dc "Дата").
  destruct (filter (fun p : string * column => fst p = "Дата") (columns df1))
    as [|[n c] [|q l]]; cbn; try discriminate.
  destruct (to_datetime c) as [dates|e]; cbn; [|discriminate].
  destruct (length _ =? 0)%nat eqn:E; [discriminate|].
  intros H. inversion H; subst res; clear H. split.
  - intros Hnil. apply Nat.eqb_neq in E. apply E.
    exact (f_equal length Hnil).
  - apply filter_label_names.
Qed.

Lemma load_outcome (file_path : option string)
  (uploaded_file : option UploadedFile) :
  (exists df, load file_path uploaded_file = (df, []) /\
              numeric_columns df <> [] /\ "Дата" ∉ column_names df) \/
  (exists e, load file_path uploaded_file = (empty_frame, report e)).
Proof.
  unfold load_sales_data, load_sales_data_body.
  destruct (source file_path uploaded_file) as [raw|e]; cbn;
    [|right; exists e; reflexivity].
  destruct (locate_date_column lower to_datetime raw) as [dc|e]; cbn;
    [|right; exists e; reflexivity].
  destruct (normalise to_datetime raw dc) as [res|e] eqn:E;
    [|right; exists e; reflexivity].
  left. exists res. split; [reflexivity|]. apply (normalise_ok raw res dc E).
Qed.

(** X6. Whatever the input, [load_sales_data] ends in one of two ways:
    it reports nothing and returns a table that has at least one numeric
    column and no column labelled 'Дата', or it reports one message and
    returns the empty table.  A table without numeric column is never
    returned. *)
Theorem load_sales_data_outcome (file_path : option string)
  (uploaded_file : option UploadedFile) :
  let df := fst (load file_path uploaded_file) in
  let reported := snd (load file_path uploaded_file) in
  (reported = [] /\ numeric_columns df <> [] /\ "Дата" ∉ column_names df) \/
  (df = empty_frame /\ length reported = 1%nat).
Proof.
  cbn zeta.
  destruct (load_outcome file_path uploaded_file)
    as [(df & -> & Hnum & Hlabel)|(e & ->)].
  - left. split; [reflexivity|]. split; assumption.
  - right. split; reflexivity.
Qed.

(** X7. When the reader returns a table with unique labels, the column
    found for the dates is either already labelled 'Дата' or no other
    column is, its values parse, and a numeric column is left, the table
    returned is indexed by the parsed dates and has the other columns of
    the raw table, in their order and unchanged; nothing is reported. *)
Theorem load_sales_data_success (file_path : option string)
  (uploaded_file : option UploadedFile) (raw : DataFrame) (dc : string)
  (c : column) (dates : list Z) :
  source file_path uploaded_file = Ok raw ->
  NoDup (column_names raw) ->
  locate_date_column lower to_datetime raw = Ok dc ->
  (dc, c) ∈ columns raw ->
  (dc = "Дата" \/ "Дата" ∉ column_names raw) ->
  to_datetime c = Ok dates ->
  (exists name vs, (name, NumCol vs) ∈ columns raw /\ name <> dc) ->
  load file_path uploaded_file =
  (mkFrame dates
     (filter (fun p : string * column => fst p ≠ dc) (columns raw)), []).
Proof.
  intros Hsrc Hnd Hloc Hin Hlabel Hparse (name & vs & Hnum & Hne).
  unfold load_sales_data, load_sales_data_body. rewrite Hsrc. cbn.
  rewrite Hloc. cbn.
  destruct (rename_date_column (columns raw) dc c Hnd Hin Hlabel)
    as [Hdate Hrest].
  assert (Hcols : forall df1,
             columns df1 =
             map (fun p : string * column =>
                    if String.eqb (fst p) dc then ("Дата", snd p) else p)
                 (columns raw) ->
             (dates0 ← match filter (fun p : string * column => fst p = "Дата")
                               (columns df1) with
                       | [(_, c0)] => to_datetime c0
                       | _ => Raise (ValueError
               "to assemble mappings requires at least that [year, month, day] be specified")
                       end;
              let df2 := mkFrame dates0
                           (filter (fun p : string * column => fst p ≠ "Дата")
                                   (columns df1)) in
              if (length (numeric_columns df2) =? 0)%nat
              then Raise no_numeric_columns else Ok df2)
             = Ok (mkFrame dates
                     (filter (fun p : string * column => fst p ≠ dc)
                             (columns raw)))).
  { intros df1 ->. rewrite Hdate, Hparse. cbn. rewrite Hrest.
    destruct (length _ =? 0)%nat eqn:E; [|reflexivity].
    exfalso. apply Nat.eqb_eq, length_zero_iff_nil in E.
    assert (Hmem : name ∈ numeric_columns
                     (mkFrame dates
                        (filter (fun p : string * column => fst p ≠ dc)
                                (columns raw)))).
    { apply elem_of_numeric_columns. exists vs. cbn [columns].
      apply list_elem_of_filter. split; [exact Hne|exact Hnum]. }
    refine (not_elem_of_nil name _).
    exact (eq_ind _ (fun l => name ∈ l) Hmem _ E). }
  unfold normalise.
  destruct (String.eqb dc "Дата") eqn:Edc.
  - apply String.eqb_eq in Edc. rewrite Hcols; [reflexivity|].
    subst dc. clear. symmetry.
    induction (columns raw) as [|[n c0] cols IH]; [reflexivity|].
    cbn [map fst snd]. rewrite IH.
    destruct (String.eqb n "Дата") eqn:E; [|reflexivity].
    apply String.eqb_eq in E. subst n. reflexivity.
  - rewrite Hcols; reflexivity.
Qed.

End IngestionProperties.

(** Use of X7 on the raw table whose second column has a date-like name. *)
Lemma load_sales_data_success_witness :
  load_sales_data lower_basic to_datetime_sample no_file no_reader
    (reader_sample raw_named_date) (reader_sample raw_named_date)
    None (Some csv_upload)
  = (mkFrame [10; 11]%Z [("P", NumCol [Some 1; Some 2])], []).
Proof.
  rewrite (load_sales_data_success lower_basic to_datetime_sample no_file
             no_reader (reader_sample raw_named_date)
             (reader_sample raw_named_date) None (Some csv_upload)
             raw_named_date "My Date" (DateCol [10; 11]%Z) [10; 11]%Z).
  - reflexivity.
  - reflexivity.
  - by_evaluation.
  - reflexivity.
  - right. left.
  - right. by_evaluation.
  - reflexivity.
  - exists "P", [Some 1; Some 2]. split; [left|discriminate].
Defined.

(** ** [validate_file_format] *)

Lemma verdict_add_warning (msg : string) (v : Validation) :
  verdict (add_warning msg v) = verdict v.
Proof. reflexivity. Qed.

Lemma getitem_present (df : DataFrame) (name : string) :
  name ∈ column_names df -> exists c, column_of df name = Ok c.
Proof.
  unfold column_of, getitem, column_names.
  induction (columns df) as [|[n c] cols IH]; intros Hin; [inversion Hin|].
  cbn in Hin. cbn. destruct (String.eqb n name) eqn:E; [eauto|].
  apply elem_of_cons in Hin as [->|Hin].
  - rewrite String.eqb_refl in E. discriminate.
  - apply IH, Hin.
Qed.

Lemma numeric_columns_names (df : DataFrame) (name : string) :
  name ∈ numeric_columns df -> name ∈ column_names df.
Proof.
  intros H. apply elem_of_numeric_columns in H as (vs & Hin).
  unfold column_names. rewrite map_fmap. apply list_elem_of_fmap.
  exists (name, NumCol vs). split; [reflexivity|exact Hin].
Qed.

Lemma check_negative_verdict (df : DataFrame) (v : Validation) :
  exists v', check_negative df v = Ok v' /\ verdict v' = verdict v.
Proof.
  unfold check_negative.
  assert (H : forall names v0,
             (forall n, n ∈ names -> n ∈ column_names df) ->
             exists v', foldl (warn_negative df) (Ok v0) names = Ok v' /\
                        verdict v' = verdict v0).
  { induction names as [|n names IH]; intros v0 Hn.
    - exists v0. split; reflexivity.
    - destruct (getitem_present df n) as [c Hc]; [apply Hn; left|].
      cbn [foldl]. unfold warn_negative at 2. cbn. rewrite Hc. cbn.
      destruct (IH (if has_negative c
                    then add_warning (negative_warning n) v0 else v0))
        as (v' & Hfold & Hv).
      { intros k Hk. apply Hn. right. exact Hk. }
      exists v'. split; [exact Hfold|]. rewrite Hv.
      destruct (has_negative c); reflexivity. }
  apply H. intros n. apply numeric_columns_names.
Qed.

Section ValidatorProperties.

Variable lower : string -> string.
Variable to_datetime : column -> result (list Z).

(** The first column always counts as a date column. *)
Lemma date_columns_nonempty (df : DataFrame) :
  df_empty df = false -> date_columns_of lower to_datetime df <> [].
Proof.
  intros Hne. unfold df_empty in Hne. apply orb_false_iff in Hne as [_ Hcols].
  unfold date_columns_of, column_names.
  destruct (columns df) as [|[fc c] cols]; [discriminate|].
  cbn [map fst head].
  assert (Hfirst : exists rest,
            List.filter (is_date_like lower (Some fc)) (fc :: map fst cols)
            = fc :: rest).
  { cbn [List.filter].
    replace (is_date_like lower (Some fc) fc) with true; [eauto|].
    symmetry. unfold is_date_like. rewrite String.eqb_refl.
    apply orb_true_r. }
  destruct Hfirst as [rest ->].
  repeat match goal with
         | |- context [if ?b then _ else _] => destruct b
         end; discriminate.
Qed.

Lemma check_dates_verdict (df : DataFrame) (date_columns : list string)
  (v : Validation) :
  date_columns <> [] ->
  verdict (check_dates to_datetime df date_columns v) = verdict v.
Proof.
  intros Hne. unfold check_dates.
  destruct date_columns; [congruence|].
  destruct (head (column_names df)); [|reflexivity].
  destruct (parses _ _); reflexivity.
Qed.

Lemma check_first_column_verdict (df : DataFrame)
  (date_columns : list string) (v : Validation) :
  verdict (check_first_column to_datetime df date_columns v) = verdict v.
Proof.
  unfold check_first_column.
  destruct (head (column_names df)); [|reflexivity].
  destruct (parses _ _); [reflexivity|].
  destruct (negb _); reflexivity.
Qed.

Lemma check_missing_verdict (df : DataFrame) (v : Validation) :
  verdict (check_missing df v) = verdict v.
Proof. unfold check_missing. destruct (map _ _); reflexivity. Qed.

Lemma validate_verdict (df : DataFrame) (uploaded_filename : option string) :
  verdict (validate_file_format lower to_datetime df uploaded_filename) =
  if df_empty df then (false, [empty_file_error], [])
  else if (length (numeric_columns df) =? 0)%nat
       then (false, [no_numeric_error], static_suggestions)
       else (true, [], static_suggestions).
Proof.
  unfold validate_file_format, validate_file_format_body.
  destruct (df_empty df) eqn:Hempty; [reflexivity|].
  cbn zeta.
  set (dcs := date_columns_of lower to_datetime df).
  set (v1 := check_dates to_datetime df dcs (mkValidation true [] [] [])).
  set (v2 := check_numeric df v1).
  set (v3 := check_first_column to_datetime df dcs v2).
  destruct (check_negative_verdict df v3) as (v4 & -> & Hv4).
  assert (H1 : verdict v1 = (true, [], [])).
  { apply check_dates_verdict, date_columns_nonempty, Hempty. }
  assert (H3 : verdict v3 = verdict v2) by apply check_first_column_verdict.
  pose proof (check_missing_verdict df v4) as H5.
  unfold verdict in *. cbn [is_valid errors suggestions add_suggestions].
  injection H5 as E1 E2 E3. injection Hv4 as F1 F2 F3.
  injection H3 as G1 G2 G3. injection H1 as K1 K2 K3.
  rewrite E1, E2, E3, F1, F2, F3, G1, G2, G3.
  subst v2. unfold check_numeric.
  destruct (length (numeric_columns df) =? 0)%nat.
  - cbn. rewrite K2, K3. reflexivity.
  - destruct (length (numeric_columns df) <? 2)%nat; cbn;
      rewrite K1, K2, K3; reflexivity.
Qed.


End ValidatorProperties.


(** ** [handle_file_upload] *)

Section PageProperties.

Variable lower : string -> string.
Variable to_datetime : column -> result (list Z).
Variable path_exists : string -> bool.
Variable read_excel_path : string -> result DataFrame.
Variable read_excel_upload : UploadedFile -> result DataFrame.
Variable read_csv_upload : UploadedFile -> result DataFrame.

Local Abbreviation load :=
  (load_sales_data lower to_datetime path_exists read_excel_path
     read_excel_upload read_csv_upload).
Local Abbreviation upload :=
  (handle_file_upload lower to_datetime path_exists read_excel_path
     read_excel_upload read_csv_upload).


End PageProperties.


(** ** [calculate_kpi_metrics] on a table that is not empty *)

Lemma Qsum_cons (x : Q) (xs : list Q) : Qsum (x :: xs) = x + Qsum xs.
Proof. reflexivity. Qed.

Lemma dropna_cons_some (q : Q) (vs : list cell) :
  dropna (Some q :: vs) = q :: dropna vs.
Proof. reflexivity. Qed.

Lemma dropna_cons_none (vs : list cell) : dropna (None :: vs) = dropna vs.
Proof. reflexivity. Qed.

Lemma add_cells_cons (a : Q) (acc : list Q) (v : cell) (vs : list cell) :
  add_cells (a :: acc) (v :: vs) =
  match v with Some q => a + q | None => a end :: add_cells acc vs.
Proof. reflexivity. Qed.

Lemma Qsum_add_cells (acc : list Q) (vs : list cell) :
  length acc = length vs ->
  length (add_cells acc vs) = length acc /\
  Qsum (add_cells acc vs) == Qsum acc + Qsum (dropna vs).
Proof.
  revert vs. induction acc as [|a acc IH]; intros [|v vs] Hlen;
    try discriminate.
  - split; [reflexivity|]. change (Qsum (add_cells [] [])) with 0.
    change (Qsum []) with 0. change (Qsum (dropna [])) with 0. lra.
  - cbn in Hlen. destruct (IH vs) as [IHl IHs]; [lia|].
    rewrite add_cells_cons. split; [cbn [length]; lia|].
    rewrite !Qsum_cons, IHs.
    destruct v as [q|].
    + rewrite dropna_cons_some, Qsum_cons. lra.
    + rewrite dropna_cons_none. lra.
Qed.

Lemma sum_rows_numeric (acc : list Q) (cols : list (string * column)) :
  Forall (fun p => is_numeric (snd p) = true) cols ->
  Forall (fun p => col_length (snd p) = length acc) cols ->
  exists acc',
    sum_rows acc cols = Ok acc' /\ length acc' = length acc /\
    Qsum acc' ==
    Qsum acc
    + Qsum (map (fun p => Qsum (dropna (snd p)))
              (omap (fun p : string * column =>
                       match snd p with
                       | NumCol vs => Some (fst p, vs)
                       | _ => None
                       end) cols)).
Proof.
  revert acc. induction cols as [|[n c] cols IH]; intros acc Hnum Hlen.
  - exists acc. split; [reflexivity|]. split; [reflexivity|].
    change (Qsum acc == Qsum acc + 0). lra.
  - apply Forall_cons in Hnum as [Hc Hnum].
    apply Forall_cons in Hlen as [Hl Hlen].
    destruct c as [vs| |]; cbn in Hc; try discriminate. cbn in Hl.
    destruct (Qsum_add_cells acc vs) as [Hal Has]; [lia|].
    destruct (IH (add_cells acc vs)) as (acc' & Hres & Hlen' & Hsum).
    + exact Hnum.
    + eapply Forall_impl; [exact Hlen|]. intros p Hp. cbn in *. lia.
    + exists acc'. split; [exact Hres|]. split; [lia|].
      rewrite Hsum, Has. cbn [omap list_omap snd fst map].
      rewrite Qsum_cons. cbn [snd]. lra.
Qed.

Lemma Qsum_replicate_zero (n : nat) : Qsum (replicate n 0) == 0.
Proof.
  induction n as [|n IH]; [reflexivity|].
  change (replicate (S n) 0) with (0 :: replicate n 0).
  rewrite Qsum_cons, IH. reflexivity.
Qed.

Lemma Qsum_map_Qred (l : list Q) : Qsum (map Qred l) == Qsum l.
Proof.
  induction l as [|x l IH]; [reflexivity|].
  cbn [map Qsum fold_right]. fold (Qsum (map Qred l)). fold (Qsum l).
  rewrite IH, Qred_correct. reflexivity.
Qed.

Lemma dropna_some (f : Q -> Q) (l : list Q) :
  dropna (map (fun q => Some (f q)) l) = map f l.
Proof.
  induction l as [|x l IH]; [reflexivity|].
  cbn. unfold dropna in IH. rewrite IH. reflexivity.
Qed.

Lemma Qtrunc_integer (q : Q) (z : Z) : q == inject_Z z -> Qtrunc (Qred q) = z.
Proof.
  intros H.
  pose proof (gcd_Qred q) as Hg.
  assert (Hc : Qred q == inject_Z z) by (rewrite Qred_correct; exact H).
  destruct (Qred q) as [N D]. cbn [Qnum Qden] in Hg.
  unfold Qeq, inject_Z in Hc. cbn [Qnum Qden] in Hc.
  assert (HD : Z.pos D = 1%Z).
  { assert (Hdiv : (Z.pos D | Z.gcd N (Z.pos D))%Z).
    { apply Z.gcd_greatest; [exists z; lia|apply Z.divide_refl]. }
    rewrite Hg in Hdiv. apply Z.divide_1_r_nonneg in Hdiv; lia. }
  unfold Qtrunc. cbn [Qnum Qden]. rewrite HD in Hc |- *.
  rewrite Z.quot_1_r. lia.
Qed.




(** ** What [calculate_moving_average] keeps of its input *)

Lemma lookup_column_some (cols : list (string * column)) (name : string)
  (c : column) :
  lookup_column cols name = Some c -> (name, c) ∈ cols.
Proof.
  induction cols as [|[n c0] cols IH]; cbn; [discriminate|].
  destruct (String.eqb n name) eqn:E.
  - intros [= ->]. apply String.eqb_eq in E. subst n. left.
  - intros H. right. apply IH, H.
Qed.

Lemma set_column_names (cols : list (string * column)) (name : string)
  (c : column) :
  map fst (set_column cols name c) =
  map fst cols ++ (if bool_decide (name ∈ map fst cols) then [] else [name]).
Proof.
  induction cols as [|[n c0] cols IH].
  - cbn. rewrite bool_decide_eq_false_2; [reflexivity|]. apply not_elem_of_nil.
  - cbn [set_column]. destruct (String.eqb n name) eqn:E.
    + apply String.eqb_eq in E. subst n. cbn [map fst].
      rewrite bool_decide_eq_true_2 by left. rewrite app_nil_r. reflexivity.
    + apply String.eqb_neq in E. cbn [map fst]. rewrite IH.
      destruct (bool_decide (name ∈ map fst cols)) eqn:B.
      * apply bool_decide_eq_true_1 in B.
        rewrite bool_decide_eq_true_2 by (right; exact B). reflexivity.
      * apply bool_decide_eq_false_1 in B.
        rewrite bool_decide_eq_false_2; [reflexivity|].
        intros Hin. apply elem_of_cons in Hin as [->|Hin]; tauto.
Qed.

Lemma set_column_NoDup (cols : list (string * column)) (name : string)
  (c : column) :
  NoDup (map fst cols) -> NoDup (map fst (set_column cols name c)).
Proof.
  intros Hnd. rewrite set_column_names.
  destruct (bool_decide (name ∈ map fst cols)) eqn:B.
  - rewrite app_nil_r. exact Hnd.
  - apply bool_decide_eq_false_1 in B. apply NoDup_app.
    split; [exact Hnd|]. split; [|apply NoDup_singleton].
    intros x Hx Hin. apply list_elem_of_singleton in Hin. subst x. tauto.
Qed.

Lemma set_column_aligned (cols : list (string * column)) (name : string)
  (c : column) (n : nat) :
  Forall (fun p => col_length (snd p) = n) cols -> col_length c = n ->
  Forall (fun p => col_length (snd p) = n) (set_column cols name c).
Proof.
  intros Hall Hc. induction cols as [|[m c0] cols IH]; cbn.
  - repeat constructor. exact Hc.
  - apply Forall_cons in Hall as [H0 Hall].
    destruct (String.eqb m name).
    + constructor; [exact Hc|exact Hall].
    + constructor; [exact H0|apply IH, Hall].
Qed.

Lemma set_column_other (cols : list (string * column)) (name : string)
  (c : column) (i : nat) (n : string) (c0 : column) :
  cols !! i = Some (n, c0) -> n <> name ->
  set_column cols name c !! i = Some (n, c0).
Proof.
  revert i. induction cols as [|[m c1] cols IH]; intros i Hi Hne;
    [rewrite lookup_nil in Hi; discriminate|].
  cbn [set_column]. destruct (String.eqb m name) eqn:E.
  - apply String.eqb_eq in E. subst m. destruct i as [|i].
    + cbn in Hi. inversion Hi; subst. congruence.
    + exact Hi.
  - destruct i as [|i]; [exact Hi|]. cbn in Hi |- *. apply IH; assumption.
Qed.

Lemma add_moving_average_keeps (df : DataFrame) (window : Z)
  (res : DataFrame) (col : string) :
  well_formed df -> keeps_table df window res ->
  match add_moving_average df window (Ok res) col with
  | Ok res' => keeps_table df window res'
  | Raise _ => True
  end.
Proof.
  intros [Hnd Hlen] (Hidx & Hpre & Hsame & Hwf).
  unfold add_moving_average. cbn [mbind result_bind].
  unfold getitem. destruct (lookup_column (columns df) col) as [c|] eqn:Hc;
    [|exact I].
  apply lookup_column_some in Hc. cbn [mbind result_bind].
  destruct c as [vs| |]; cbn [rolling_mean]; try exact I.
  destruct (window <? 0)%Z; [exact I|]. cbn [mbind result_bind].
  assert (Hcol : col ∈ column_names df).
  { unfold column_names. rewrite map_fmap. apply list_elem_of_fmap.
    exists (col, NumCol vs). split; [reflexivity|exact Hc]. }
  assert (Hvs : length vs = df_len df).
  { rewrite Forall_forall in Hlen. exact (Hlen (col, NumCol vs) Hc). }
  destruct Hwf as [Hnd' Hlen'].
  unfold keeps_table, setitem, column_names, well_formed, df_len in *.
  cbn [index columns].
  split; [exact Hidx|]. split; [|split; [|split]].
  - rewrite set_column_names. destruct Hpre as [k Hk]. rewrite Hk.
    eexists. rewrite <- app_assoc. reflexivity.
  - intros i name c Hi Hsafe. apply set_column_other.
    + apply Hsame; assumption.
    + apply Hsafe. exact Hcol.
  - apply set_column_NoDup. exact Hnd'.
  - apply set_column_aligned; [exact Hlen'|].
    cbn [col_length]. rewrite rolling_from_length, Hvs, Hidx. reflexivity.
Qed.

Lemma foldl_add_moving_average_keeps (df : DataFrame) (window : Z)
  (cols : list string) (acc : result DataFrame) :
  well_formed df ->
  match acc with Ok res => keeps_table df window res | Raise _ => True end ->
  match foldl (add_moving_average df window) acc cols with
  | Ok res' => keeps_table df window res'
  | Raise _ => True
  end.
Proof.
  intros Hwf. revert acc. induction cols as [|col cols IH]; intros acc Hacc;
    [exact Hacc|].
  cbn [foldl]. apply IH. destruct acc as [res|e]; [|exact I].
  apply add_moving_average_keeps; assumption.
Qed.

Lemma keeps_table_refl (df : DataFrame) (window : Z) :
  well_formed df -> keeps_table df window df.
Proof.
  intros Hwf. split; [reflexivity|]. split; [reflexivity|].
  split; [intros i name c Hi _; exact Hi|exact Hwf].
Qed.

(** X11. Whatever the window and the column argument, on a table with
    unique labels and aligned columns [calculate_moving_average] returns a
    table with unique labels and aligned columns.  When the input is not
    empty the result has the index of the input, the labels of the input
    come first and in their order, and every input column whose label is
    not the label "<col>_MA<window>" of a column of the input is at its
    place, unchanged.  When something is reported, the input comes back as
    it is. *)
Theorem moving_average_keeps_table (df : DataFrame) (window : Z)
  (column : option string) :
  well_formed df ->
  let res := fst (calculate_moving_average df window column) in
  well_formed res /\
  (df_empty df = false ->
   index res = index df /\
   column_names df `prefix_of` column_names res /\
   forall i name c,
     columns df !! i = Some (name, c) ->
     (forall col, col ∈ column_names df -> name <> ma_name col window) ->
     columns res !! i = Some (name, c)) /\
  (snd (calculate_moving_average df window column) <> [] -> res = df).
Proof.
  intros Hwf.
  assert (Hbody : match calculate_moving_average_body df window column with
                  | Ok res' =>
                      if df_empty df then res' = empty_frame
                      else keeps_table df window res'
                  | Raise _ => True
                  end).
  { unfold calculate_moving_average_body.
    destruct (df_empty df); [reflexivity|].
    pose proof (foldl_add_moving_average_keeps df window
                  (numeric_columns df) (Ok df) Hwf
                  (keeps_table_refl df window Hwf)) as Hall.
    destruct column as [col|]; [|exact Hall].
    destruct (truthy (Some col) && bool_decide (col ∈ column_names df));
      [|exact Hall].
    apply add_moving_average_keeps;
      [exact Hwf|apply keeps_table_refl, Hwf]. }
  unfold calculate_moving_average.
  destruct (calculate_moving_average_body df window column) as [res'|e];
    cbn [fst snd].
  - split; [|split; [|congruence]].
    + destruct (df_empty df).
      * subst res'. split; [constructor|constructor].
      * apply Hbody.
    + intros Hne. rewrite Hne in Hbody.
      destruct Hbody as (Hidx & Hpre & Hsame & _). auto.
  - split; [exact Hwf|]. split; [|reflexivity].
    intros _. split; [reflexivity|]. split; [reflexivity|].
    intros i name c Hi _. exact Hi.
Qed.

(** Use of X11 on a table where the new column takes the label of an
    existing one: the column "A" stays in second place. *)
Lemma moving_average_keeps_table_witness :
  let df := mkFrame [1; 2]%Z [("A_MA1", NumCol [Some 5; Some 6]);
                              ("A", NumCol [Some 1; Some 2])] in
  well_formed (fst (calculate_moving_average df 1 (Some "A"))) /\
  columns (fst (calculate_moving_average df 1 (Some "A"))) !! 1%nat
    = Some ("A", NumCol [Some 1; Some 2]).
Proof.
  intros df.
  assert (Hwf : well_formed df).
  { split; [by_evaluation|repeat constructor]. }
  destruct (moving_average_keeps_table df 1 (Some "A") Hwf)
    as (Hres & Hkeep & _).
  split; [exact Hres|].
  destruct (Hkeep eq_refl) as (_ & _ & Hsame).
  apply Hsame; [reflexivity|].
  intros col Hcol. apply elem_of_cons in Hcol as [->|Hcol];
    [discriminate|].
  apply list_elem_of_singleton in Hcol. subst col. discriminate.
Defined.


(** ** Anomaly detection: the threshold *)

Lemma sorted_nth (s : list Q) (i j : nat) :
  Sorted Qle s -> (i <= j)%nat -> (j < length s)%nat ->
  nth i s 0 <= nth j s 0.
Proof.
  intros Hs. apply Sorted_StronglySorted in Hs;
    [|intros x y z; apply Qle_trans].
  revert i j. induction Hs as [|x s Hs IH Hall]; intros i j Hij Hj;
    [cbn in Hj; lia|].
  destruct j as [|j].
  - replace i with 0%nat by lia. apply Qle_refl.
  - cbn in Hj. destruct i as [|i].
    + cbn [nth]. rewrite List.Forall_forall in Hall. apply Hall.
      apply nth_In. lia.
    + cbn [nth]. apply IH; lia.
Qed.

(** The position of a rank in the sorted values: its integer part is a
    valid index and its fractional part lies in [[0, 1)]. *)
Lemma rank_floor (pos : Q) (n : nat) :
  0 <= pos -> pos <= inject_Z (Z.of_nat (n - 1)) ->
  let lo := Z.to_nat (Qfloor pos) in
  (lo <= n - 1)%nat /\
  inject_Z (Z.of_nat lo) <= pos /\ pos < inject_Z (Z.of_nat lo) + 1.
Proof.
  intros H0 Hn lo.
  assert (Hf0 : (0 <= Qfloor pos)%Z).
  { change 0%Z with (Qfloor (inject_Z 0)). rewrite Qfloor_Z.
    rewrite <- (Qfloor_Z 0). apply Qfloor_resp_le. exact H0. }
  assert (Hfn : (Qfloor pos <= Z.of_nat (n - 1))%Z).
  { rewrite <- (Qfloor_Z (Z.of_nat (n - 1))). apply Qfloor_resp_le.
    exact Hn. }
  assert (Hlo : Z.of_nat lo = Qfloor pos) by (unfold lo; lia).
  split; [lia|]. rewrite Hlo. split; [apply Qfloor_le|].
  pose proof (Qlt_floor pos) as H. rewrite inject_Z_plus in H. exact H.
Qed.

(** Linear interpolation between two neighbours of the sorted values. *)
Lemma interpolation_mono (s : list Q) (pos1 pos2 : Q) :
  Sorted Qle s ->
  0 <= pos1 -> pos1 <= pos2 ->
  pos2 <= inject_Z (Z.of_nat (length s - 1)) ->
  let value := fun pos =>
    let lo := Z.to_nat (Qfloor pos) in
    nth lo s 0
    + (nth (Nat.min (lo + 1) (length s - 1)) s 0 - nth lo s 0)
      * (pos - inject_Z (Z.of_nat lo)) in
  (s <> [] -> value pos1 <= value pos2).
Proof.
  intros Hs H1 H12 H2 value Hne.
  assert (Hn : (0 < length s)%nat) by (destruct s; [congruence|cbn; lia]).
  destruct (rank_floor pos1 (length s)) as (Hl1 & Hf1 & Hg1);
    [exact H1|apply Qle_trans with pos2; assumption|].
  destruct (rank_floor pos2 (length s)) as (Hl2 & Hf2 & Hg2);
    [apply Qle_trans with pos1; assumption|exact H2|].
  assert (Hlo : (Z.to_nat (Qfloor pos1) <= Z.to_nat (Qfloor pos2))%nat).
  { apply Z2Nat.inj_le.
    - rewrite <- (Qfloor_Z 0). apply Qfloor_resp_le. exact H1.
    - rewrite <- (Qfloor_Z 0). apply Qfloor_resp_le.
      apply Qle_trans with pos1; assumption.
    - apply Qfloor_resp_le. exact H12. }
  clear H2.
  unfold value. clear value.
  set (lo1 := Z.to_nat (Qfloor pos1)) in *.
  set (lo2 := Z.to_nat (Qfloor pos2)) in *.
  pose proof (sorted_nth s lo1 (Nat.min (lo1 + 1) (length s - 1)) Hs) as Ha1.
  pose proof (sorted_nth s lo2 (Nat.min (lo2 + 1) (length s - 1)) Hs) as Ha2.
  assert (Hab1 : nth lo1 s 0 <= nth (Nat.min (lo1 + 1) (length s - 1)) s 0)
    by (apply Ha1; lia).
  assert (Hab2 : nth lo2 s 0 <= nth (Nat.min (lo2 + 1) (length s - 1)) s 0)
    by (apply Ha2; lia).
  clear Ha1 Ha2.
  destruct (decide (lo1 = lo2)) as [E|E].
  - rewrite <- E in *.
    set (a := nth lo1 s 0) in *.
    set (b := nth (Nat.min (lo1 + 1) (length s - 1)) s 0) in *.
    set (k := inject_Z (Z.of_nat lo1)) in *. nra.
  - assert (Hmid : nth (Nat.min (lo1 + 1) (length s - 1)) s 0
                   <= nth lo2 s 0) by (apply sorted_nth; [exact Hs|lia|lia]).
    set (a1 := nth lo1 s 0) in *.
    set (b1 := nth (Nat.min (lo1 + 1) (length s - 1)) s 0) in *.
    set (a2 := nth lo2 s 0) in *.
    set (b2 := nth (Nat.min (lo2 + 1) (length s - 1)) s 0) in *.
    set (k1 := inject_Z (Z.of_nat lo1)) in *.
    set (k2 := inject_Z (Z.of_nat lo2)) in *. nra.
Qed.

(** [Series.quantile] grows with the rank: in particular the interquartile
    range is never negative. *)
Lemma col_quantile_mono (p q : Q) (vs : list cell) :
  0 <= p -> p <= q -> q <= 1 ->
  (col_quantile p vs = NaN /\ col_quantile q vs = NaN) \/
  exists a b,
    col_quantile p vs = Fin a /\ col_quantile q vs = Fin b /\ a <= b.
Proof.
  intros Hp Hpq Hq. unfold col_quantile.
  set (s := sort_values (dropna vs)).
  destruct (length s =? 0)%nat eqn:En; [left; split; reflexivity|].
  right. apply Nat.eqb_neq in En.
  assert (Hne : s <> []) by (intros E; rewrite E in En; cbn in En; lia).
  assert (H0 : 0 <= inject_Z (Z.of_nat (length s - 1))).
  { change 0 with (inject_Z 0). rewrite <- Zle_Qle. lia. }
  eexists. eexists. split; [reflexivity|]. split; [reflexivity|].
  rewrite !Qred_correct.
  apply (interpolation_mono s (p * inject_Z (Z.of_nat (length s - 1)))
           (q * inject_Z (Z.of_nat (length s - 1)))).
  - apply sort_values_sorted.
  - nra.
  - nra.
  - nra.
  - exact Hne.
Qed.

Lemma num_ltb_fin (a b : Q) : num_ltb (Fin a) (Fin b) = true <-> a < b.
Proof. apply Qltb_true. Qed.

(** A value above a threshold is above every lower threshold. *)
Lemma num_gtb_mono (z a b : num) :
  num_leb a b = true -> num_gtb z b = true -> num_gtb z a = true.
Proof.
  unfold num_gtb.
  destruct a as [a| | |], b as [b| | |], z as [z| | |]; cbn;
    try discriminate; try reflexivity.
  intros Hab Hbz. apply Qle_bool_iff in Hab.
  apply Qltb_true in Hbz. apply Qltb_true. lra.
Qed.

Lemma iqr_rule_mono (a b t t' : Q) (c : cell) :
  a <= b -> t <= t' ->
  iqr_rule (Fin a) (Fin b) (Fin t') c = true ->
  iqr_rule (Fin a) (Fin b) (Fin t) c = true.
Proof.
  intros Hab Ht. unfold iqr_rule. destruct c as [x|]; [|discriminate].
  unfold num_gtb. cbn [cell_num num_sub num_mul num_add].
  rewrite !orb_true_iff, !num_ltb_fin, !Qred_correct.
  assert (t * (b - a) <= t' * (b - a)) by nra. lra.
Qed.

Lemma iqr_rule_nan (threshold : num) (c : cell) :
  iqr_rule NaN NaN threshold c = false.
Proof. unfold iqr_rule. destruct c, threshold; reflexivity. Qed.

Lemma flagged_rows_sublist (rule1 rule2 : cell -> bool) (dates : list Z)
  (vs : list cell) :
  (forall c, rule1 c = true -> rule2 c = true) ->
  flagged_rows rule1 dates vs `sublist_of` flagged_rows rule2 dates vs.
Proof.
  intros Himp. unfold flagged_rows.
  induction (combine dates vs) as [|r rows IH]; [constructor|].
  cbn [List.filter]. destruct (rule1 (snd r)) eqn:E1.
  - rewrite (Himp _ E1). cbn [map]. apply sublist_skip. exact IH.
  - destruct (rule2 (snd r)); [|exact IH].
    cbn [map]. apply sublist_cons. exact IH.
Qed.

(** The rows flagged by a rule are rows of the table whose value is
    present and satisfies the rule. *)
Lemma flagged_rows_rows (rule : cell -> bool) (dates : list Z)
  (vs : list cell) (d : Z) (v : num) :
  rule None = false ->
  (d, v) ∈ flagged_rows rule dates vs ->
  exists i q,
    dates !! i = Some d /\ vs !! i = Some (Some q) /\ v = Fin q /\
    rule (Some q) = true.
Proof.
  intros Hnone. unfold flagged_rows. revert vs.
  induction dates as [|d0 dates IH]; intros [|v0 vs] Hin; cbn in Hin;
    try (inversion Hin; fail).
  destruct (rule v0) eqn:E; cbn in Hin.
  - apply elem_of_cons in Hin as [Heq|Hin].
    + inversion Heq; subst. destruct v0 as [q|]; [|congruence].
      exists 0%nat, q. repeat split. exact E.
    + destruct (IH vs Hin) as (i & q & H1 & H2 & H3 & H4).
      exists (S i), q. repeat split; assumption.
  - destruct (IH vs Hin) as (i & q & H1 & H2 & H3 & H4).
    exists (S i), q. repeat split; assumption.
Qed.

Lemma flagged_rows_length (rule : cell -> bool) (dates : list Z)
  (vs : list cell) :
  rule None = false ->
  (length (flagged_rows rule dates vs) <= col_count vs)%nat.
Proof.
  intros Hnone. unfold flagged_rows, col_count, dropna. rewrite length_map.
  revert vs. induction dates as [|d dates IH]; intros [|v vs]; cbn;
    try lia.
  specialize (IH vs). destruct v as [q|]; cbn.
  - destruct (rule (Some q)); cbn; lia.
  - rewrite Hnone. exact IH.
Qed.

Section ThresholdProperties.

Variable sqrt : Q -> Q.

Local Abbreviation zscore_of := (fun (threshold : num) (vs : list cell) c =>
  num_gtb (num_abs (num_div (num_sub (cell_num c) (col_mean vs))
                            (col_std sqrt vs))) threshold).

Local Abbreviation iqr_of := (fun (threshold : num) (vs : list cell) =>
  iqr_rule (col_quantile (1 # 4) vs) (col_quantile (3 # 4) vs) threshold).

Lemma detect_zscore_rows (df : DataFrame) (threshold : num) :
  well_formed df ->
  exists anomalies,
    detect_anomalies sqrt df threshold "zscore" = (anomalies, []) /\
    forall name vs,
      (name, NumCol vs) ∈ columns df ->
      anomalies_of anomalies name =
      flagged_rows (zscore_of threshold vs) (index df) vs.
Proof.
  intros Hwf.
  destruct (detect_anomalies_by_rule sqrt df threshold "zscore"
              (fun vs => zscore_mask sqrt vs threshold)
              (zscore_of threshold))
    as (anomalies & Hres & Hrows).
  - intros [m|e] col; reflexivity.
  - reflexivity.
  - exact Hwf.
  - exists anomalies. split; [exact Hres|].
    intros name vs Hcol. apply (Hrows name vs Hcol).
Qed.

Lemma detect_iqr_rows (df : DataFrame) (threshold : num) :
  well_formed df ->
  exists anomalies,
    detect_anomalies sqrt df threshold "iqr" = (anomalies, []) /\
    forall name vs,
      (name, NumCol vs) ∈ columns df ->
      anomalies_of anomalies name =
      flagged_rows (iqr_of threshold vs) (index df) vs.
Proof.
  intros Hwf.
  destruct (detect_anomalies_by_rule sqrt df threshold "iqr"
              (fun vs => iqr_mask vs threshold) (iqr_of threshold))
    as (anomalies & Hres & Hrows).
  - intros [m|e] col; reflexivity.
  - reflexivity.
  - exact Hwf.
  - exists anomalies. split; [exact Hres|].
    intros name vs Hcol. apply (Hrows name vs Hcol).
Qed.

Lemma zscore_of_mono (t t' : Q) (vs : list cell) (c : cell) :
  t <= t' -> zscore_of (Fin t') vs c = true -> zscore_of (Fin t) vs c = true.
Proof.
  intros Ht. apply num_gtb_mono. cbn. apply Qle_bool_iff. exact Ht.
Qed.

Lemma iqr_of_mono (t t' : Q) (vs : list cell) (c : cell) :
  t <= t' -> iqr_of (Fin t') vs c = true -> iqr_of (Fin t) vs c = true.
Proof.
  intros Ht.
  destruct (col_quantile_mono (1 # 4) (3 # 4) vs)
    as [[E1 E3]|(a & b & E1 & E3 & Hab)]; try (unfold Qle; cbn; lia).
  - rewrite E1, E3, iqr_rule_nan. discriminate.
  - rewrite E1, E3. apply iqr_rule_mono; assumption.
Qed.

Lemma zscore_of_none (threshold : num) (vs : list cell) :
  zscore_of threshold vs None = false.
Proof.
  cbn [cell_num]. destruct (col_mean vs), (col_std sqrt vs), threshold;
    reflexivity.
Qed.

Lemma iqr_of_none (threshold : num) (vs : list cell) :
  iqr_of threshold vs None = false.
Proof.
  unfold iqr_rule. cbn [cell_num]. rewrite orb_false_iff. split.
  - reflexivity.
  - unfold num_gtb. destruct (num_add _ _); reflexivity.
Qed.

(** X12. Raising the threshold never adds an anomaly: for both methods
    and every numeric column of a table with unique labels and aligned
    columns, the anomalies listed with a threshold are, in the same order,
    among those listed with any lower threshold.  For the method 'iqr'
    this holds for negative thresholds too, because the interquartile
    range of a column is never negative. *)
Theorem anomalies_threshold_monotone (df : DataFrame) (t t' : Q) :
  well_formed df -> t <= t' ->
  (exists low high,
      detect_anomalies sqrt df (Fin t) "zscore" = (low, []) /\
      detect_anomalies sqrt df (Fin t') "zscore" = (high, []) /\
      forall name vs,
        (name, NumCol vs) ∈ columns df ->
        anomalies_of high name `sublist_of` anomalies_of low name) /\
  (exists low high,
      detect_anomalies sqrt df (Fin t) "iqr" = (low, []) /\
      detect_anomalies sqrt df (Fin t') "iqr" = (high, []) /\
      forall name vs,
        (name, NumCol vs) ∈ columns df ->
        anomalies_of high name `sublist_of` anomalies_of low name).
Proof.
  intros Hwf Ht. split.
  - destruct (detect_zscore_rows df (Fin t) Hwf) as (low & Hlow & Hl).
    destruct (detect_zscore_rows df (Fin t') Hwf) as (high & Hhigh & Hh).
    exists low, high. split; [exact Hlow|]. split; [exact Hhigh|].
    intros name vs Hcol. rewrite (Hl name vs Hcol), (Hh name vs Hcol).
    apply flagged_rows_sublist. intros c. apply zscore_of_mono. exact Ht.
  - destruct (detect_iqr_rows df (Fin t) Hwf) as (low & Hlow & Hl).
    destruct (detect_iqr_rows df (Fin t') Hwf) as (high & Hhigh & Hh).
    exists low, high. split; [exact Hlow|]. split; [exact Hhigh|].
    intros name vs Hcol. rewrite (Hl name vs Hcol), (Hh name vs Hcol).
    apply flagged_rows_sublist. intros c. apply iqr_of_mono. exact Ht.
Qed.

(** X13. An anomaly is always a row of the table: for both methods and
    every numeric column of a table with unique labels and aligned
    columns, each listed pair is the timestamp of a row together with the
    value of the column at that row, and that value is present.  A missing
    value is never listed, so a column has at most as many anomalies as it
    has values. *)
Theorem anomalies_are_rows (df : DataFrame) (threshold : num)
  (method : string) :
  well_formed df -> method = "zscore" \/ method = "iqr" ->
  exists anomalies,
    detect_anomalies sqrt df threshold method = (anomalies, []) /\
    forall name vs,
      (name, NumCol vs) ∈ columns df ->
      (forall d v,
          (d, v) ∈ anomalies_of anomalies name ->
          exists i q,
            index df !! i = Some d /\ vs !! i = Some (Some q) /\
            v = Fin q) /\
      (length (anomalies_of anomalies name) <= col_count vs)%nat.
Proof.
  intros Hwf [-> | ->].
  - destruct (detect_zscore_rows df threshold Hwf) as (m & Hres & Hrows).
    exists m. split; [exact Hres|]. intros name vs Hcol.
    rewrite (Hrows name vs Hcol). split.
    + intros d v Hin.
      destruct (flagged_rows_rows _ _ _ d v (zscore_of_none threshold vs) Hin)
        as (i & q & H1 & H2 & H3 & _).
      exists i, q. auto.
    + apply flagged_rows_length, zscore_of_none.
  - destruct (detect_iqr_rows df threshold Hwf) as (m & Hres & Hrows).
    exists m. split; [exact Hres|]. intros name vs Hcol.
    rewrite (Hrows name vs Hcol). split.
    + intros d v Hin.
      destruct (flagged_rows_rows _ _ _ d v (iqr_of_none threshold vs) Hin)
        as (i & q & H1 & H2 & H3 & _).
      exists i, q. auto.
    + apply flagged_rows_length, iqr_of_none.
Qed.

End ThresholdProperties.

(** Use of X12 on four days with a spike, thresholds 1 and 2. *)
Lemma anomalies_threshold_monotone_witness :
  exists low high,
    detect_anomalies sqrt_sample spike_frame (Fin 1) "zscore" = (low, []) /\
    detect_anomalies sqrt_sample spike_frame (Fin 2) "zscore" = (high, []) /\
    anomalies_of high "A" `sublist_of` anomalies_of low "A".
Proof.
  destruct (anomalies_threshold_monotone sqrt_sample spike_frame 1 2
              spike_frame_well_formed)
    as [(low & high & Hlow & Hhigh & Hsub) _]; [lra|].
  exists low, high. split; [exact Hlow|]. split; [exact Hhigh|].
  apply (Hsub "A" [Some 2; Some 2; Some 2; Some 10]). left.
Defined.

(** Use of X13 on the same table: the one anomaly of the column is its
    fourth row. *)
Lemma anomalies_are_rows_witness :
  exists anomalies,
    detect_anomalies sqrt_sample spike_frame (Fin 1) "zscore"
      = (anomalies, []) /\
    (length (anomalies_of anomalies "A") <= 4)%nat.
Proof.
  destruct (anomalies_are_rows sqrt_sample spike_frame (Fin 1) "zscore"
              spike_frame_well_formed (or_introl eq_refl))
    as (anomalies & Hres & Hrows).
  exists anomalies. split; [exact Hres|].
  apply (Hrows "A" [Some 2; Some 2; Some 2; Some 10]). left.
Defined.


(** ** The refactored loader, [data_loader_refactored.py] *)

Lemma find_ext {A : Type} (f g : A -> bool) (l : list A) :
  (forall x, x ∈ l -> f x = g x) -> List.find f l = List.find g l.
Proof.
  induction l as [|a l IH]; intros H; [reflexivity|].
  cbn. rewrite (H a) by left. destruct (g a); [reflexivity|].
  apply IH. intros x Hx. apply H. right. exact Hx.
Qed.

Lemma same_outcome_ok {A : Type} (r1 r2 : result A) (a : A) :
  same_outcome r1 r2 -> (r1 = Ok a <-> r2 = Ok a).
Proof.
  destruct r1 as [x|e1], r2 as [y|e2]; cbn; intros H; try contradiction.
  - subst y. reflexivity.
  - split; discriminate.
Qed.

Section RefactoredProperties.

Variable lower : string -> string.
Variable suffix : string -> string.
Variable supported_extensions : string.
Variable to_datetime : column -> result (list Z).
Variable path_exists : string -> bool.
Variable read_excel_path : string -> result DataFrame.
Variable read_excel_upload : UploadedFile -> result DataFrame.
Variable read_csv_upload : UploadedFile -> result DataFrame.

Local Abbreviation original :=
  (load_sales_data lower to_datetime path_exists read_excel_path
     read_excel_upload read_csv_upload).
Local Abbreviation refactored :=
  (Refactored.load_sales_data lower suffix supported_extensions to_datetime
     path_exists read_excel_path read_excel_upload read_csv_upload).
Local Abbreviation original_source :=
  (read_source path_exists read_excel_path read_excel_upload
     read_csv_upload).
Local Abbreviation refactored_source :=
  (Refactored._load_dataframe_from_source lower suffix supported_extensions
     path_exists read_excel_path read_excel_upload read_csv_upload).
Local Abbreviation find_date_column :=
  (Refactored._find_date_column lower to_datetime).
Local Abbreviation process :=
  (Refactored._process_sales_dataframe lower to_datetime).

Lemma source_without_upload (file_path : option string) :
  refactored_source file_path None = original_source file_path None.
Proof. destruct file_path; reflexivity. Qed.

Lemma normalise_same_outcome (raw : DataFrame) (dc : string) :
  same_outcome
    (normalise to_datetime raw dc)
    (processed_df ← Refactored._normalize_date_column to_datetime raw dc;
     _ ← Refactored._validate_numeric_columns processed_df;
     Ok processed_df).
Proof.
  unfold normalise, Refactored._normalize_date_column,
    Refactored._validate_numeric_columns,
    Refactored.DEFAULT_DATE_COLUMN_NAME.
  destruct (String.eqb dc "Дата"); cbn [negb].
  - destruct (match filter (fun p => fst p = "Дата") (columns raw) with
              | [(_, c)] => to_datetime c
              | _ => _
              end) as [dates|e]; cbn [mbind result_bind].
    + destruct (length (numeric_columns _) =? 0)%nat; reflexivity.
    + destruct (Refactored.value_or_type_error e); exact I.
  - destruct (match filter (fun p => fst p = "Дата")
                      (columns (rename raw dc "Дата")) with
              | [(_, c)] => to_datetime c
              | _ => _
              end) as [dates|e]; cbn [mbind result_bind].
    + destruct (length (numeric_columns _) =? 0)%nat; reflexivity.
    + destruct (Refactored.value_or_type_error e); exact I.
Qed.

Lemma process_same_outcome (raw : DataFrame) :
  (forall name, name ∈ column_names raw ->
                Refactored.has_date_indicator lower name
                = is_date_name lower name) ->
  same_outcome
    (date_column ← locate_date_column lower to_datetime raw;
     normalise to_datetime raw date_column)
    (process raw).
Proof.
  intros Hnames.
  unfold locate_date_column, Refactored._process_sales_dataframe,
    Refactored._find_date_column.
  rewrite (find_ext _ _ _ Hnames).
  destruct (List.find (is_date_name lower) (column_names raw)) as [dc|].
  - replace (match head (column_names raw) with
             | Some _ | _ => Ok (Some dc)
             end) with (@Ok (option string) (Some dc))
      by (destruct (head (column_names raw)); reflexivity).
    cbn [mbind result_bind]. apply normalise_same_outcome.
  - destruct (head (column_names raw)) as [fc|]; [|exact I].
    unfold Refactored._is_valid_date_column.
    destruct (c ← match getitem raw fc with
                  | Some c => Ok c
                  | None => Raise (OtherError ("KeyError: " +:+ fc))
                  end; to_datetime (col_head c)) as [ts|e];
      cbn [mbind result_bind].
    + apply normalise_same_outcome.
    + destruct (Refactored.value_or_type_error e); exact I.
Qed.

(** X14. Without an uploaded file the refactored loader reads the same
    source as the original one.  If the two name tests classify the column
    labels of the table read alike, both loaders return the same table, and
    one reports a message exactly when the other does (the messages can
    differ). *)
Theorem refactored_load_agrees (file_path : option string) :
  (forall raw name,
      original_source file_path None = Ok raw -> name ∈ column_names raw ->
      Refactored.has_date_indicator lower name = is_date_name lower name) ->
  refactored_source file_path None = original_source file_path None /\
  fst (refactored file_path None) = fst (original file_path None) /\
  (snd (refactored file_path None) = []
   <-> snd (original file_path None) = []).
Proof.
  intros Hnames. split; [apply source_without_upload|].
  unfold Refactored.load_sales_data, Refactored.load_sales_data_body,
    load_sales_data, load_sales_data_body.
  rewrite source_without_upload.
  destruct (original_source file_path None) as [raw|e] eqn:Hsrc;
    cbn [mbind result_bind]; [|split; [reflexivity|split; discriminate]].
  pose proof (process_same_outcome raw
                (fun name => Hnames raw name eq_refl)) as Hsame.
  destruct (date_column ← locate_date_column lower to_datetime raw;
            normalise to_datetime raw date_column) as [df|e1];
    destruct (process raw) as [df'|e2]; cbn in Hsame; try contradiction.
  - subst df'. split; [reflexivity|]. split; reflexivity.
  - split; [reflexivity|]. split; discriminate.
Qed.

(** X15. On a table with unique labels the refactored loader looks for
    the date column in this order:
    the first label whose lower-cased form contains 'дата', 'date', 'время'
    or 'unnamed: 0'; otherwise the first column, when its first five
    values parse as timestamps.  When that parse fails with a [ValueError]
    or a [TypeError], or the table has no column, no column is found and
    the loader returns the empty table with the message "Столбец с датами
    не найден"; any other exception of the parse is passed on as it is. *)
Theorem refactored_date_column_priority (df : DataFrame) :
  NoDup (column_names df) ->
  (forall (pre : list string) (col : string) (post : list string),
      column_names df = pre ++ col :: post ->
      Forall (fun c => Refactored.has_date_indicator lower c = false) pre ->
      Refactored.has_date_indicator lower col = true ->
      find_date_column df = Ok (Some col)) /\
  (forall (fc : string) (c : column) (rest : list (string * column)),
      columns df = (fc, c) :: rest ->
      Forall (fun n => Refactored.has_date_indicator lower n = false)
             (column_names df) ->
      (forall ts, to_datetime (col_head c) = Ok ts ->
                  find_date_column df = Ok (Some fc)) /\
      (forall e, to_datetime (col_head c) = Raise e ->
                 find_date_column df =
                 if Refactored.value_or_type_error e then Ok None
                 else Raise e)) /\
  (columns df = [] -> find_date_column df = Ok None) /\
  (forall (file_path : option string) (uploaded_file : option UploadedFile),
      refactored_source file_path uploaded_file = Ok df ->
      find_date_column df = Ok None ->
      refactored file_path uploaded_file =
      (empty_frame,
       ["Ошибка при загрузке данных: Столбец с датами не найден"])).
Proof.
  intros _. split; [|split; [|split]].
  - intros pre col post Hnames Hpre Hcol.
    unfold Refactored._find_date_column.
    rewrite Hnames, (find_first_match _ pre col post Hpre Hcol).
    reflexivity.
  - intros fc c rest Hcols Hnone.
    assert (E : find_date_column df =
                match to_datetime (col_head c) with
                | Ok _ => Ok (Some fc)
                | Raise e =>
                    if Refactored.value_or_type_error e then Ok None
                    else Raise e
                end).
    { unfold Refactored._find_date_column.
      rewrite (find_no_match _ _ Hnone).
      unfold Refactored._is_valid_date_column, column_names, getitem.
      rewrite Hcols. cbn. rewrite String.eqb_refl. cbn.
      destruct (to_datetime (col_head c)) as [ts|e]; [reflexivity|].
      destruct (Refactored.value_or_type_error e); reflexivity. }
    split.
    + intros ts Hts. rewrite E, Hts. reflexivity.
    + intros e He. rewrite E, He. reflexivity.
  - intros Hcols. unfold Refactored._find_date_column, column_names.
    rewrite Hcols. reflexivity.
  - intros file_path uploaded_file Hsrc Hnone.
    unfold Refactored.load_sales_data, Refactored.load_sales_data_body.
    rewrite Hsrc. cbn [mbind result_bind].
    unfold Refactored._process_sales_dataframe. rewrite Hnone.
    reflexivity.
Qed.

Lemma refactored_process_ok (raw res : DataFrame) :
  process raw = Ok res ->
  numeric_columns res <> [] /\ "Дата" ∉ column_names res.
Proof.
  unfold Refactored._process_sales_dataframe.
  destruct (find_date_column raw) as [[dc|]|e]; cbn [mbind result_bind];
    try discriminate.
  unfold Refactored._normalize_date_column,
    Refactored._validate_numeric_columns,
    Refactored.DEFAULT_DATE_COLUMN_NAME.
  set (df1 := if negb (String.eqb dc "Дата") then rename raw dc "Дата"
              else raw).
  destruct (match filter (fun p => fst p = "Дата") (columns df1) with
            | [(_, c)] => to_datetime c
            | _ => _
            end) as [dates|e]; cbn [mbind result_bind].
  - destruct (length _ =? 0)%nat eqn:E; cbn [mbind result_bind];
      [discriminate|].
    intros H. inversion H; subst res; clear H. split.
    + intros Hnil. apply Nat.eqb_neq in E. apply E.
      exact (f_equal length Hnil).
    + apply filter_label_names.
  - destruct (Refactored.value_or_type_error e); discriminate.
Qed.

(** X16. Whatever the input, the refactored [load_sales_data] ends like
    the original one: it reports nothing and returns a table that has at
    least one numeric column and no column labelled 'Дата', or it reports
    one message and returns the empty table. *)
Theorem refactored_load_outcome (file_path : option string)
  (uploaded_file : option UploadedFile) :
  let df := fst (refactored file_path uploaded_file) in
  let reported := snd (refactored file_path uploaded_file) in
  (reported = [] /\ numeric_columns df <> [] /\ "Дата" ∉ column_names df) \/
  (df = empty_frame /\ length reported = 1%nat).
Proof.
  cbn zeta.
  unfold Refactored.load_sales_data, Refactored.load_sales_data_body.
  destruct (refactored_source file_path uploaded_file) as [raw|e];
    cbn [mbind result_bind]; [|right; split; reflexivity].
  destruct (process raw) as [res|e] eqn:E; [|right; split; reflexivity].
  left. split; [reflexivity|]. apply (refactored_process_ok raw res E).
Qed.

End RefactoredProperties.

(** X17. The refactored date filter and the original one return the same
    rows on a table that is not empty when the range is not reversed.  On
    a reversed range the refactored filter reports an error and returns
    the empty table, where the original one reports nothing and keeps the
    columns; an empty table comes back from the refactored filter as it
    is. *)
Theorem refactored_filter_compared (df : DataFrame)
  (start_date end_date : pydate) :
  (df_empty df = false ->
   (to_timestamp start_date <= to_timestamp end_date)%Z ->
   Refactored.filter_data_by_date_range df start_date end_date =
   filter_data_by_date df start_date end_date) /\
  (df_empty df = false ->
   (to_timestamp end_date < to_timestamp start_date)%Z ->
   Refactored.filter_data_by_date_range df start_date end_date =
   (empty_frame,
    ["Ошибка при фильтрации данных: Начальная дата не может быть позже конечной"])
   /\ snd (filter_data_by_date df start_date end_date) = []
   /\ column_names (fst (filter_data_by_date df start_date end_date))
      = column_names df) /\
  (df_empty df = true ->
   Refactored.filter_data_by_date_range df start_date end_date = (df, [])).
Proof.
  unfold Refactored.filter_data_by_date_range,
    Refactored.filter_data_by_date_range_body.
  split; [|split].
  - intros Hne Hle. rewrite Hne.
    replace (to_timestamp end_date <? to_timestamp start_date)%Z with false
      by (symmetry; apply Z.ltb_ge; exact Hle).
    reflexivity.
  - intros Hne Hlt. rewrite Hne.
    replace (to_timestamp end_date <? to_timestamp start_date)%Z with true
      by (symmetry; apply Z.ltb_lt; exact Hlt).
    split; [reflexivity|]. split; [reflexivity|].
    unfold filter_data_by_date, filter_data_by_date_body. cbn [fst].
    apply select_rows_names.
  - intros He. rewrite He. reflexivity.
Qed.

(** Use of X14 on a default file whose first column holds the dates. *)
Lemma refactored_load_agrees_witness :
  fst (Refactored.load_sales_data lower_basic (fun s => s)
         ".xlsx, .xls, .csv" to_datetime_sample (fun _ => true)
         (fun _ => Ok raw_first_dates) (reader_sample raw_first_dates)
         (reader_sample raw_first_dates) None None)
  = fst (load_sales_data lower_basic to_datetime_sample (fun _ => true)
           (fun _ => Ok raw_first_dates) (reader_sample raw_first_dates)
           (reader_sample raw_first_dates) None None).
Proof.
  apply (refactored_load_agrees lower_basic (fun s => s) ".xlsx, .xls, .csv"
           to_datetime_sample (fun _ => true) (fun _ => Ok raw_first_dates)
           (reader_sample raw_first_dates) (reader_sample raw_first_dates)
           None).
  intros raw name Hsrc Hin. cbn in Hsrc. inversion Hsrc; subst raw.
  cbn in Hin. apply elem_of_cons in Hin as [->|Hin]; [reflexivity|].
  apply list_elem_of_singleton in Hin. subst name. reflexivity.
Defined.

(** The label 'UNNAMED: 0' is a date column for the refactored loader
    only: the original one takes the first column for the dates and then
    finds no numeric column. *)
Example refactored_load_differs :
  let raw := mkFrame [0; 1]%Z [("P", NumCol [Some 1; Some 2]);
                              ("UNNAMED: 0", DateCol [10; 11]%Z)] in
  Refactored.load_sales_data lower_basic (fun s => s) ".xlsx, .xls, .csv"
    to_datetime_sample (fun _ => true) (fun _ => Ok raw)
    (reader_sample raw) (reader_sample raw) None None
  = (mkFrame [10; 11]%Z [("P", NumCol [Some 1; Some 2])], []) /\
  load_sales_data lower_basic to_datetime_sample (fun _ => true)
    (fun _ => Ok raw) (reader_sample raw) (reader_sample raw) None None
  = (empty_frame,
     ["Ошибка при загрузке данных: Не найдены числовые столбцы с данными"]).
Proof. split; reflexivity. Qed.

(** Use of X15 on a table whose first column is text: the refactored
    loader reports that no date column was found. *)
Lemma refactored_date_column_priority_witness :
  Refactored.load_sales_data lower_basic (fun s => s) ".xlsx, .xls, .csv"
    to_datetime_sample (fun _ => true) (fun _ => Ok raw_text_first)
    (reader_sample raw_text_first) (reader_sample raw_text_first) None None
  = (empty_frame,
     ["Ошибка при загрузке данных: Столбец с датами не найден"]).
Proof.
  destruct (refactored_date_column_priority lower_basic (fun s => s)
              ".xlsx, .xls, .csv" to_datetime_sample (fun _ => true)
              (fun _ => Ok raw_text_first) (reader_sample raw_text_first)
              (reader_sample raw_text_first) raw_text_first)
    as (_ & Hfirst & _ & Hload); [by_evaluation|].
  apply Hload; [reflexivity|].
  destruct (Hfirst "x" (ObjCol ["a"; "b"])
              [("P", NumCol [Some 1; Some 2])] eq_refl) as [_ Hfail].
  - repeat constructor.
  - apply (Hfail (ValueError "Unknown datetime string format")).
    reflexivity.
Defined.

(** Use of X17 on three days and a reversed range. *)
Lemma refactored_filter_compared_witness :
  Refactored.filter_data_by_date_range daily_frame (Date 2) (Date 1) =
  (empty_frame,
   ["Ошибка при фильтрации данных: Начальная дата не может быть позже конечной"])
  /\ column_names (fst (filter_data_by_date daily_frame (Date 2) (Date 1)))
     = ["A"].
Proof.
  destruct (refactored_filter_compared daily_frame (Date 2) (Date 1))
    as (_ & Hrev & _).
  destruct (Hrev eq_refl) as (Hnew & _ & Hold); [reflexivity|].
  split; [exact Hnew|exact Hold].
Defined.

(** ** The sign of the growth rate *)

Lemma growth_rate_value (f l : Q) (mid : list cell) :
  ~ f == 0 ->
  exists r : Q,
    _calculate_growth_rate (Some f :: mid ++ [Some l]) = Fin r /\
    r * f == (l - f) * 100.
Proof.
  intros Hf. rewrite growth_rate_long. cbn [cell_num num_eqb].
  replace (Qeq_bool f 0) with false
    by (symmetry; apply (Qis0_false f); exact Hf).
  cbn [num_sub num_div]. rewrite (proj2 (Qis0_false f) Hf).
  cbn [num_mul]. eexists. split; [reflexivity|].
  rewrite !Qred_correct. field. exact Hf.
Qed.




(** ** The date filter followed by the statistics *)

Lemma select_rows_numeric_columns (mask : list bool) (df : DataFrame) :
  numeric_columns (select_rows mask df) = numeric_columns df.
Proof.
  unfold numeric_columns, select_rows. cbn [columns].
  induction (columns df) as [|[n c] cols IH]; [reflexivity|].
  cbn [map fst snd]. destruct c; cbn [select_column].
  - rewrite !filter_cons_True by reflexivity. cbn [map fst]. f_equal.
    exact IH.
  - rewrite !filter_cons_False by (cbn; congruence). exact IH.
  - rewrite !filter_cons_False by (cbn; congruence). exact IH.
Qed.

(** X19. The page computes the statistics on the table that the date
    filter returns.  When that table is not empty, and the table filtered
    has unique labels and aligned columns, nothing is reported and every
    numeric column gets the statistics of its values at the rows whose
    timestamp lies in the range; the columns that are not numeric get no
    entry. *)
Theorem statistics_after_filter (sqrt : Q -> Q) (df : DataFrame)
  (start_date end_date : pydate) :
  well_formed df ->
  let keep := in_range (to_timestamp start_date) (to_timestamp end_date) in
  let filtered_df := fst (filter_data_by_date df start_date end_date) in
  df_empty filtered_df = false ->
  exists statistics,
    calculate_basic_statistics sqrt filtered_df = (statistics, []) /\
    (forall name vs,
        (name, NumCol vs) ∈ columns df ->
        statistics !! name =
        Some (column_stats sqrt
                (map snd (List.filter (fun r => keep (fst r))
                            (combine (index df) vs))))) /\
    (forall name, name ∉ numeric_columns df -> statistics !! name = None).
Proof.
  intros Hwf keep filtered_df Hne.
  assert (Hwf' : well_formed filtered_df)
    by (apply select_rows_well_formed; exact Hwf).
  destruct (basic_statistics_nonempty sqrt filtered_df Hne Hwf')
    as (statistics & Hres & Hin & Hout).
  exists statistics. split; [exact Hres|]. split.
  - intros name vs Hcol. apply Hin.
    unfold filtered_df, filter_data_by_date, filter_data_by_date_body,
      select_rows.
    cbn [fst columns]. rewrite map_fmap. apply list_elem_of_fmap.
    exists (name, NumCol vs). split; [|exact Hcol].
    cbn. unfold date_mask. rewrite select_mask_aligned. reflexivity.
  - intros name Hname. apply Hout.
    unfold filtered_df, filter_data_by_date, filter_data_by_date_body.
    cbn [fst]. rewrite select_rows_numeric_columns. exact Hname.
Qed.

(** Use of X19 on three days, the first two kept. *)
Lemma statistics_after_filter_witness :
  exists statistics,
    calculate_basic_statistics sqrt_sample
      (fst (filter_data_by_date daily_frame (Date 0) (Date 1)))
    = (statistics, []) /\
    statistics !! "A" = Some (column_stats sqrt_sample [Some 1; Some 2]).
Proof.
  assert (Hwf : well_formed daily_frame).
  { split; [by_evaluation|repeat constructor]. }
  destruct (statistics_after_filter sqrt_sample daily_frame (Date 0) (Date 1)
              Hwf eq_refl) as (statistics & Hres & Hin & _).
  exists statistics. split; [exact Hres|].
  apply (Hin "A" [Some 1; Some 2; Some 3]). left.
Defined.

(** ** A constant column in the correlation matrix *)

Lemma complete_pairs_constant (q : Q) (xs ys : list cell) :
  constant_series q xs ->
  Forall (fun x => x == q) (map fst (complete_pairs xs ys)).
Proof.
  unfold constant_series. intros H. revert ys.
  induction H as [|x xs Hx _ IH]; intros ys; [constructor|].
  destruct ys as [|y ys]; [destruct x; constructor|].
  destruct x as [a|], y as [b|]; cbn [complete_pairs]; try apply IH.
  cbn [map fst]. constructor; [exact Hx|apply IH].
Qed.

Section ConstantColumn.

Variable sqrt : Q -> Q.
Hypothesis sqrt_zero : sqrt 0 == 0.

Lemma pearson_constant (q : Q) (xs ys : list cell) :
  constant_series q xs -> pearson sqrt xs ys = NaN.
Proof.
  intros Hc. unfold pearson.
  pose proof (complete_pairs_constant q xs ys Hc) as Hall.
  destruct (complete_pairs xs ys) as [|p ps]; [reflexivity|].
  set (l := p :: ps) in *. cbv zeta.
  assert (E : Qred (Qssq (map fst l) * Qssq (map snd l)) = 0).
  { transitivity (Qred 0); [|reflexivity]. apply Qred_eq.
    rewrite (Qssq_const q _ Hall). ring. }
  rewrite E. replace (Qis0 (sqrt 0)) with true; [reflexivity|].
  symmetry. apply Qis0_true. exact sqrt_zero.
Qed.

(** X20. A numeric column whose values are all equal has no correlation
    with any column: on a table with unique labels that is not empty, its whole row and its
    whole column of the correlation matrix are [NaN], the diagonal entry
    included, and no error is reported. *)
Theorem correlation_constant_column (df : DataFrame) (i : nat)
  (name : string) (vs : list cell) (q : Q) :
  NoDup (column_names df) -> df_empty df = false ->
  numeric_series df !! i = Some (name, vs) ->
  constant_series q vs ->
  exists m,
    calculate_correlation_matrix sqrt df = (m, []) /\
    forall j, (j < length (numeric_series df))%nat ->
              entry m i j = Some NaN /\ entry m j i = Some NaN.
Proof.
  intros _ Hne Hi Hc.
  unfold calculate_correlation_matrix, calculate_correlation_matrix_body.
  rewrite Hne. eexists. split; [reflexivity|].
  intros j Hj.
  assert (E : entry (corr sqrt (numeric_series df)) i j = Some NaN).
  { rewrite corr_entry, Hi.
    destruct (lookup_lt_is_Some_2 _ _ Hj) as [c Hcj]. rewrite Hcj.
    cbn [snd]. rewrite (pearson_constant q); [reflexivity|exact Hc]. }
  split; [exact E|]. rewrite corr_symmetric. exact E.
Qed.

End ConstantColumn.

(** Use of X20 on a table with one constant column. *)
Lemma correlation_constant_column_witness :
  exists m,
    calculate_correlation_matrix sqrt_sample flat_frame = (m, []) /\
    entry m 0 0 = Some NaN.
Proof.
  destruct (correlation_constant_column sqrt_sample sqrt_sample_zero
              flat_frame 0 "A" [Some 7; Some 7; Some 7] 7)
    as (m & Hres & Hrow).
  - by_evaluation.
  - reflexivity.
  - reflexivity.
  - repeat constructor.
  - exists m. split; [exact Hres|]. apply (Hrow 0%nat). cbn. lia.
Defined.
